(** * generate_readme.py: notebook metadata extraction and README generation

    A shallow embedding of [generate_readme.py].

    Text.  A Python string is a [string] that holds its UTF-8 encoding,
    which is also how the literals of the program stand in the source
    file.  A character is a byte that does not continue a character,
    with the continuation bytes that follow it: [len], slicing and
    [strip] work on characters, and the whitespace class is the one of
    [str.isspace] on every code point.  Searching, splitting at an ASCII
    character, replacing and comparing are the same on the bytes as on
    the characters.  [str.title], whose case mapping is the one of the
    Unicode database, is a parameter of the development; [str.lower] is
    used for the search of an ASCII word only and is modelled on ASCII
    letters.  Python integers are [Z].

    Failures.  The calls of the program run in a state monad with
    exceptions in which the state survives a raise: the dictionary
    [metadata] is a record that the body of the [try] block updates in
    place, so a failure in the middle of the block leaves the fields
    assigned so far.  A parsed notebook is a list of cells whose
    attributes may be missing, which is how [nbformat] hands over a
    document that does not follow the schema.

    Files.  The file system is what [os.path.exists], [os.listdir],
    [os.path.getmtime] and [open] observe of it, path by path as the
    program spells the paths, and a write updates these observations.
    Each of these calls but [os.path.exists] can fail: the program guards
    the reading of a notebook with [try], and calls the others unguarded,
    so their failure ends the run.  The text is well-formed Unicode, which
    the standard output and a file opened for writing accept: [print] and
    the write to an opened file succeed.  The clock gives a new reading at
    each call of [datetime.now]. *)

From Stdlib Require Import String Ascii List ZArith Lia Bool DecimalString.
From Stdlib Require Import Permutation Sorted.
Import ListNotations.
Local Open Scope string_scope.

(** ** Python string operations *)

Module PyStr.

Definition nl : string := String (ascii_of_nat 10) EmptyString.

Definition code (c : ascii) : nat := nat_of_ascii c.

(** A byte from 128 to 191 continues the character before it; every other
    byte starts a character. *)
Definition is_continuation (c : ascii) : bool :=
  (128 <=? code c)%nat && (code c <=? 191)%nat.

(** The characters of a string, each with its bytes.  [chars_from] also
    gives the continuation bytes at the head of the string. *)
Fixpoint chars_from (s : string) : string * list string :=
  match s with
  | EmptyString => (EmptyString, [])
  | String c s' =>
      let '(k, l) := chars_from s' in
      if is_continuation c then (String c k, l)
      else (EmptyString, String c k :: l)
  end.

Definition chars (s : string) : list string :=
  let '(k, l) := chars_from s in
  match k with
  | EmptyString => l
  | _ => k :: l
  end.

(** [chr(n)]: the character of code point [n], in UTF-8. *)
Definition chr (n : N) : string :=
  if (n <? 128)%N then String (ascii_of_N n) EmptyString
  else if (n <? 2048)%N then
    String (ascii_of_N (192 + n / 64))
      (String (ascii_of_N (128 + n mod 64)) EmptyString)
  else if (n <? 65536)%N then
    String (ascii_of_N (224 + n / 4096))
      (String (ascii_of_N (128 + (n / 64) mod 64))
         (String (ascii_of_N (128 + n mod 64)) EmptyString))
  else
    String (ascii_of_N (240 + n / 262144))
      (String (ascii_of_N (128 + (n / 4096) mod 64))
         (String (ascii_of_N (128 + (n / 64) mod 64))
            (String (ascii_of_N (128 + n mod 64)) EmptyString))).

(** The code points of the characters for which [str.isspace] holds: the
    ASCII ones (tab to carriage return, the separators 28 to 31, the
    space), U+0085, U+00A0, U+1680, U+2000 to U+200A, U+2028, U+2029,
    U+202F, U+205F and U+3000. *)
Definition whitespace : list N :=
  [ 9; 10; 11; 12; 13; 28; 29; 30; 31; 32; 133; 160; 5760;
    8192; 8193; 8194; 8195; 8196; 8197; 8198; 8199; 8200; 8201; 8202;
    8232; 8233; 8239; 8287; 12288 ]%N.

(** [c.isspace()] on one character. *)
Definition is_space (c : string) : bool :=
  existsb (fun n => c =? chr n) whitespace.

Definition is_upper (c : ascii) : bool :=
  (65 <=? code c)%nat && (code c <=? 90)%nat.
Definition is_lower (c : ascii) : bool :=
  (97 <=? code c)%nat && (code c <=? 122)%nat.

Definition to_lower (c : ascii) : ascii :=
  if is_upper c then ascii_of_nat (code c + 32) else c.
Definition to_upper (c : ascii) : ascii :=
  if is_lower c then ascii_of_nat (code c - 32) else c.

Fixpoint map_chars (f : ascii -> ascii) (s : string) : string :=
  match s with
  | EmptyString => EmptyString
  | String c s' => String (f c) (map_chars f s')
  end.

(** [s.lower()] on the ASCII letters of [s].  The program lowers a text
    only to search it for an ASCII word, and no other character becomes
    an ASCII letter of that word when it is lowered. *)
Definition lower (s : string) : string := map_chars to_lower s.

Fixpoint lstrip_with (p : ascii -> bool) (s : string) : string :=
  match s with
  | EmptyString => EmptyString
  | String c s' => if p c then lstrip_with p s' else s
  end.

Fixpoint rstrip_with (p : ascii -> bool) (s : string) : string :=
  match s with
  | EmptyString => EmptyString
  | String c s' =>
      match rstrip_with p s' with
      | EmptyString => if p c then EmptyString else String c EmptyString
      | r => String c r
      end
  end.

Definition strip_with (p : ascii -> bool) (s : string) : string :=
  rstrip_with p (lstrip_with p s).

Fixpoint drop_while {A} (p : A -> bool) (l : list A) : list A :=
  match l with
  | [] => []
  | x :: l' => if p x then drop_while p l' else l
  end.

(** [s.strip()]: the whitespace characters at both ends are dropped. *)
Definition strip (s : string) : string :=
  String.concat EmptyString
    (rev (drop_while is_space (rev (drop_while is_space (chars s))))).

Definition mem_char (chars : string) (c : ascii) : bool :=
  existsb (Ascii.eqb c) (list_ascii_of_string chars).

(** [s.strip(chars)] and [s.lstrip(chars)] *)
Definition strip_chars (chars s : string) : string :=
  strip_with (mem_char chars) s.
Definition lstrip_chars (chars s : string) : string :=
  lstrip_with (mem_char chars) s.

(** [s.split(sep)] for a separator of one character. *)
Fixpoint split (sep : ascii) (s : string) : list string :=
  match s with
  | EmptyString => [EmptyString]
  | String c s' =>
      if Ascii.eqb c sep then EmptyString :: split sep s'
      else match split sep s' with
           | [] => [String c EmptyString]
           | l :: ls => String c l :: ls
           end
  end.

(** [s.startswith(p)] *)
Definition startswith (s p : string) : bool := prefix p s.

(** [s.endswith(p)] *)
Definition endswith (s p : string) : bool :=
  (String.length p <=? String.length s)%nat &&
  (substring (String.length s - String.length p) (String.length p) s =? p).

(** [sub in s] *)
Fixpoint contains (sub s : string) : bool :=
  prefix sub s ||
  match s with
  | EmptyString => false
  | String _ s' => contains sub s'
  end.

(** [s.replace(old, new)] for a non-empty [old]: occurrences are found
    from the left and do not overlap; [skip] counts the characters of the
    occurrence still to be dropped. *)
Fixpoint replace_from (old new : string) (skip : nat) (s : string) : string :=
  match s with
  | EmptyString => EmptyString
  | String c s' =>
      match skip with
      | S k => replace_from old new k s'
      | O =>
          if prefix old s
          then new ++ replace_from old new (String.length old - 1) s'
          else String c (replace_from old new 0 s')
      end
  end.

Fixpoint intersperse (new s : string) : string :=
  match s with
  | EmptyString => EmptyString
  | String c s' => String c (new ++ intersperse new s')
  end.

Definition replace (old new s : string) : string :=
  match old with
  | EmptyString => new ++ intersperse new s
  | _ => replace_from old new 0 s
  end.

(** [s.title()] on a string of ASCII characters: a letter is upper-cased
    when the character before it is not a letter, and lower-cased
    otherwise. *)
Fixpoint title_from (prev_cased : bool) (s : string) : string :=
  match s with
  | EmptyString => EmptyString
  | String c s' =>
      if is_lower c
      then String (if prev_cased then c else to_upper c) (title_from true s')
      else if is_upper c
      then String (if prev_cased then to_lower c else c) (title_from true s')
      else String c (title_from false s')
  end.

Definition title_ascii (s : string) : string := title_from false s.

(** [s[:n]]: the first [n] characters.  The bytes are kept up to the byte
    that starts character [n]. *)
Fixpoint take (n : nat) (s : string) : string :=
  match s with
  | EmptyString => EmptyString
  | String c s' =>
      if is_continuation c then String c (take n s')
      else match n with
           | O => EmptyString
           | S n' => String c (take n' s')
           end
  end.

(** [len(s)]: the number of characters, which is the number of bytes that
    start one. *)
Fixpoint count_chars (s : string) : nat :=
  match s with
  | EmptyString => O
  | String c s' => (if is_continuation c then 0 else 1) + count_chars s'
  end.

Definition len (s : string) : Z := Z.of_nat (count_chars s).

(** [sep.join(ls)] *)
Definition join (sep : string) (ls : list string) : string := String.concat sep ls.

(** [str(n)] for an integer, as an f-string prints it. *)
Definition of_int (n : Z) : string := NilZero.string_of_int (Z.to_int n).

(** [os.path.basename] on a POSIX path: what follows the last slash. *)
Definition basename (p : string) : string := last (split "/" p) EmptyString.

(** [os.path.join] of two components on a POSIX path. *)
Definition path_join (a b : string) : string :=
  if startswith b "/" then b
  else if (a =? EmptyString) || endswith a "/" then a ++ b
  else a ++ "/" ++ b.

(** [list.sort()] on strings: ascending in the order of their characters. *)
Fixpoint insert_sorted (x : string) (l : list string) : list string :=
  match l with
  | [] => [x]
  | y :: l' => if String.leb x y then x :: l else y :: insert_sorted x l'
  end.

Fixpoint sort (l : list string) : list string :=
  match l with
  | [] => []
  | x :: l' => insert_sorted x (sort l')
  end.

End PyStr.

(** ** Exceptions and the state monad of the embedding *)

(** What a call can raise here: an [Exception] (any of its subclasses,
    with the text that [str(e)] gives), or the [SystemExit] that
    [sys.exit] raises, which [except Exception] does not catch. *)
Inductive exn : Type :=
| Exception (msg : string)
| SystemExit (status : Z).

Inductive outcome (A : Type) : Type :=
| Returns (a : A)
| Raises (e : exn).
Arguments Returns {A} a.
Arguments Raises {A} e.

(** A computation over a mutable state [S]: the state survives a raise. *)
Definition Py (S A : Type) : Type := S -> outcome A * S.

Definition ret {S A} (a : A) : Py S A := fun s => (Returns a, s).

Definition bind {S A B} (c : Py S A) (k : A -> Py S B) : Py S B :=
  fun s =>
    match c s with
    | (Returns a, s') => k a s'
    | (Raises e, s') => (Raises e, s')
    end.

Definition raise {S A} (e : exn) : Py S A := fun s => (Raises e, s).

Definition gets {S A} (f : S -> A) : Py S A := fun s => (Returns (f s), s).

Definition modify {S} (f : S -> S) : Py S unit := fun s => (Returns tt, f s).

Notation "x <- c ;; k" := (bind c (fun x => k))
  (at level 61, c at next level, right associativity).
Notation "c ;; k" := (bind c (fun _ => k))
  (at level 61, right associativity).

(** A library call that fails raises an [Exception] with the given text. *)
Definition lift {S A} (r : string + A) : Py S A :=
  match r with
  | inl msg => raise (Exception msg)
  | inr a => ret a
  end.

(** A [for] loop whose body updates local variables [acc]. *)
Fixpoint for_each {S A B} (l : list A) (acc : B) (body : B -> A -> Py S B)
  : Py S B :=
  match l with
  | [] => ret acc
  | x :: l' => acc' <- body acc x ;; for_each l' acc' body
  end.

(** ** Data model *)

(** A cell of a parsed notebook.  [nbformat] returns cells as attribute
    dictionaries: reading an attribute that the document does not have
    raises [AttributeError] with the attribute name as its text.  A
    [source] that is there but is not a string (a null) makes the method
    call on it raise at the same place; it stands here as a missing
    [source], with which it shares the record that is returned, and from
    which it differs by the text of the warning only. *)
Record cell : Type := {
  cell_type : option string;
  source : option string
}.

Definition notebook : Type := list cell.

Definition getattr {S} (name : string) (field : option string) : Py S string :=
  match field with
  | Some v => ret v
  | None => raise (Exception name)
  end.

Record metadata : Type := {
  title : string;
  description : string;
  has_plotly : bool;
  cell_count : Z;
  markdown_cells : Z;
  code_cells : Z
}.

Definition set_title (v : string) (m : metadata) : metadata :=
  {| title := v; description := description m; has_plotly := has_plotly m;
     cell_count := cell_count m; markdown_cells := markdown_cells m;
     code_cells := code_cells m |}.
Definition set_description (v : string) (m : metadata) : metadata :=
  {| title := title m; description := v; has_plotly := has_plotly m;
     cell_count := cell_count m; markdown_cells := markdown_cells m;
     code_cells := code_cells m |}.
Definition set_has_plotly (v : bool) (m : metadata) : metadata :=
  {| title := title m; description := description m; has_plotly := v;
     cell_count := cell_count m; markdown_cells := markdown_cells m;
     code_cells := code_cells m |}.
Definition set_cell_count (v : Z) (m : metadata) : metadata :=
  {| title := title m; description := description m; has_plotly := has_plotly m;
     cell_count := v; markdown_cells := markdown_cells m;
     code_cells := code_cells m |}.
Definition set_markdown_cells (v : Z) (m : metadata) : metadata :=
  {| title := title m; description := description m; has_plotly := has_plotly m;
     cell_count := cell_count m; markdown_cells := v;
     code_cells := code_cells m |}.
Definition set_code_cells (v : Z) (m : metadata) : metadata :=
  {| title := title m; description := description m; has_plotly := has_plotly m;
     cell_count := cell_count m; markdown_cells := markdown_cells m;
     code_cells := v |}.

(** One entry of [folder_info]. *)
Record folder_descriptor : Type := {
  fd_title : string;
  fd_description : string;
  fd_objectives : list string
}.

(** [folder_info]: a dictionary whose iteration order is the order of
    declaration, kept as an association list. *)
Definition folder_info : list (string * folder_descriptor) :=
  [ ("exploratory_analysis",
     {| fd_title := "🧭 Exploratory Analysis";
        fd_description := "Initial data exploration and feature engineering using retail sales time series data.";
        fd_objectives :=
          [ "Perform comprehensive data quality checks and profiling";
            "Identify temporal patterns, trends, and seasonality";
            "Engineer features for time series forecasting models" ] |});
    ("model_training",
     {| fd_title := "🛠️ Model Training";
        fd_description := "Building and refining time series forecasting models using statistical and ML techniques.";
        fd_objectives :=
          [ "Train Prophet and other forecasting models";
            "Optimize hyperparameters for best performance";
            "Implement cross-validation for time series data" ] |});
    ("model_evaluation",
     {| fd_title := "📊 Model Evaluation";
        fd_description := "Comprehensive model assessment using forecasting metrics and diagnostic analysis.";
        fd_objectives :=
          [ "Compare models using MAPE, RMSE, and other forecasting metrics";
            "Analyze residuals and forecast accuracy patterns";
            "Select optimal model for production deployment" ] |});
    ("results_visualization",
     {| fd_title := "📈 Results Visualization";
        fd_description := "Interactive visualizations and dashboards for model results and business insights.";
        fd_objectives :=
          [ "Create interactive Plotly dashboards for stakeholders";
            "Visualize forecast results and confidence intervals";
            "Generate business-ready reports and presentations" ] |}) ].

(** [d.get(key)] *)
Fixpoint dict_get {V} (d : list (string * V)) (key : string) : option V :=
  match d with
  | [] => None
  | (k, v) :: d' => if k =? key then Some v else dict_get d' key
  end.

(** [d.keys()] *)
Definition dict_keys {V} (d : list (string * V)) : list string := map fst d.

(** [d[key]], which raises [KeyError] on a missing key. *)
Definition dict_item {S V} (d : list (string * V)) (key : string) : Py S V :=
  match dict_get d key with
  | Some v => ret v
  | None => raise (Exception key)
  end.

(** ** The file system and the process state *)

(** What the program observes of the file system, by path as the program
    writes it.  A call that fails gives the text of the exception it
    raises: [fs_listdir] is [os.listdir]; [fs_getmtime] is
    [os.path.getmtime] with the conversion of its result by
    [datetime.fromtimestamp], which follows it at once in the program and
    raises on a time out of range; [fs_open] is opening a file and reading
    it as text; and [fs_create] is the error of [open(path, 'w')], if it
    fails. *)
Record filesystem : Type := {
  fs_exists : string -> bool;
  fs_listdir : string -> string + list string;
  fs_getmtime : string -> string + Z;
  fs_open : string -> string + string;
  fs_create : string -> option string
}.

(** The name under which [path] is listed in directory [dir], if it is
    directly inside it. *)
Fixpoint drop_prefix (p s : string) : option string :=
  match p, s with
  | EmptyString, _ => Some s
  | String a p', String b s' => if Ascii.eqb a b then drop_prefix p' s' else None
  | String _ _, EmptyString => None
  end.

Definition entry_name (dir path : string) : option string :=
  match drop_prefix (dir ++ "/") path with
  | Some name => if PyStr.contains "/" name then None else Some name
  | None => None
  end.

Definition add_name (name : string) (l : list string) : list string :=
  if existsb (String.eqb name) l then l else name :: l.

(** The directory of [path], as the path spells it. *)
Definition parent (path : string) : string :=
  PyStr.join "/" (removelast (PyStr.split "/" path)).

(** [open(path, 'w')] followed by [f.write(text)] at time [now], when the
    file can be opened: the file exists afterwards with the new text, its
    directory lists it, and a file that is new changes the time of its
    directory. *)
Definition fs_write (now : Z) (path text : string) (fs : filesystem) : filesystem :=
  {| fs_exists := fun p => (p =? path) || fs_exists fs p;
     fs_listdir := fun d =>
       match fs_listdir fs d with
       | inl msg => inl msg
       | inr l =>
           inr match entry_name d path with
               | Some name => add_name name l
               | None => l
               end
       end;
     fs_getmtime := fun p =>
       if p =? path then inr now
       else if (p =? parent path) && negb (fs_exists fs path) then inr now
       else fs_getmtime fs p;
     fs_open := fun p => if p =? path then inr text else fs_open fs p;
     fs_create := fs_create fs |}.

(** The process state: the file system, the lines printed so far, and the
    readings the clock will give, in order. *)
Record world : Type := {
  w_fs : filesystem;
  w_stdout : list string;
  w_clock : nat -> Z
}.

Definition emit (line : string) (w : world) : world :=
  {| w_fs := w_fs w; w_stdout := (w_stdout w ++ [line])%list; w_clock := w_clock w |}.

(** [print(line)] *)
Definition print (line : string) : Py world unit := modify (emit line).

Definition tick (w : world) : world :=
  {| w_fs := w_fs w; w_stdout := w_stdout w; w_clock := fun n => w_clock w (S n) |}.

(** [datetime.now()] *)
Definition datetime_now : Py world Z := fun w => (Returns (w_clock w 0), tick w).

Definition os_path_exists (p : string) : Py world bool :=
  gets (fun w => fs_exists (w_fs w) p).
Definition os_listdir (p : string) : Py world (list string) :=
  fs <- gets w_fs ;; lift (fs_listdir fs p).
Definition os_path_getmtime (p : string) : Py world Z :=
  fs <- gets w_fs ;; lift (fs_getmtime fs p).

(** Writing a whole file; the time stamp of the file is the clock's, which
    the write does not consume. *)
Definition store (path text : string) (w : world) : world :=
  {| w_fs := fs_write (w_clock w 0) path text (w_fs w);
     w_stdout := w_stdout w; w_clock := w_clock w |}.

(** [with open(path, 'w') as f: f.write(text)] *)
Definition write_file (path text : string) : Py world unit :=
  fs <- gets w_fs ;;
  match fs_create fs path with
  | Some msg => raise (Exception msg)
  | None => modify (store path text)
  end.

(** ** The program *)

(** [lines.extend(more)] and [lines.append(line)] on a list of lines. *)
Definition extend (lines more : list string) : list string := (lines ++ more)%list.
Definition append (lines : list string) (line : string) : list string :=
  (lines ++ [line])%list.
Arguments extend lines%_string more%_string.
Arguments append lines%_string line%_string.

Definition truthy (s : string) : bool := negb (s =? EmptyString).

Definition is_heading (line : string) : bool := PyStr.startswith line "#".

Definition is_notebook_file (f : string) : bool := PyStr.endswith f ".ipynb".

(** [sum(1 for cell in nb.cells if cell.cell_type == ty)] *)
Fixpoint count_cells {S} (ty : string) (cells : notebook) : Py S Z :=
  match cells with
  | [] => ret 0%Z
  | c :: cs =>
      t <- getattr "cell_type" (cell_type c) ;;
      n <- count_cells ty cs ;;
      ret ((if (t =? ty)%string then 1 else 0) + n)%Z
  end.

(** Lines 70-72. *)
Definition count_stage (cells : notebook) : Py metadata unit :=
  modify (set_cell_count (Z.of_nat (List.length cells))) ;;
  n <- count_cells "code" cells ;;
  modify (set_code_cells n) ;;
  n <- count_cells "markdown" cells ;;
  modify (set_markdown_cells n).

(** The description stored for the line [line], line 85. *)
Definition shorten (line : string) : string :=
  if (100 <? PyStr.len line)%Z then PyStr.take 100 line ++ "..." else line.

(** Lines 77-85, on the text of the markdown cell that was chosen. *)
Definition title_from_cell (src : string) : Py metadata unit :=
  let lines := PyStr.split (ascii_of_nat 10) (PyStr.strip src) in
  match find is_heading lines with
  | Some line => modify (set_title (PyStr.strip (PyStr.strip_chars "#" line)))
  | None => ret tt
  end ;;
  let remaining_lines :=
    filter (fun line => negb (is_heading line) && truthy (PyStr.strip line)) lines in
  match remaining_lines with
  | line :: _ => modify (set_description (shorten line))
  | [] => ret tt
  end.

(** Lines 75-86: the loop stops at the first markdown cell whose text is
    not blank. *)
Fixpoint title_stage (cells : notebook) : Py metadata unit :=
  match cells with
  | [] => ret tt
  | c :: cs =>
      t <- getattr "cell_type" (cell_type c) ;;
      if t =? "markdown" then
        src <- getattr "source" (source c) ;;
        if truthy (PyStr.strip src) then title_from_cell src
        else title_stage cs
      else title_stage cs
  end.

(** Lines 89-92. *)
Fixpoint plotly_stage (cells : notebook) : Py metadata unit :=
  match cells with
  | [] => ret tt
  | c :: cs =>
      t <- getattr "cell_type" (cell_type c) ;;
      if t =? "code" then
        src <- getattr "source" (source c) ;;
        if PyStr.contains "plotly" (PyStr.lower src)
        then modify (set_has_plotly true)
        else plotly_stage cs
      else plotly_stage cs
  end.

Section Generator.

(** [str.title], with the case mapping of the Unicode database. *)
Variable str_title : string -> string.

(** [nbformat.read(f, as_version=4)] on the text of a file: the cells of
    the document, or the text of the exception it raises. *)
Variable nbformat_read : string -> string + notebook.

(** [datetime.fromtimestamp(t).strftime('%Y-%m-%d')] and
    [t.strftime('%Y-%m-%d %H:%M')]. *)
Variable strftime_date : Z -> string.
Variable strftime_minute : Z -> string.

(** The initial value of [metadata], lines 56-63. *)
Definition default_title (notebook_path : string) : string :=
  str_title
    (PyStr.replace "_" " "
       (PyStr.replace ".ipynb" EmptyString (PyStr.basename notebook_path))).

Definition default_metadata (notebook_path : string) : metadata :=
  {| title := default_title notebook_path;
     description := EmptyString;
     has_plotly := false;
     cell_count := 0;
     markdown_cells := 0;
     code_cells := 0 |}.

(** Lines 66-67: opening the file and parsing it. *)
Definition read_notebook (fs : filesystem) (notebook_path : string)
  : string + notebook :=
  match fs_open fs notebook_path with
  | inl msg => inl msg
  | inr text => nbformat_read text
  end.

(** The body of the [try] block, lines 66-92. *)
Definition try_block (fs : filesystem) (notebook_path : string)
  : Py metadata unit :=
  nb <- lift (read_notebook fs notebook_path) ;;
  count_stage nb ;;
  title_stage nb ;;
  plotly_stage nb.

(** [extract_notebook_metadata], lines 54-97. *)
Definition extract_notebook_metadata (notebook_path : string)
  : Py world metadata :=
  fs <- gets w_fs ;;
  match try_block fs notebook_path (default_metadata notebook_path) with
  | (Returns _, metadata) => ret metadata
  | (Raises (Exception e), metadata) =>
      print ("Warning: Could not read notebook " ++ notebook_path ++ ": " ++ e) ;;
      ret metadata
  | (Raises (SystemExit n), _) => raise (SystemExit n)
  end.

(** [[f for f in os.listdir(folder_path) if f.endswith('.ipynb')]] *)
Definition list_notebooks (folder_path : string) : Py world (list string) :=
  listing <- os_listdir folder_path ;;
  ret (filter is_notebook_file listing).

(** [generate_notebook_links], lines 99-109. *)
Definition generate_notebook_links (notebook_file folder : string)
  : string * string :=
  let base_name := PyStr.replace ".ipynb" EmptyString notebook_file in
  let github_link := "notebooks/" ++ folder ++ "/" ++ notebook_file in
  let html_link := "docs/" ++ base_name ++ ".html" in
  (github_link, html_link).

(** The body of the loop of lines 134-154. *)
Definition folder_row (folder_path folder_key : string)
    (acc : list string * Z) (notebook_file : string)
  : Py world (list string * Z) :=
  let '(readme_lines, notebooks_found) := acc in
  let notebook_path := PyStr.path_join folder_path notebook_file in
  metadata <- extract_notebook_metadata notebook_path ;;
  let '(github_link, html_link) :=
    generate_notebook_links notebook_file folder_key in
  mtime <- os_path_getmtime notebook_path ;;
  let modified_date := strftime_date mtime in
  let view_options := "[📓 Code](" ++ github_link ++ ")" in
  rendered <- os_path_exists
    ("docs/" ++ PyStr.replace ".ipynb" ".html" notebook_file) ;;
  let view_options :=
    if rendered then view_options ++ " • [🌐 HTML](" ++ html_link ++ ")"
    else view_options in
  let view_options :=
    if has_plotly metadata then view_options ++ " 📊" else view_options in
  ret (append readme_lines
         ("| **" ++ title metadata ++ "** | "
          ++ (if truthy (description metadata) then description metadata
              else "Analysis notebook")
          ++ " | " ++ view_options ++ " | " ++ modified_date ++ " |"),
       (notebooks_found + 1)%Z).

(** [generate_folder_readme], lines 111-186. *)
Definition generate_folder_readme (folder_path folder_key : string)
  : Py world unit :=
  match dict_get folder_info folder_key with
  | None => print ("Warning: No info found for folder " ++ folder_key)
  | Some info =>
      let readme_lines :=
        [ "# " ++ fd_title info;
          EmptyString;
          fd_description info;
          EmptyString;
          "## 📚 Notebooks";
          EmptyString;
          "| Notebook | Description | View Options | Last Updated |";
          "|----------|-------------|--------------|--------------|" ] in
      notebook_files <- list_notebooks folder_path ;;
      let notebook_files := PyStr.sort notebook_files in
      acc <- for_each notebook_files (readme_lines, 0%Z)
               (folder_row folder_path folder_key) ;;
      let '(readme_lines, notebooks_found) := acc in
      let readme_lines :=
        if (notebooks_found =? 0)%Z
        then append readme_lines "| *No notebooks yet* | | | |"
        else readme_lines in
      let readme_lines :=
        extend readme_lines [EmptyString; "## 🎯 Key Objectives"; EmptyString] in
      let readme_lines :=
        fold_left (fun lines objective => append lines ("- " ++ objective))
          (fd_objectives info) readme_lines in
      now <- datetime_now ;;
      let readme_lines :=
        extend readme_lines
        [ EmptyString;
          "## 🔗 Navigation";
          EmptyString;
          "- [← Back to Main Project](../README.md)";
          "- [📊 Interactive Results](../docs/) - HTML versions with perfect Plotly rendering";
          EmptyString;
          "---";
          "*Generated on " ++ strftime_minute now ++ "*" ] in
      let readme_path := PyStr.path_join folder_path "README.md" in
      write_file readme_path (PyStr.join PyStr.nl readme_lines) ;;
      print ("✓ Generated README for " ++ folder_key ++ " ("
             ++ PyStr.of_int notebooks_found ++ " notebooks)")
  end.

(** The body of the inner loop of lines 209-215. *)
Definition quick_access_row (folder_path : string)
    (readme_lines : list string) (notebook_file : string)
  : Py world (list string) :=
  let notebook_path := PyStr.path_join folder_path notebook_file in
  metadata <- extract_notebook_metadata notebook_path ;;
  let html_file := PyStr.replace ".ipynb" ".html" notebook_file in
  rendered <- os_path_exists ("docs/" ++ html_file) ;;
  if rendered
  then ret (append readme_lines
              ("- [📊 " ++ title metadata ++ "](docs/" ++ html_file ++ ")"))
  else ret readme_lines.

(** The body of the loop of lines 202-217. *)
Definition quick_access_folder (readme_lines : list string)
    (folder_key : string) : Py world (list string) :=
  let folder_path := PyStr.path_join "notebooks" folder_key in
  present <- os_path_exists folder_path ;;
  if present then
    info <- dict_item folder_info folder_key ;;
    let readme_lines := append readme_lines ("### " ++ fd_title info) in
    notebook_files <- list_notebooks folder_path ;;
    readme_lines <- for_each (PyStr.sort notebook_files) readme_lines
                      (quick_access_row folder_path) ;;
    ret (append readme_lines EmptyString)
  else ret readme_lines.

(** The body of the loop of lines 227-233. *)
Definition technical_folder (readme_lines : list string)
    (folder_key : string) : Py world (list string) :=
  let folder_path := PyStr.path_join "notebooks" folder_key in
  present <- os_path_exists folder_path ;;
  if present then
    info <- dict_item folder_info folder_key ;;
    let readme_lines :=
      append readme_lines
        ("### [" ++ fd_title info ++ "](notebooks/" ++ folder_key ++ "/)") in
    let readme_lines := append readme_lines (fd_description info) in
    ret (append readme_lines EmptyString)
  else ret readme_lines.

(** [generate_main_readme], lines 188-244. *)
Definition generate_main_readme : Py world unit :=
  let readme_lines :=
    [ "# 📊 Time Series Analysis - Notebook Overview";
      EmptyString;
      "Auto-generated overview of all analysis notebooks in this project.";
      EmptyString;
      "## 🎯 Quick Access - Interactive Results";
      EmptyString;
      "*Perfect for presentations and stakeholders - all plots are interactive:*";
      EmptyString ] in
  readme_lines <- for_each (dict_keys folder_info) readme_lines
                    quick_access_folder ;;
  let readme_lines :=
    extend readme_lines
    [ "## 👨‍💻 Technical Notebooks";
      EmptyString;
      "*For developers and data scientists:*";
      EmptyString ] in
  readme_lines <- for_each (dict_keys folder_info) readme_lines
                    technical_folder ;;
  now <- datetime_now ;;
  let readme_lines :=
    extend readme_lines
    [ "---";
      "*Auto-generated on " ++ strftime_minute now
      ++ " | Run `python generate_readme.py` to update*" ] in
  write_file "NOTEBOOKS_README.md" (PyStr.join PyStr.nl readme_lines) ;;
  print "✓ Generated main notebooks README".

(** The body of the loop of lines 258-264. *)
Definition main_folder (base_notebooks_dir : string) (folders_processed : Z)
    (folder_key : string) : Py world Z :=
  let folder_path := PyStr.path_join base_notebooks_dir folder_key in
  present <- os_path_exists folder_path ;;
  if present then
    generate_folder_readme folder_path folder_key ;;
    ret (folders_processed + 1)%Z
  else
    print ("⚠️  Folder not found: " ++ folder_path) ;;
    ret folders_processed.

(** The body of the loop of lines 272-275. *)
Definition main_report (base_notebooks_dir : string) (_ : unit)
    (folder_key : string) : Py world unit :=
  let folder_path := PyStr.path_join base_notebooks_dir folder_key in
  present <- os_path_exists folder_path ;;
  if present then print ("   - notebooks/" ++ folder_key ++ "/README.md")
  else ret tt.

(** [main], lines 246-275. *)
Definition main : Py world unit :=
  print "🚀 Generating README files for notebook directories..." ;;
  let base_notebooks_dir := "notebooks" in
  present <- os_path_exists base_notebooks_dir ;;
  (if negb present then
     print ("❌ Error: " ++ base_notebooks_dir ++ " directory not found!") ;;
     raise (SystemExit 1)
   else ret tt) ;;
  folders_processed <- for_each (dict_keys folder_info) 0%Z
                         (main_folder base_notebooks_dir) ;;
  generate_main_readme ;;
  print (PyStr.nl ++ "✅ Complete! Generated README files for "
         ++ PyStr.of_int folders_processed ++ " folders.") ;;
  print "📝 Files created:" ;;
  print "   - NOTEBOOKS_README.md (main overview)" ;;
  for_each (dict_keys folder_info) tt (main_report base_notebooks_dir).

(** Running the script: the exit status of the process and its final
    state.  An exception that nothing catches ends the process with
    status 1. *)
Definition run_script (w : world) : Z * world :=
  match main w with
  | (Returns _, w') => (0%Z, w')
  | (Raises (SystemExit status), w') => (status, w')
  | (Raises (Exception _), w') => (1%Z, w')
  end.

End Generator.

(** ** Reference descriptions used in the statements *)

Definition has_type (ty : string) (c : cell) : bool :=
  match cell_type c with
  | Some t => t =? ty
  | None => false
  end.

(** The number of cells whose type is exactly [ty]. *)
Definition count_type (ty : string) (cells : notebook) : Z :=
  Z.of_nat (List.length (filter (has_type ty) cells)).

Definition typed (c : cell) : Prop := cell_type c <> None.

(** The lines the program sees in a markdown cell of text [src]. *)
Definition cell_lines (src : string) : list string :=
  PyStr.split (ascii_of_nat 10) (PyStr.strip src).

(** A markdown cell whose text is blank: the title loop passes over it. *)
Definition blank_or_other (c : cell) : Prop :=
  has_type "markdown" c = true ->
  exists src, source c = Some src /\ PyStr.strip src = EmptyString.

(** A line that can become the description. *)
Definition is_candidate (line : string) : bool :=
  negb (is_heading line) && truthy (PyStr.strip line).

(** A code cell whose text mentions the plotting library, in any case. *)
Definition mentions_plotly (c : cell) : Prop :=
  cell_type c = Some "code" /\
  exists src, source c = Some src /\
              PyStr.contains "plotly" (PyStr.lower src) = true.

(** A cell of type [ty] has a source. *)
Definition sourced (ty : string) (c : cell) : Prop :=
  has_type ty c = true -> source c <> None.

(** A cell with a line that the title loop would take as a heading. *)
Definition has_heading_line (c : cell) : Prop :=
  cell_type c = Some "markdown" /\
  exists src line, source c = Some src /\ In line (cell_lines src) /\
                   is_heading line = true.

(** [c] keeps the invariant [I] of the state on every exit, normal or not. *)
Definition preserves {S A} (I : S -> Prop) (c : Py S A) : Prop :=
  forall s, I s -> I (snd (c s)).

(** [c] raises nothing but [Exception]. *)
Definition no_exit {S A} (c : Py S A) : Prop :=
  forall s n, fst (c s) <> Raises (SystemExit n).

(** The record after the counting stage of a notebook whose cells all have
    a type. *)
Definition counted_metadata (str_title : string -> string)
    (notebook_path : string) (cells : notebook) : metadata :=
  set_markdown_cells (count_type "markdown" cells)
    (set_code_cells (count_type "code" cells)
       (set_cell_count (Z.of_nat (List.length cells))
          (default_metadata str_title notebook_path))).

(** The count invariant of a record. *)
Definition counts_ok (m : metadata) : Prop :=
  (0 <= cell_count m /\ 0 <= markdown_cells m /\ 0 <= code_cells m /\
   markdown_cells m + code_cells m <= cell_count m)%Z.

(** ** The claims' own wording, where it differs from the program *)

(** A heading line with its leading heading markers and the surrounding
    whitespace stripped. *)
Definition claimed_title_of_line (line : string) : string :=
  PyStr.strip (PyStr.lstrip_chars "#" line).

(** The first line of a cell that is non-empty and does not start with a
    heading marker. *)
Definition claimed_description_line (src : string) : option string :=
  find (fun line => truthy line && negb (is_heading line))
       (PyStr.split (ascii_of_nat 10) src).

(** A file name with the notebook extension removed. *)
Definition claimed_stem (name : string) : string :=
  if PyStr.endswith name ".ipynb"
  then substring 0 (String.length name - String.length ".ipynb") name
  else name.

Definition claimed_default_title (str_title : string -> string)
    (notebook_path : string) : string :=
  str_title
    (PyStr.replace "_" " " (claimed_stem (PyStr.basename notebook_path))).

(** ** Example inputs *)

(** A parser that returns the given cells, and one that rejects its input. *)
Definition parse_as (cells : notebook) : string -> string + notebook :=
  fun _ => inr cells.
Definition not_json : string -> string + notebook :=
  fun _ => inl "Notebook does not appear to be JSON".

(** A file system in which every file can be opened. *)
Definition readable_fs : filesystem :=
  {| fs_exists := fun _ => true;
     fs_listdir := fun _ => inr [];
     fs_getmtime := fun _ => inr 0%Z;
     fs_open := fun _ => inr "{}";
     fs_create := fun _ => None |}.

Definition start_world (fs : filesystem) : world :=
  {| w_fs := fs; w_stdout := []; w_clock := fun n => Z.of_nat n |}.

Definition markdown_cell (src : string) : cell :=
  {| cell_type := Some "markdown"; source := Some src |}.
Definition code_cell (src : string) : cell :=
  {| cell_type := Some "code"; source := Some src |}.

(** A markdown cell with a heading, a blank line and a sentence, between a
    code cell and a blank markdown cell before it and a second heading
    after it. *)
Definition sample_notebook : notebook :=
  [ code_cell "import pandas as pd";
    markdown_cell "   ";
    markdown_cell ("# Foo Bar" ++ PyStr.nl ++ PyStr.nl ++ "Sales by store.");
    markdown_cell "# Another Title" ].

(** A heading that ends with a heading marker. *)
Definition csharp_notebook : notebook := [ markdown_cell "# Intro to C#" ].

(** A line of one space between the heading and the text. *)
Definition spaced_notebook : notebook :=
  [ markdown_cell ("# Trends" ++ PyStr.nl ++ " " ++ PyStr.nl ++ "Weekly sales.") ].

(** A first cell that has no [cell_type]. *)
Definition untyped_notebook : notebook :=
  [ {| cell_type := None; source := Some "x" |};
    markdown_cell ("# Foo Bar" ++ PyStr.nl ++ "Sales by store.") ].

(** A code cell that has no [source], before one that imports plotly. *)
Definition sourceless_notebook : notebook :=
  [ {| cell_type := Some "code"; source := None |};
    code_cell "import plotly.express as px" ].

(** A heading and a description, then a code cell that has no [source]. *)
Definition late_failure_notebook : notebook :=
  [ markdown_cell ("# Foo Bar" ++ PyStr.nl ++ "Sales by store.");
    {| cell_type := Some "code"; source := None |} ].

(** A notebook without cells, and a text of [n] letters. *)
Definition empty_notebook : notebook := [].

Fixpoint letters (n : nat) : string :=
  match n with
  | O => EmptyString
  | S n' => String "a" (letters n')
  end.

Definition long_line_notebook (n : nat) : notebook :=
  [ markdown_cell ("# Trends" ++ PyStr.nl ++ letters n) ].

(** [n] times the text [s]. *)
Fixpoint copies (n : nat) (s : string) : string :=
  match n with
  | O => EmptyString
  | S n' => s ++ copies n' s
  end.

(** A heading between two no-break spaces, a line of an ideographic space
    and an em space, and a line of [n] characters of three bytes each. *)
Definition wide_notebook (n : nat) : notebook :=
  [ markdown_cell ("#" ++ PyStr.chr 160 ++ "Plan" ++ PyStr.chr 160 ++ PyStr.nl
                   ++ PyStr.chr 12288 ++ PyStr.chr 8195 ++ PyStr.nl
                   ++ copies n "日") ].

(** A heading after two spaces, as the only line of the cell. *)
Definition indented_heading_notebook : notebook := [ markdown_cell "  # Title" ].

(** ** Inputs and outputs of a run *)

(** The files the generator writes. *)
Definition readme_path (folder_key : string) : string :=
  PyStr.path_join (PyStr.path_join "notebooks" folder_key) "README.md".

Definition output_paths : list string :=
  "NOTEBOOKS_README.md" :: map readme_path (dict_keys folder_info).

Definition is_output (p : string) : bool := existsb (String.eqb p) output_paths.

(** Two listings show the same notebook files, in whatever order, or fail
    alike. *)
Definition same_notebooks (r1 r2 : string + list string) : Prop :=
  match r1, r2 with
  | inl e1, inl e2 => e1 = e2
  | inr l1, inr l2 =>
      Permutation (filter is_notebook_file l1) (filter is_notebook_file l2)
  | _, _ => False
  end.

(** Two file systems hold the same inputs: they agree on the existence and
    on the content of every path that is not a generated file, on the time
    of every notebook file, and on the files that can be written, and
    every directory lists the same notebook files, in whatever order. *)
Record same_inputs (fs1 fs2 : filesystem) : Prop := {
  si_exists : forall p, is_output p = false -> fs_exists fs1 p = fs_exists fs2 p;
  si_open : forall p, is_output p = false -> fs_open fs1 p = fs_open fs2 p;
  si_getmtime :
    forall p, is_notebook_file p = true -> fs_getmtime fs1 p = fs_getmtime fs2 p;
  si_listdir : forall d, same_notebooks (fs_listdir fs1 d) (fs_listdir fs2 d);
  si_create : forall p, fs_create fs1 p = fs_create fs2 p
}.

(** Two listings show the same entries, in whatever order, or fail alike. *)
Definition same_entries (r1 r2 : string + list string) : Prop :=
  match r1, r2 with
  | inl e1, inl e2 => e1 = e2
  | inr l1, inr l2 => Permutation l1 l2
  | _, _ => False
  end.

(** Two file systems hold the same files: they agree on every path, and
    every directory lists the same entries, in whatever order. *)
Definition same_files (fs1 fs2 : filesystem) : Prop :=
  (forall p, fs_exists fs1 p = fs_exists fs2 p /\
             fs_open fs1 p = fs_open fs2 p /\
             fs_getmtime fs1 p = fs_getmtime fs2 p /\
             fs_create fs1 p = fs_create fs2 p) /\
  (forall d, same_entries (fs_listdir fs1 d) (fs_listdir fs2 d)).

(** [w'] is [w] after some lines were printed. *)
Definition printed (w w' : world) : Prop :=
  w_fs w' = w_fs w /\ w_clock w' = w_clock w /\
  exists out, w_stdout w' = (w_stdout w ++ out)%list.

(** A computation that only reads inputs and prints: from two states with
    the same inputs it ends alike, with the same value or the same
    exception. *)
Definition observes {A} (c : Py world A) : Prop :=
  forall w1 w2, same_inputs (w_fs w1) (w_fs w2) ->
    exists r w1' w2',
      c w1 = (r, w1') /\ c w2 = (r, w2') /\
      printed w1 w1' /\ printed w2 w2'.

(** The state after [out] was printed, the clock was read once, and
    [text] was written to [path]. *)
Definition written (w : world) (out : list string) (path text : string) : world :=
  {| w_fs := fs_write (w_clock w 1) path text (w_fs w);
     w_stdout := (w_stdout w ++ out)%list;
     w_clock := fun n => w_clock w (S n) |}.

(** The last line of a generated file, for the clock reading [now]. *)
Definition folder_stamp (strftime_minute : Z -> string) (now : Z) : string :=
  "*Generated on " ++ strftime_minute now ++ "*".

Definition main_stamp (strftime_minute : Z -> string) (now : Z) : string :=
  "*Auto-generated on " ++ strftime_minute now
  ++ " | Run `python generate_readme.py` to update*".

(** Two file contents are the same text up to the time in the generation
    line that ends them. *)
Definition stamped (strftime_minute : Z -> string) (c1 c2 : string + string)
  : Prop :=
  exists body t1 t2,
    (c1 = inr (body ++ PyStr.nl ++ folder_stamp strftime_minute t1) /\
     c2 = inr (body ++ PyStr.nl ++ folder_stamp strftime_minute t2)) \/
    (c1 = inr (body ++ PyStr.nl ++ main_stamp strftime_minute t1) /\
     c2 = inr (body ++ PyStr.nl ++ main_stamp strftime_minute t2)).

Definition same_but_stamp (strftime_minute : Z -> string)
    (c1 c2 : string + string) : Prop :=
  c1 = c2 \/ stamped strftime_minute c1 c2.

(** What two runs did to the path [p], from [fsA] to [fsA'] and from [fsB]
    to [fsB']: both wrote it, with the same text up to the stamp, or
    neither touched it. *)
Definition touched (strftime_minute : Z -> string)
    (fsA fsA' fsB fsB' : filesystem) (p : string) : Prop :=
  (fs_exists fsA' p = true /\ fs_exists fsB' p = true /\
   stamped strftime_minute (fs_open fsA' p) (fs_open fsB' p)) \/
  (fs_exists fsA' p = fs_exists fsA p /\ fs_open fsA' p = fs_open fsA p /\
   fs_exists fsB' p = fs_exists fsB p /\ fs_open fsB' p = fs_open fsB p).

(** What two runs have done so far, from [A] to [A'] and from [B] to
    [B']: they changed no input, they still see the same inputs, they only
    added to the output, and each generated file was written by both, with
    the same text up to the stamp, or by neither. *)
Definition in_step (strftime_minute : Z -> string) (A A' B B' : world)
  : Prop :=
  same_inputs (w_fs A) (w_fs A') /\ same_inputs (w_fs B) (w_fs B') /\
  same_inputs (w_fs A') (w_fs B') /\
  (forall p, touched strftime_minute (w_fs A) (w_fs A') (w_fs B) (w_fs B') p).

(** A computation keeps two runs in step: started where the two runs are,
    it ends alike in both, with the same value or the same exception, and
    the runs are still in step. *)
Definition keeps_in_step (strftime_minute : Z -> string) {R}
    (c : Py world R) : Prop :=
  forall A A' B B',
    in_step strftime_minute A A' B B' ->
    exists r A'' B'',
      c A' = (r, A'') /\ c B' = (r, B'') /\
      in_step strftime_minute A A'' B B''.

Fixpoint last_char (s : string) : option ascii :=
  match s with
  | EmptyString => None
  | String c EmptyString => Some c
  | String _ s' => last_char s'
  end.

(** A run with one of the four folders, two notebooks in it (one of them
    cannot be opened), and one rendered page. *)
Definition demo_fs : filesystem :=
  {| fs_exists := fun p =>
       (p =? "notebooks") || (p =? "notebooks/model_training")
       || (p =? "docs/b_trends.html");
     fs_listdir := fun d =>
       if d =? "notebooks/model_training"
       then inr ["b_trends.ipynb"; "notes.txt"; "a_intro.ipynb"]
       else inl "[Errno 2] No such file or directory";
     fs_getmtime := fun _ => inr 20240105%Z;
     fs_open := fun p =>
       if p =? "notebooks/model_training/a_intro.ipynb"
       then inl "[Errno 13] Permission denied"
       else inr "{}";
     fs_create := fun _ => None |}.

Definition demo_notebook : notebook :=
  [ markdown_cell ("# Weekly Trends" ++ PyStr.nl ++ "Sales by week.");
    code_cell "import plotly.express as px" ].

(** A file system without the base directory. *)
Definition bare_fs : filesystem :=
  {| fs_exists := fun _ => false;
     fs_listdir := fun _ => inl "[Errno 2] No such file or directory";
     fs_getmtime := fun _ => inl "[Errno 2] No such file or directory";
     fs_open := fun _ => inl "[Errno 2] No such file or directory";
     fs_create := fun _ => None |}.

(** The base directory is there, and the path of a known folder is a
    regular file: it exists and cannot be listed. *)
Definition folder_is_file_fs : filesystem :=
  {| fs_exists := fun p =>
       (p =? "notebooks") || (p =? "notebooks/exploratory_analysis");
     fs_listdir := fun _ =>
       inl "[Errno 20] Not a directory: 'notebooks/exploratory_analysis'";
     fs_getmtime := fun _ => inr 20240105%Z;
     fs_open := fun _ => inr "{}";
     fs_create := fun _ => None |}.

(** The base directory is there and nothing can be opened for writing. *)
Definition read_only_fs : filesystem :=
  {| fs_exists := fun p => p =? "notebooks";
     fs_listdir := fun _ => inr [];
     fs_getmtime := fun _ => inr 20240105%Z;
     fs_open := fun _ => inr "{}";
     fs_create := fun _ => Some "[Errno 30] Read-only file system: 'NOTEBOOKS_README.md'" |}.

(** The README of the folder of the example, without its last line. *)
Definition demo_readme_lines : list string :=
  [ "# 🛠️ Model Training";
    "";
    "Building and refining time series forecasting models using statistical and ML techniques.";
    "";
    "## 📚 Notebooks";
    "";
    "| Notebook | Description | View Options | Last Updated |";
    "|----------|-------------|--------------|--------------|";
    "| **A Intro** | Analysis notebook | [📓 Code](notebooks/model_training/a_intro.ipynb) | 20240105 |";
    "| **Weekly Trends** | Sales by week. | [📓 Code](notebooks/model_training/b_trends.ipynb) • [🌐 HTML](docs/b_trends.html) 📊 | 20240105 |";
    "";
    "## 🎯 Key Objectives";
    "";
    "- Train Prophet and other forecasting models";
    "- Optimize hyperparameters for best performance";
    "- Implement cross-validation for time series data";
    "";
    "## 🔗 Navigation";
    "";
    "- [← Back to Main Project](../README.md)";
    "- [📊 Interactive Results](../docs/) - HTML versions with perfect Plotly rendering";
    "";
    "---" ].

(** ** Pure descriptions of what the builders compute *)

(** The state after the lines [out] were printed. *)
Definition emits (out : list string) (w : world) : world :=
  {| w_fs := w_fs w; w_stdout := (w_stdout w ++ out)%list; w_clock := w_clock w |}.

(** [s] has no line feed. *)
Definition single_line (s : string) : bool :=
  negb (PyStr.mem_char s (ascii_of_nat 10)).

(** The entries of a directory and the time of a file, where the call
    succeeds. *)
Definition listing_of (fs : filesystem) (d : string) : list string :=
  match fs_listdir fs d with
  | inr listing => listing
  | inl _ => []
  end.

Definition mtime_of (fs : filesystem) (p : string) : Z :=
  match fs_getmtime fs p with
  | inr t => t
  | inl _ => 0%Z
  end.

(** The notebook files of a folder, in the order of the table. *)
Definition folder_files (fs : filesystem) (folder_path : string) : list string :=
  PyStr.sort (filter is_notebook_file (listing_of fs folder_path)).

(** The calls that the folder builder makes unguarded on [folder_path]
    succeed: listing the folder, asking the time of each of its notebook
    files, and opening its README for writing. *)
Definition folder_ok (fs : filesystem) (folder_path : string) : Prop :=
  (exists listing, fs_listdir fs folder_path = inr listing) /\
  (forall f, In f (folder_files fs folder_path) ->
             exists t, fs_getmtime fs (PyStr.path_join folder_path f) = inr t) /\
  fs_create fs (PyStr.path_join folder_path "README.md") = None.

(** The calls that the main builder makes unguarded succeed: listing each
    known folder that exists, and opening the main README for writing. *)
Definition main_ok (fs : filesystem) : Prop :=
  (forall key, In key (dict_keys folder_info) ->
               fs_exists fs (PyStr.path_join "notebooks" key) = true ->
               exists listing,
                 fs_listdir fs (PyStr.path_join "notebooks" key) = inr listing) /\
  fs_create fs "NOTEBOOKS_README.md" = None.

(** The unguarded calls of a whole run succeed. *)
Definition io_ok (fs : filesystem) : Prop :=
  (forall key, In key (dict_keys folder_info) ->
               fs_exists fs (PyStr.path_join "notebooks" key) = true ->
               folder_ok fs (PyStr.path_join "notebooks" key)) /\
  fs_create fs "NOTEBOOKS_README.md" = None.

Section Rows.

Variable str_title : string -> string.
Variable nbformat_read : string -> string + notebook.
Variable strftime_date : Z -> string.
Variable strftime_minute : Z -> string.

(** The record that [extract_notebook_metadata] returns for [path], and the
    warning it prints, as functions of the file system. *)
Definition metadata_at (fs : filesystem) (path : string) : metadata :=
  snd (try_block nbformat_read fs path (default_metadata str_title path)).

Definition warnings_at (fs : filesystem) (path : string) : list string :=
  match fst (try_block nbformat_read fs path (default_metadata str_title path)) with
  | Raises (Exception e) =>
      ["Warning: Could not read notebook " ++ path ++ ": " ++ e]
  | _ => []
  end.

(** The row of the table for one notebook file, lines 135-153. *)
Definition table_row (fs : filesystem) (folder_path folder_key : string)
    (notebook_file : string) : string :=
  let notebook_path := PyStr.path_join folder_path notebook_file in
  let metadata := metadata_at fs notebook_path in
  let github_link := fst (generate_notebook_links notebook_file folder_key) in
  let html_link := snd (generate_notebook_links notebook_file folder_key) in
  let modified_date := strftime_date (mtime_of fs notebook_path) in
  let view_options := "[📓 Code](" ++ github_link ++ ")" in
  let view_options :=
    if fs_exists fs ("docs/" ++ PyStr.replace ".ipynb" ".html" notebook_file)
    then view_options ++ " • [🌐 HTML](" ++ html_link ++ ")"
    else view_options in
  let view_options :=
    if has_plotly metadata then view_options ++ " 📊" else view_options in
  "| **" ++ title metadata ++ "** | "
  ++ (if truthy (description metadata) then description metadata
      else "Analysis notebook")
  ++ " | " ++ view_options ++ " | " ++ modified_date ++ " |".

(** The warnings printed while the rows of [files] are built. *)
Definition folder_warnings (fs : filesystem) (folder_path : string)
    (files : list string) : list string :=
  flat_map (fun f => warnings_at fs (PyStr.path_join folder_path f)) files.

(** The lines of a folder README, lines 118-179. *)
Definition folder_header (info : folder_descriptor) : list string :=
  [ "# " ++ fd_title info;
    EmptyString;
    fd_description info;
    EmptyString;
    "## 📚 Notebooks";
    EmptyString;
    "| Notebook | Description | View Options | Last Updated |";
    "|----------|-------------|--------------|--------------|" ].

Definition table_body (rows : list string) : list string :=
  match rows with
  | [] => ["| *No notebooks yet* | | | |"]
  | _ => rows
  end.

Definition folder_footer (now : Z) : list string :=
  [ EmptyString;
    "## 🔗 Navigation";
    EmptyString;
    "- [← Back to Main Project](../README.md)";
    "- [📊 Interactive Results](../docs/) - HTML versions with perfect Plotly rendering";
    EmptyString;
    "---";
    folder_stamp strftime_minute now ].

Definition folder_readme_lines (info : folder_descriptor) (rows : list string)
    (now : Z) : list string :=
  extend
    (extend
       (extend (extend (folder_header info) (table_body rows))
          [EmptyString; "## 🎯 Key Objectives"; EmptyString])
       (map (String.append "- ") (fd_objectives info)))
    (folder_footer now).

(** The link lines of one folder in the main README, lines 209-215. *)
Definition quick_access_links (fs : filesystem) (folder_path : string)
    (files : list string) : list string :=
  flat_map
    (fun f =>
       let html_file := PyStr.replace ".ipynb" ".html" f in
       if fs_exists fs ("docs/" ++ html_file)
       then ["- [📊 " ++ title (metadata_at fs (PyStr.path_join folder_path f))
             ++ "](docs/" ++ html_file ++ ")"]
       else [])
    files.

(** What one entry of [folder_info] adds to the two sections of the main
    README, lines 202-217 and 227-233, and the warnings printed for it. *)
Definition quick_access_section (fs : filesystem)
    (entry : string * folder_descriptor) : list string :=
  let folder_path := PyStr.path_join "notebooks" (fst entry) in
  if fs_exists fs folder_path
  then ("### " ++ fd_title (snd entry))
       :: append (quick_access_links fs folder_path (folder_files fs folder_path))
            EmptyString
  else [].

Definition technical_section (fs : filesystem)
    (entry : string * folder_descriptor) : list string :=
  if fs_exists fs (PyStr.path_join "notebooks" (fst entry))
  then [ "### [" ++ fd_title (snd entry) ++ "](notebooks/" ++ fst entry ++ "/)";
         fd_description (snd entry);
         EmptyString ]
  else [].

Definition section_warnings (fs : filesystem)
    (entry : string * folder_descriptor) : list string :=
  let folder_path := PyStr.path_join "notebooks" (fst entry) in
  if fs_exists fs folder_path
  then folder_warnings fs folder_path (folder_files fs folder_path)
  else [].

(** The lines of the main README, lines 190-238. *)
Definition main_header : list string :=
  [ "# 📊 Time Series Analysis - Notebook Overview";
    EmptyString;
    "Auto-generated overview of all analysis notebooks in this project.";
    EmptyString;
    "## 🎯 Quick Access - Interactive Results";
    EmptyString;
    "*Perfect for presentations and stakeholders - all plots are interactive:*";
    EmptyString ].

Definition technical_header : list string :=
  [ "## 👨‍💻 Technical Notebooks";
    EmptyString;
    "*For developers and data scientists:*";
    EmptyString ].

Definition main_readme_lines (fs : filesystem) (now : Z) : list string :=
  extend
    (extend
       (extend
          (extend main_header (flat_map (quick_access_section fs) folder_info))
          technical_header)
       (flat_map (technical_section fs) folder_info))
    [ "---"; main_stamp strftime_minute now ].

(** The known folders whose directory exists, in the order of
    [folder_info]. *)
Definition present_folders (fs : filesystem) : list string :=
  filter (fun key => fs_exists fs (PyStr.path_join "notebooks" key))
    (dict_keys folder_info).

End Rows.

(** A line of the list of files that ends the run, line 275. *)
Definition report_line (key : string) : string :=
  "   - notebooks/" ++ key ++ "/README.md".

(** What [main] prints after the main README is written, lines 269-275,
    when the folders [present] are there. *)
Definition summary_lines (present : list string) : list string :=
  extend
    [ PyStr.nl ++ "✅ Complete! Generated README files for "
      ++ PyStr.of_int (Z.of_nat (List.length present)) ++ " folders.";
      "📝 Files created:";
      "   - NOTEBOOKS_README.md (main overview)" ]
    (map report_line present).

(** ** Checks of the string operations *)

Example strip_ex : PyStr.strip "  # Foo Bar  " = "# Foo Bar". Proof. reflexivity. Qed.
Example strip_chars_ex : PyStr.strip_chars "#" "## C# ##" = " C# ". Proof. reflexivity. Qed.
Example title_ex : PyStr.title_ascii "my 1st note_book's" = "My 1St Note_Book'S". Proof. reflexivity. Qed.
Example chr_ex : PyStr.chr 233 = "é" /\ PyStr.chr 26085 = "日" /\ PyStr.chr 128202 = "📊". Proof. repeat split. Qed.
Example chars_ex : PyStr.chars "été 日" = ["é"; "t"; "é"; " "; "日"]. Proof. reflexivity. Qed.
Example len_ex : PyStr.len "été 日📊" = 6%Z. Proof. reflexivity. Qed.
Example take_ex : PyStr.take 2 "été" = "ét" /\ PyStr.take 5 "été" = "été". Proof. split; reflexivity. Qed.
Example strip_ex2 : PyStr.strip (PyStr.chr 160 ++ "# Title" ++ PyStr.chr 12288 ++ PyStr.nl) = "# Title". Proof. reflexivity. Qed.
Example strip_ex3 : PyStr.strip (PyStr.chr 160 ++ PyStr.chr 8195) = "". Proof. reflexivity. Qed.
Example strip_ex4 : PyStr.strip " été " = "été". Proof. reflexivity. Qed.
Example replace_ex : PyStr.replace ".ipynb" ".html" "a.ipynb.x.ipynb" = "a.html.x.html". Proof. reflexivity. Qed.
Example replace_ex2 : PyStr.replace "aa" "b" "aaaaa" = "bba". Proof. reflexivity. Qed.
Example replace_ex3 : PyStr.replace "" "-" "abc" = "-a-b-c-". Proof. reflexivity. Qed.
Example split_ex : PyStr.split "/" "a//b/" = ["a"; ""; "b"; ""]. Proof. reflexivity. Qed.
Example basename_ex : PyStr.basename "notebooks/x/a_b.ipynb" = "a_b.ipynb". Proof. reflexivity. Qed.
Example basename_ex2 : PyStr.basename "notebooks/x/" = "". Proof. reflexivity. Qed.
Example join_ex : PyStr.path_join "notebooks" "x" = "notebooks/x". Proof. reflexivity. Qed.
Example endswith_ex : PyStr.endswith "a.ipynb" ".ipynb" = true. Proof. reflexivity. Qed.
Example endswith_ex2 : PyStr.endswith "ipynb" ".ipynb" = false. Proof. reflexivity. Qed.
Example contains_ex : PyStr.contains "plotly" (PyStr.lower "import Plotly.express") = true. Proof. reflexivity. Qed.
Example sort_ex : PyStr.sort ["b_notebook.ipynb"; "a_notebook.ipynb"; "B.ipynb"] = ["B.ipynb"; "a_notebook.ipynb"; "b_notebook.ipynb"]. Proof. reflexivity. Qed.
Example of_int_ex : PyStr.of_int 12 = "12". Proof. reflexivity. Qed.

(** ** Facts about the string operations *)

Lemma string_app_assoc (a b c : string) : (a ++ b) ++ c = a ++ b ++ c.
Proof. induction a as [|x a IH]; simpl; [reflexivity | rewrite IH; reflexivity]. Qed.

Lemma join_snoc sep (ls : list string) x :
  ls <> [] -> PyStr.join sep (ls ++ [x])%list = PyStr.join sep ls ++ sep ++ x.
Proof.
  unfold PyStr.join. induction ls as [|a ls IH]; intros H; [contradiction|].
  destruct ls as [|b ls]; [reflexivity|].
  change (String.concat sep ((a :: b :: ls) ++ [x])%list)
    with (a ++ sep ++ String.concat sep ((b :: ls) ++ [x])%list).
  rewrite IH by discriminate.
  change (String.concat sep (a :: b :: ls))
    with (a ++ sep ++ String.concat sep (b :: ls)).
  rewrite !string_app_assoc. reflexivity.
Qed.

Lemma last_char_app a b : b <> EmptyString -> last_char (a ++ b) = last_char b.
Proof.
  intros Hb. induction a as [|c a IH]; [reflexivity|].
  simpl. rewrite IH. destruct (a ++ b) eqn:E; [|reflexivity].
  destruct a; simpl in E; [contradiction | discriminate].
Qed.

Lemma substring_split s n :
  (n <= String.length s)%nat ->
  s = substring 0 n s ++ substring n (String.length s - n) s.
Proof.
  revert n. induction s as [|c s IH]; intros [|n] Hn; simpl in *; try lia.
  - reflexivity.
  - f_equal. clear IH Hn. induction s as [|c' s IH]; simpl; [reflexivity|].
    f_equal. exact IH.
  - f_equal. apply IH. lia.
Qed.

Lemma endswith_split s p :
  PyStr.endswith s p = true -> exists x, s = x ++ p.
Proof.
  unfold PyStr.endswith. intros H. apply andb_prop in H as [Hlen Heq].
  apply Nat.leb_le in Hlen. apply String.eqb_eq in Heq.
  exists (substring 0 (String.length s - String.length p) s).
  rewrite (substring_split s (String.length s - String.length p)) at 1 by lia.
  f_equal. rewrite <- Heq at 3. f_equal. lia.
Qed.

Lemma In_insert_sorted x y l : In y (PyStr.insert_sorted x l) -> y = x \/ In y l.
Proof.
  induction l as [|z l IH]; simpl.
  - intros [<-|[]]. left; reflexivity.
  - destruct (String.leb x z); simpl.
    + intros [<-|H]; [left; reflexivity | right; exact H].
    + intros [<-|H]; [right; left; reflexivity|].
      destruct (IH H) as [->|Hin]; [left; reflexivity | right; right; exact Hin].
Qed.

Lemma In_sort y l : In y (PyStr.sort l) -> In y l.
Proof.
  induction l as [|x l IH]; simpl; [tauto|].
  intros H. apply In_insert_sorted in H as [->|H]; [left; reflexivity|].
  right. apply IH, H.
Qed.

(** [list.sort()] gives the files in ascending order, each once more. *)
Lemma insert_sorted_perm x l : Permutation (x :: l) (PyStr.insert_sorted x l).
Proof.
  induction l as [|y l IH]; simpl; [reflexivity|].
  destruct (String.leb x y); [reflexivity|].
  rewrite perm_swap. apply perm_skip, IH.
Qed.

Lemma sort_perm l : Permutation l (PyStr.sort l).
Proof.
  induction l as [|x l IH]; simpl; [constructor|].
  rewrite <- insert_sorted_perm. apply perm_skip, IH.
Qed.

Lemma leb_flip x y : String.leb x y = false -> String.leb y x = true.
Proof.
  intros H. destruct (String.leb_total x y) as [E|E]; congruence.
Qed.

Lemma insert_sorted_sorted x l :
  Sorted (fun a b => String.leb a b = true) l ->
  Sorted (fun a b => String.leb a b = true) (PyStr.insert_sorted x l).
Proof.
  induction 1 as [|y l Hs IH Hhd]; simpl.
  - repeat constructor.
  - destruct (String.leb x y) eqn:E.
    + constructor; [constructor; assumption | constructor; exact E].
    + constructor; [exact IH|].
      destruct l as [|z l]; simpl.
      * constructor. apply leb_flip, E.
      * destruct (String.leb x z); constructor;
          [apply leb_flip, E | inversion Hhd; assumption].
Qed.

Lemma sort_sorted l : Sorted (fun a b => String.leb a b = true) (PyStr.sort l).
Proof.
  induction l as [|x l IH]; simpl; [constructor|].
  apply insert_sorted_sorted, IH.
Qed.

Lemma ascii_compare_refl a : Ascii.compare a a = Eq.
Proof. apply N.compare_refl. Qed.

Lemma ascii_compare_lt_trans a b c :
  Ascii.compare a b = Lt -> Ascii.compare b c = Lt -> Ascii.compare a c = Lt.
Proof.
  unfold Ascii.compare. rewrite !N.compare_lt_iff. apply N.lt_trans.
Qed.

Lemma leb_trans a b c :
  String.leb a b = true -> String.leb b c = true -> String.leb a c = true.
Proof.
  unfold String.leb. revert b c.
  induction a as [|x a IH]; intros [|y b] [|z c]; simpl; try easy.
  destruct (Ascii.compare x y) eqn:Exy; [| |discriminate];
    destruct (Ascii.compare y z) eqn:Eyz; try discriminate.
  - apply Ascii.compare_eq_iff in Exy, Eyz. subst y z.
    rewrite ascii_compare_refl. apply IH.
  - apply Ascii.compare_eq_iff in Exy. subst y. rewrite Eyz. reflexivity.
  - apply Ascii.compare_eq_iff in Eyz. subst z. rewrite Exy. reflexivity.
  - rewrite (ascii_compare_lt_trans x y z Exy Eyz). reflexivity.
Qed.

(** Two ascending lists with the same elements are the same list. *)
Lemma sorted_perm_eq l1 l2 :
  StronglySorted (fun a b => String.leb a b = true) l1 ->
  StronglySorted (fun a b => String.leb a b = true) l2 ->
  Permutation l1 l2 -> l1 = l2.
Proof.
  revert l2. induction l1 as [|x l1 IH]; intros l2 S1 S2 P.
  - apply Permutation_nil in P. subst. reflexivity.
  - destruct l2 as [|y l2].
    + apply Permutation_sym, Permutation_nil in P. discriminate.
    + inversion S1 as [|? ? S1' H1]; inversion S2 as [|? ? S2' H2]; subst.
      assert (Exy : x = y).
      { assert (Hx : In x (y :: l2))
          by (apply (Permutation_in _ P); left; reflexivity).
        assert (Hy : In y (x :: l1))
          by (apply (Permutation_in _ (Permutation_sym P)); left; reflexivity).
        destruct Hx as [->|Hx]; [reflexivity|].
        destruct Hy as [->|Hy]; [reflexivity|].
        rewrite Forall_forall in H1, H2.
        apply String.leb_antisym; [apply H1, Hy | apply H2, Hx]. }
      subst y. f_equal. apply IH; try assumption.
      apply (Permutation_cons_inv P).
Qed.

Lemma sort_strongly_sorted l :
  StronglySorted (fun a b => String.leb a b = true) (PyStr.sort l).
Proof.
  apply Sorted_StronglySorted; [|apply sort_sorted].
  intros a b c. apply leb_trans.
Qed.

(** [list.sort()] does not depend on the order in which the directory
    listed its entries. *)
Lemma sort_canonical l1 l2 :
  Permutation l1 l2 -> PyStr.sort l1 = PyStr.sort l2.
Proof.
  intros P. apply sorted_perm_eq; try apply sort_strongly_sorted.
  rewrite <- (sort_perm l1), <- (sort_perm l2). exact P.
Qed.

Lemma filter_perm {A} (f : A -> bool) (l1 l2 : list A) :
  Permutation l1 l2 -> Permutation (filter f l1) (filter f l2).
Proof.
  induction 1 as [|x l1 l2 _ IH|x y l|l1 l2 l3 _ IH1 _ IH2]; simpl.
  - constructor.
  - destruct (f x); [apply perm_skip|]; exact IH.
  - destruct (f x), (f y); try reflexivity. apply perm_swap.
  - etransitivity; eassumption.
Qed.

Lemma string_length_app a b :
  String.length (a ++ b) = (String.length a + String.length b)%nat.
Proof. induction a as [|c a IH]; simpl; [reflexivity | rewrite IH; reflexivity]. Qed.

(** Stripping on the right leaves a text that does not end with a
    stripped character as it is. *)
Lemma rstrip_with_id p s :
  (forall c, last_char s = Some c -> p c = false) -> PyStr.rstrip_with p s = s.
Proof.
  induction s as [|a s IH]; intros H; [reflexivity|].
  simpl. destruct s as [|b s].
  - simpl. rewrite (H a eq_refl). reflexivity.
  - rewrite IH; [reflexivity|]. intros c Hc. apply H. exact Hc.
Qed.

Lemma lstrip_with_last p s c :
  last_char (PyStr.lstrip_with p s) = Some c -> last_char s = Some c.
Proof.
  induction s as [|a s IH]; simpl; [discriminate|].
  destruct (p a); [|simpl; tauto].
  intros H. specialize (IH H). destruct s; [discriminate | exact IH].
Qed.

(** [line.strip(chars)] is [line.lstrip(chars)] on a line that does not end
    with one of the characters. *)
Lemma strip_chars_lstrip chars line :
  (forall c, last_char line = Some c -> PyStr.mem_char chars c = false) ->
  PyStr.strip_chars chars line = PyStr.lstrip_chars chars line.
Proof.
  intros H. unfold PyStr.strip_chars, PyStr.strip_with, PyStr.lstrip_chars.
  apply rstrip_with_id. intros c Hc. apply H, (lstrip_with_last _ _ _ Hc).
Qed.

Lemma prefix_app_short p a b :
  (String.length p <= String.length a)%nat ->
  prefix p (a ++ b) = prefix p a.
Proof.
  revert a. induction p as [|x p IH]; intros a H.
  - destruct a; destruct b; reflexivity.
  - destruct a as [|y a]; simpl in *; [lia|].
    destruct (ascii_dec x y); [apply IH; lia | reflexivity].
Qed.

(** [name.replace('.ipynb', '')] removes the extension, and nothing else,
    from a name that has the text [.ipynb] nowhere before its end. *)
Lemma replace_only_extension stem :
  PyStr.contains ".ipynb" (stem ++ ".ipyn") = false ->
  PyStr.replace ".ipynb" EmptyString (stem ++ ".ipynb") = stem.
Proof.
  unfold PyStr.replace. induction stem as [|c stem IH]; intros H.
  - reflexivity.
  - simpl in H. apply orb_false_elim in H as [Hp Hc].
    change ((String c stem) ++ ".ipynb") with (String c (stem ++ ".ipynb")).
    cbn [PyStr.replace_from].
    assert (E : prefix ".ipynb" (String c (stem ++ ".ipynb")) = false).
    { replace (String c (stem ++ ".ipynb"))
        with ((String c (stem ++ ".ipyn")) ++ "b").
      - rewrite prefix_app_short; [exact Hp|].
        simpl. rewrite string_length_app. simpl. lia.
      - simpl. rewrite string_app_assoc. reflexivity. }
    rewrite E. f_equal. apply IH, Hc.
Qed.

Lemma substring_all s : substring 0 (String.length s) s = s.
Proof. induction s as [|c s IH]; simpl; [reflexivity | rewrite IH; reflexivity]. Qed.

Lemma substring_app_left a b :
  substring 0 (String.length a) (a ++ b) = a.
Proof. induction a as [|c a IH]; simpl; [destruct b; reflexivity | rewrite IH; reflexivity]. Qed.

Lemma substring_app_right a b :
  substring (String.length a) (String.length b) (a ++ b) = b.
Proof. induction a as [|c a IH]; simpl; [apply substring_all | exact IH]. Qed.

Lemma endswith_app a b : PyStr.endswith (a ++ b) b = true.
Proof.
  unfold PyStr.endswith. rewrite string_length_app.
  replace (String.length a + String.length b - String.length b)%nat
    with (String.length a) by lia.
  rewrite substring_app_right, String.eqb_refl.
  rewrite andb_true_r. apply Nat.leb_le. lia.
Qed.

(** The name without its extension, as the claim words it. *)
Lemma claimed_stem_app stem : claimed_stem (stem ++ ".ipynb") = stem.
Proof.
  unfold claimed_stem. rewrite endswith_app.
  rewrite string_length_app.
  replace (String.length stem + String.length ".ipynb" - String.length ".ipynb")%nat
    with (String.length stem) by lia.
  apply substring_app_left.
Qed.

Lemma find_head_filter {A} (f : A -> bool) (l : list A) :
  find f l = hd_error (filter f l).
Proof.
  induction l as [|x l IH]; simpl; [reflexivity|].
  destruct (f x); [reflexivity | exact IH].
Qed.

(** ** Characters *)

Lemma count_chars_app a b :
  PyStr.count_chars (a ++ b) = (PyStr.count_chars a + PyStr.count_chars b)%nat.
Proof. induction a as [|c a IH]; simpl; [reflexivity | rewrite IH; lia]. Qed.

(** A slice has the characters asked for, when the string has them. *)
Lemma count_chars_take s : forall n,
  PyStr.count_chars (PyStr.take n s) = Nat.min n (PyStr.count_chars s).
Proof.
  induction s as [|c s IH]; intros n; simpl.
  - destruct n; reflexivity.
  - destruct (PyStr.is_continuation c) eqn:E; simpl.
    + rewrite E. simpl. apply IH.
    + destruct n as [|n]; simpl; [reflexivity | rewrite E, IH; reflexivity].
Qed.

Lemma len_take n s :
  (Z.of_nat n <= PyStr.len s)%Z -> PyStr.len (PyStr.take n s) = Z.of_nat n.
Proof.
  unfold PyStr.len. intros H. rewrite count_chars_take. lia.
Qed.

Lemma len_app a b : PyStr.len (a ++ b) = (PyStr.len a + PyStr.len b)%Z.
Proof. unfold PyStr.len. rewrite count_chars_app. lia. Qed.

(** A slice has no byte that the string has not. *)
Lemma mem_char_take c s : forall n,
  PyStr.mem_char s c = false -> PyStr.mem_char (PyStr.take n s) c = false.
Proof.
  unfold PyStr.mem_char.
  induction s as [|x s IH]; intros n H; simpl in *; [reflexivity|].
  apply orb_false_iff in H as [Hx Hs].
  destruct (PyStr.is_continuation x); simpl.
  - rewrite Hx. apply IH, Hs.
  - destruct n; simpl; [reflexivity | rewrite Hx; apply IH, Hs].
Qed.

(** ** Facts about the monad *)

Lemma preserves_ret {S A} (I : S -> Prop) (a : A) : preserves I (ret a).
Proof. intros s H; exact H. Qed.

Lemma preserves_raise {S A} (I : S -> Prop) (e : exn) : preserves I (@raise S A e).
Proof. intros s H; exact H. Qed.

Lemma preserves_modify {S} (I : S -> Prop) (f : S -> S) :
  (forall s, I s -> I (f s)) -> preserves I (modify f).
Proof. intros Hf s H; apply Hf, H. Qed.

Lemma preserves_bind {S A B} (I : S -> Prop) (c : Py S A) (k : A -> Py S B) :
  preserves I c -> (forall a, preserves I (k a)) -> preserves I (bind c k).
Proof.
  intros Hc Hk s H. unfold bind.
  specialize (Hc s H). destruct (c s) as [[a|e] s']; simpl in *.
  - apply Hk, Hc.
  - exact Hc.
Qed.

Lemma preserves_getattr {S} (I : S -> Prop) name field :
  preserves I (@getattr S name field).
Proof. destruct field as [v|]; intros s H; exact H. Qed.

Lemma preserves_lift {S A} (I : S -> Prop) (r : string + A) :
  preserves I (@lift S A r).
Proof. destruct r as [msg|a]; intros s H; exact H. Qed.

Lemma no_exit_ret {S A} (a : A) : no_exit (@ret S A a).
Proof. intros s n; discriminate. Qed.

Lemma no_exit_modify {S} (f : S -> S) : no_exit (modify f).
Proof. intros s n; discriminate. Qed.

Lemma no_exit_getattr {S} name field : no_exit (@getattr S name field).
Proof. destruct field as [v|]; intros s n; discriminate. Qed.

Lemma no_exit_lift {S A} (r : string + A) : no_exit (@lift S A r).
Proof. destruct r as [msg|a]; intros s n; discriminate. Qed.

Lemma no_exit_bind {S A B} (c : Py S A) (k : A -> Py S B) :
  no_exit c -> (forall a, no_exit (k a)) -> no_exit (bind c k).
Proof.
  intros Hc Hk s n. unfold bind.
  specialize (Hc s n). destruct (c s) as [[a|e] s']; simpl in *.
  - apply Hk.
  - intros H; apply Hc; congruence.
Qed.

Create HintDb stages.

#[local] Hint Resolve preserves_ret preserves_raise preserves_modify
  preserves_bind preserves_getattr preserves_lift : stages.
#[local] Hint Resolve no_exit_ret no_exit_modify no_exit_getattr
  no_exit_lift no_exit_bind : stages.

(** ** The three stages of the [try] block *)

Lemma count_cells_state {S} ty cells (s : S) :
  snd (count_cells ty cells s) = s.
Proof.
  revert s; induction cells as [|c cs IH]; intros s; simpl; [reflexivity|].
  unfold bind. destruct (cell_type c) as [t|]; simpl; [|reflexivity].
  specialize (IH s). destruct (count_cells ty cs s) as [[n|e] s']; simpl in *; exact IH.
Qed.

Lemma count_cells_typed {S} ty cells (s : S) :
  Forall typed cells ->
  count_cells ty cells s = (Returns (count_type ty cells), s).
Proof.
  induction 1 as [|c cs Hc _ IH]; [reflexivity|].
  simpl. unfold bind, typed in *.
  unfold count_type, has_type in *. simpl.
  destruct (cell_type c) as [t|]; [|congruence]. simpl.
  rewrite IH. unfold ret. f_equal. f_equal.
  destruct (t =? ty); simpl List.length; lia.
Qed.

Lemma count_cells_untyped {S} ty cells (s : S) :
  ~ Forall typed cells ->
  count_cells ty cells s = (Raises (Exception "cell_type"), s).
Proof.
  induction cells as [|c cs IH]; intros H.
  - exfalso; apply H; constructor.
  - simpl. unfold bind. destruct (cell_type c) as [t|] eqn:Ht; simpl; [|reflexivity].
    rewrite IH; [reflexivity|].
    intros Hcs; apply H; constructor; [unfold typed; congruence | exact Hcs].
Qed.

Lemma typed_dec (cells : notebook) : {Forall typed cells} + {~ Forall typed cells}.
Proof.
  apply Forall_dec. intros c. unfold typed.
  destruct (cell_type c); [left; discriminate | right; intros H; apply H; reflexivity].
Qed.

Lemma count_type_nonneg ty cells : (0 <= count_type ty cells)%Z.
Proof. unfold count_type; lia. Qed.

Lemma filter_disjoint_length {A} (f g : A -> bool) (l : list A) :
  (forall x, f x = true -> g x = false) ->
  (List.length (filter f l) + List.length (filter g l) <= List.length l)%nat.
Proof.
  intros Hfg. induction l as [|x l IH]; simpl; [lia|].
  destruct (f x) eqn:Hf.
  - rewrite (Hfg x Hf). simpl. lia.
  - destruct (g x); simpl; lia.
Qed.

Lemma count_type_disjoint cells :
  (count_type "markdown" cells + count_type "code" cells
   <= Z.of_nat (List.length cells))%Z.
Proof.
  unfold count_type.
  pose proof (filter_disjoint_length (has_type "markdown") (has_type "code") cells) as H.
  assert (Hd : forall c, has_type "markdown" c = true -> has_type "code" c = false).
  { intros c. unfold has_type. destruct (cell_type c) as [t|]; [|discriminate].
    intros Hm. apply String.eqb_eq in Hm. subst t. reflexivity. }
  specialize (H Hd). lia.
Qed.

Lemma count_stage_typed cells m :
  Forall typed cells ->
  count_stage cells m =
    (Returns tt,
     set_markdown_cells (count_type "markdown" cells)
       (set_code_cells (count_type "code" cells)
          (set_cell_count (Z.of_nat (List.length cells)) m))).
Proof.
  intros H. unfold count_stage, bind, modify.
  rewrite (count_cells_typed _ _ _ H), (count_cells_typed _ _ _ H). reflexivity.
Qed.

Lemma count_stage_untyped cells m :
  ~ Forall typed cells ->
  count_stage cells m =
    (Raises (Exception "cell_type"),
     set_cell_count (Z.of_nat (List.length cells)) m).
Proof.
  intros H. unfold count_stage, bind, modify.
  rewrite (count_cells_untyped _ _ _ H). reflexivity.
Qed.

Lemma no_exit_count_cells {S} ty cells : no_exit (@count_cells S ty cells).
Proof. induction cells; simpl; auto 6 with stages. Qed.

Lemma no_exit_count_stage cells : no_exit (count_stage cells).
Proof.
  unfold count_stage. auto 10 using @no_exit_count_cells with stages.
Qed.

Lemma preserves_title_from_cell (I : metadata -> Prop) src :
  (forall v m, I m -> I (set_title v m)) ->
  (forall v m, I m -> I (set_description v m)) ->
  preserves I (title_from_cell src).
Proof.
  intros Ht Hd. unfold title_from_cell.
  apply preserves_bind.
  - destruct (find is_heading _); auto with stages.
  - intros _. destruct (filter _ _); auto with stages.
Qed.

Lemma preserves_title_stage (I : metadata -> Prop) cells :
  (forall v m, I m -> I (set_title v m)) ->
  (forall v m, I m -> I (set_description v m)) ->
  preserves I (title_stage cells).
Proof.
  intros Ht Hd. induction cells as [|c cs IH]; simpl; auto with stages.
  apply preserves_bind; auto with stages.
  intros t. destruct (t =? "markdown"); auto.
  apply preserves_bind; auto with stages.
  intros src. destruct (truthy _); auto using preserves_title_from_cell.
Qed.

Lemma preserves_plotly_stage (I : metadata -> Prop) cells :
  (forall v m, I m -> I (set_has_plotly v m)) ->
  preserves I (plotly_stage cells).
Proof.
  intros Hp. induction cells as [|c cs IH]; simpl; auto with stages.
  apply preserves_bind; auto with stages.
  intros t. destruct (t =? "code"); auto.
  apply preserves_bind; auto with stages.
  intros src. destruct (PyStr.contains _ _); auto with stages.
Qed.

Lemma no_exit_title_stage cells : no_exit (title_stage cells).
Proof.
  induction cells as [|c cs IH]; simpl; auto with stages.
  apply no_exit_bind; auto with stages.
  intros t. destruct (t =? "markdown"); auto.
  apply no_exit_bind; auto with stages.
  intros src. destruct (truthy _); auto.
  unfold title_from_cell. apply no_exit_bind.
  - destruct (find is_heading _); auto with stages.
  - intros _. destruct (filter _ _); auto with stages.
Qed.

Lemma no_exit_plotly_stage cells : no_exit (plotly_stage cells).
Proof.
  induction cells as [|c cs IH]; simpl; auto with stages.
  apply no_exit_bind; auto with stages.
  intros t. destruct (t =? "code"); auto.
  apply no_exit_bind; auto with stages.
  intros src. destruct (PyStr.contains _ _); auto with stages.
Qed.

(** What the chosen markdown cell gives: the title of its first heading
    line, if it has one, and the description of its first candidate line,
    if it has one. *)
Lemma title_from_cell_eq src m :
  title_from_cell src m =
    (Returns tt,
     let m1 :=
       match find is_heading (cell_lines src) with
       | Some line => set_title (PyStr.strip (PyStr.strip_chars "#" line)) m
       | None => m
       end in
     match filter is_candidate (cell_lines src) with
     | line :: _ => set_description (shorten line) m1
     | [] => m1
     end).
Proof.
  unfold title_from_cell, bind, cell_lines, is_candidate.
  destruct (find is_heading _); simpl;
    destruct (filter _ _); reflexivity.
Qed.

(** The title loop passes over cells of other types and over blank
    markdown cells, and stops at the first markdown cell with text. *)
Lemma title_stage_reaches pre c post src m :
  Forall typed pre -> Forall blank_or_other pre ->
  cell_type c = Some "markdown" -> source c = Some src ->
  PyStr.strip src <> EmptyString ->
  title_stage (pre ++ c :: post)%list m = title_from_cell src m.
Proof.
  intros Hty Hbl Hc Hs Hne.
  induction pre as [|c' pre IH]; simpl.
  - unfold bind. rewrite Hc, Hs. simpl.
    destruct (String.eqb_spec (PyStr.strip src) EmptyString) as [E|E];
      [contradiction|]. unfold truthy.
    destruct (String.eqb_spec (PyStr.strip src) EmptyString); [contradiction|].
    reflexivity.
  - inversion Hty as [|? ? Hc' Hty']; inversion Hbl as [|? ? Hb' Hbl']; subst.
    unfold typed in Hc'. unfold bind.
    destruct (cell_type c') as [t|] eqn:Et; [|congruence]. simpl.
    destruct (t =? "markdown") eqn:Em.
    + destruct Hb' as [s [Hs' Hblank]].
      { unfold has_type. rewrite Et. exact Em. }
      rewrite Hs'. simpl. unfold truthy. rewrite Hblank. simpl.
      apply IH; assumption.
    + apply IH; assumption.
Qed.

(** Without a heading line in any markdown cell the title loop leaves the
    title as it was. *)
Lemma title_stage_no_heading cells m :
  (forall c, In c cells -> ~ has_heading_line c) ->
  title (snd (title_stage cells m)) = title m.
Proof.
  induction cells as [|c cs IH]; intros Hno; simpl; [reflexivity|].
  unfold bind. destruct (cell_type c) as [t|] eqn:Et; simpl; [|reflexivity].
  destruct (t =? "markdown") eqn:Em.
  - destruct (source c) as [src|] eqn:Es; simpl; [|reflexivity].
    destruct (truthy (PyStr.strip src)).
    + rewrite title_from_cell_eq. simpl.
      destruct (find is_heading (cell_lines src)) as [line|] eqn:Ef.
      * exfalso. apply (Hno c (or_introl eq_refl)).
        apply String.eqb_eq in Em. subst t.
        split; [exact Et|]. exists src, line.
        apply find_some in Ef. tauto.
      * destruct (filter is_candidate _); reflexivity.
    + apply IH. intros c' Hin. apply Hno. right; exact Hin.
  - apply IH. intros c' Hin. apply Hno. right; exact Hin.
Qed.

(** The flag is set exactly when the scan ends normally on a notebook with
    a code cell that mentions the library. *)
Lemma plotly_stage_found cells m m' :
  plotly_stage cells m = (Returns tt, m') ->
  (exists c, In c cells /\ mentions_plotly c) ->
  has_plotly m' = true.
Proof.
  revert m m'. induction cells as [|c cs IH]; intros m m' Hrun [c0 [Hin Hc0]].
  - destruct Hin.
  - simpl in Hrun. unfold bind in Hrun.
    destruct Hc0 as [Hty [src0 [Hsrc0 Hmatch]]].
    destruct (cell_type c) as [t|] eqn:Et; simpl in Hrun; [|discriminate].
    destruct (t =? "code") eqn:Ec.
    + destruct (source c) as [src|] eqn:Es; simpl in Hrun; [|discriminate].
      destruct (PyStr.contains "plotly" (PyStr.lower src)) eqn:Em.
      * inversion Hrun; reflexivity.
      * apply (IH m m' Hrun). exists c0. split.
        -- destruct Hin as [<-|Hin]; [|exact Hin]. congruence.
        -- split; [exact Hty|]. exists src0. tauto.
    + apply (IH m m' Hrun). exists c0. split.
      * destruct Hin as [<-|Hin]; [|exact Hin].
        rewrite Hty in Et. inversion Et; subst t. discriminate.
      * split; [exact Hty|]. exists src0. tauto.
Qed.

Lemma plotly_stage_sets cells m :
  has_plotly m = false ->
  has_plotly (snd (plotly_stage cells m)) = true ->
  fst (plotly_stage cells m) = Returns tt /\
  exists c, In c cells /\ mentions_plotly c.
Proof.
  intros Hm. induction cells as [|c cs IH]; simpl.
  - intros H; congruence.
  - unfold bind.
    destruct (cell_type c) as [t|] eqn:Et; simpl; [|intros H; congruence].
    destruct (t =? "code") eqn:Ec.
    + destruct (source c) as [src|] eqn:Es; simpl; [|intros H; congruence].
      destruct (PyStr.contains "plotly" (PyStr.lower src)) eqn:Em.
      * intros _. split; [reflexivity|]. exists c. split; [left; reflexivity|].
        apply String.eqb_eq in Ec. subst t.
        split; [exact Et|]. exists src. tauto.
      * intros H. destruct (IH H) as [Hr [c0 [Hin Hc0]]].
        split; [exact Hr|]. exists c0. split; [right; exact Hin | exact Hc0].
    + intros H. destruct (IH H) as [Hr [c0 [Hin Hc0]]].
      split; [exact Hr|]. exists c0. split; [right; exact Hin | exact Hc0].
Qed.

(** The title loop ends normally when every cell has a type and every
    markdown cell a source. *)
Lemma title_stage_returns cells m :
  Forall typed cells -> Forall (sourced "markdown") cells ->
  exists m', title_stage cells m = (Returns tt, m').
Proof.
  intros Hty Hsrc. induction cells as [|c cs IH]; simpl.
  - exists m. reflexivity.
  - inversion Hty as [|? ? Hc Hty']; inversion Hsrc as [|? ? Hs Hsrc']; subst.
    unfold bind, typed, sourced, has_type in *.
    destruct (cell_type c) as [t|]; [|congruence]. simpl.
    destruct (t =? "markdown").
    + destruct (source c) as [src|]; [|exfalso; apply Hs; reflexivity]. simpl.
      destruct (truthy (PyStr.strip src)).
      * rewrite title_from_cell_eq. eexists. reflexivity.
      * apply IH; assumption.
    + apply IH; assumption.
Qed.

(** The scan stops at the first code cell that mentions the library: the
    cells after it are not read. *)
Lemma plotly_stage_stops pre c post m :
  Forall typed pre -> Forall (sourced "code") pre -> mentions_plotly c ->
  plotly_stage (pre ++ c :: post)%list m = (Returns tt, set_has_plotly true m).
Proof.
  intros Hty Hsrc [Hc [src [Hs Hm]]].
  induction pre as [|c' pre IH]; simpl.
  - unfold bind. rewrite Hc, Hs. simpl. rewrite Hm. reflexivity.
  - inversion Hty as [|? ? Hc' Hty']; inversion Hsrc as [|? ? Hs' Hsrc']; subst.
    unfold bind, typed, sourced, has_type in *.
    destruct (cell_type c') as [t|]; [|congruence]. simpl.
    destruct (t =? "code").
    + destruct (source c') as [src'|]; [|exfalso; apply Hs'; reflexivity]. simpl.
      destruct (PyStr.contains "plotly" (PyStr.lower src')).
      * reflexivity.
      * apply IH; assumption.
    + apply IH; assumption.
Qed.

Lemma app_one_neq {A} (l : list A) (x : A) : (l ++ [x])%list <> l.
Proof.
  intros H. apply (f_equal (@List.length A)) in H.
  rewrite length_app in H. simpl in H. lia.
Qed.

Section Extraction.

Variable str_title : string -> string.
Variable nbformat_read : string -> string + notebook.

Let extract := extract_notebook_metadata str_title nbformat_read.
Let read := read_notebook nbformat_read.
Let block := try_block nbformat_read.

Lemma no_exit_try_block fs path : no_exit (block fs path).
Proof.
  unfold block, try_block.
  auto 10 using no_exit_count_stage, no_exit_title_stage, no_exit_plotly_stage
    with stages.
Qed.

(** The function returns the record as the [try] block left it, and
    prints one warning when the block raised. *)
Lemma extract_cases path w :
  (fst (block (w_fs w) path (default_metadata str_title path)) = Returns tt /\
   extract path w =
     (Returns (snd (block (w_fs w) path (default_metadata str_title path))), w)) \/
  (exists e,
     fst (block (w_fs w) path (default_metadata str_title path)) = Raises (Exception e) /\
     extract path w =
       (Returns (snd (block (w_fs w) path (default_metadata str_title path))),
        emit ("Warning: Could not read notebook " ++ path ++ ": " ++ e) w)).
Proof.
  pose proof (no_exit_try_block (w_fs w) path (default_metadata str_title path)) as Hne.
  unfold extract, extract_notebook_metadata, bind, gets. simpl.
  fold (block (w_fs w) path).
  destruct (block (w_fs w) path (default_metadata str_title path)) as [[[]|[e|n]] m];
    simpl in *.
  - left. split; reflexivity.
  - right. exists e. split; reflexivity.
  - exfalso. apply (Hne n). reflexivity.
Qed.

Lemma block_unreadable fs path e m :
  read fs path = inl e -> block fs path m = (Raises (Exception e), m).
Proof.
  intros H. unfold block, try_block, bind. fold (read fs path). rewrite H.
  reflexivity.
Qed.

Lemma block_readable fs path cells m :
  read fs path = inr cells ->
  block fs path m = (count_stage cells ;; title_stage cells ;; plotly_stage cells) m.
Proof.
  intros H. unfold block, try_block. unfold bind at 1.
  fold (read fs path). rewrite H. reflexivity.
Qed.

(** On a notebook whose cells all have a type the block is the title
    stage and then the plotly stage, from the counted record. *)
Lemma block_typed fs path cells :
  read fs path = inr cells -> Forall typed cells ->
  block fs path (default_metadata str_title path) =
    (title_stage cells ;; plotly_stage cells) (counted_metadata str_title path cells).
Proof.
  intros H Hty. rewrite (block_readable _ _ _ _ H).
  unfold bind at 1. rewrite (count_stage_typed _ _ Hty). reflexivity.
Qed.

Lemma block_untyped fs path cells :
  read fs path = inr cells -> ~ Forall typed cells ->
  block fs path (default_metadata str_title path) =
    (Raises (Exception "cell_type"),
     set_cell_count (Z.of_nat (List.length cells)) (default_metadata str_title path)).
Proof.
  intros H Hty. rewrite (block_readable _ _ _ _ H).
  unfold bind at 1. rewrite (count_stage_untyped _ _ Hty). reflexivity.
Qed.

(** The two later stages keep every field they do not assign. *)
Lemma later_stages_keep (I : metadata -> Prop) cells :
  (forall v m, I m -> I (set_title v m)) ->
  (forall v m, I m -> I (set_description v m)) ->
  (forall v m, I m -> I (set_has_plotly v m)) ->
  preserves I (title_stage cells ;; plotly_stage cells).
Proof.
  intros Ht Hd Hp. apply preserves_bind.
  - apply preserves_title_stage; assumption.
  - intros _. apply preserves_plotly_stage; assumption.
Qed.

Lemma plotly_after_title cells m :
  let m1 := snd (title_stage cells m) in
  let m2 := snd ((title_stage cells ;; plotly_stage cells) m) in
  title m2 = title m1 /\ description m2 = description m1.
Proof.
  simpl. unfold bind.
  destruct (title_stage cells m) as [[[]|e] m1]; simpl; [|split; reflexivity].
  pose proof (preserves_plotly_stage
                (fun x => title x = title m1 /\ description x = description m1)
                cells) as H.
  apply H; [intros v x Hx; exact Hx | split; reflexivity].
Qed.


(** C2, amended.  In a notebook whose cells all have a type, let [c] be the
    first markdown cell whose text is not blank, every markdown cell before
    it having a text.  If [line] is the first line of [c] (of its text
    without surrounding whitespace) that starts with a heading marker, the
    extracted title is [line] with the heading markers stripped at both of
    its ends and then the surrounding whitespace stripped; the cells after
    [c] play no part.  When [line] does not end with a heading marker, this
    is [line] with its leading heading markers and the surrounding
    whitespace stripped. *)
Theorem title_of_first_text_cell path w pre c post src line :
  read_notebook nbformat_read (w_fs w) path = inr (pre ++ c :: post)%list ->
  Forall typed (pre ++ c :: post)%list ->
  Forall blank_or_other pre ->
  cell_type c = Some "markdown" -> source c = Some src ->
  PyStr.strip src <> EmptyString ->
  find is_heading (cell_lines src) = Some line ->
  exists md w',
    extract_notebook_metadata str_title nbformat_read path w = (Returns md, w') /\
    title md = PyStr.strip (PyStr.strip_chars "#" line) /\
    (last_char line <> Some "#"%char -> title md = claimed_title_of_line line).
Proof.
  intros Hread Hty Hbl Hc Hs Hne Hfind.
  pose proof (block_typed _ _ _ Hread Hty) as Hb.
  pose proof (plotly_after_title (pre ++ c :: post)%list
                (counted_metadata str_title path (pre ++ c :: post)%list)) as [Ht _].
  assert (Hpre : Forall typed pre).
  { apply Forall_app in Hty. tauto. }
  rewrite (title_stage_reaches pre c post src _ Hpre Hbl Hc Hs Hne) in Ht.
  rewrite title_from_cell_eq in Ht. simpl in Ht. rewrite Hfind in Ht.
  assert (Ht' : title (snd (block (w_fs w) path (default_metadata str_title path)))
                = PyStr.strip (PyStr.strip_chars "#" line)).
  { rewrite Hb, Ht. destruct (filter is_candidate (cell_lines src)); reflexivity. }
  assert (Hclaim : last_char line <> Some "#"%char ->
                   PyStr.strip (PyStr.strip_chars "#" line)
                   = claimed_title_of_line line).
  { intros Hlast. unfold claimed_title_of_line. f_equal.
    apply strip_chars_lstrip. intros a Ha. unfold PyStr.mem_char. simpl.
    destruct (Ascii.eqb_spec a "#"%char) as [->|]; [contradiction | reflexivity]. }
  destruct (extract_cases path w) as [[_ He]|[e [_ He]]];
    eexists; eexists; (split; [exact He|]); (split; [exact Ht'|]);
    intros Hlast; rewrite Ht'; apply Hclaim, Hlast.
Qed.

(** C3, amended.  With [c] as in C2, if [line] is the first line of [c]
    (of its text without surrounding whitespace) that does not start with a
    heading marker and is not blank, the extracted description is [line]
    when it has at most 100 characters, and otherwise its first 100
    characters followed by three dots.  When the text of [c] has no
    surrounding whitespace and none of its lines consists of whitespace
    only, [line] is the first line of [c] that is not empty and does not
    start with a heading marker. *)
Theorem description_of_first_text_cell path w pre c post src line rest :
  read_notebook nbformat_read (w_fs w) path = inr (pre ++ c :: post)%list ->
  Forall typed (pre ++ c :: post)%list ->
  Forall blank_or_other pre ->
  cell_type c = Some "markdown" -> source c = Some src ->
  PyStr.strip src <> EmptyString ->
  filter is_candidate (cell_lines src) = line :: rest ->
  exists md w',
    extract_notebook_metadata str_title nbformat_read path w = (Returns md, w') /\
    ((100 < PyStr.len line)%Z ->
       description md = PyStr.take 100 line ++ "..." /\
       PyStr.len (PyStr.take 100 line) = 100%Z) /\
    ((PyStr.len line <= 100)%Z -> description md = line) /\
    (PyStr.strip src = src ->
     (forall l, In l (cell_lines src) -> truthy (PyStr.strip l) = truthy l) ->
     claimed_description_line src = Some line).
Proof.
  intros Hread Hty Hbl Hc Hs Hne Hcand.
  pose proof (block_typed _ _ _ Hread Hty) as Hb.
  pose proof (plotly_after_title (pre ++ c :: post)%list
                (counted_metadata str_title path (pre ++ c :: post)%list)) as [_ Hd].
  assert (Hpre : Forall typed pre).
  { apply Forall_app in Hty. tauto. }
  rewrite (title_stage_reaches pre c post src _ Hpre Hbl Hc Hs Hne) in Hd.
  rewrite title_from_cell_eq in Hd. simpl in Hd. rewrite Hcand in Hd.
  simpl in Hd.
  assert (Hd' : description (snd (block (w_fs w) path (default_metadata str_title path)))
                = shorten line).
  { rewrite Hb. exact Hd. }
  assert (Hclaim : PyStr.strip src = src ->
            (forall l, In l (cell_lines src) -> truthy (PyStr.strip l) = truthy l) ->
            claimed_description_line src = Some line).
  { intros Hstrip Hlines. unfold claimed_description_line.
    rewrite find_head_filter.
    replace (PyStr.split (ascii_of_nat 10) src) with (cell_lines src)
      by (unfold cell_lines; rewrite Hstrip; reflexivity).
    rewrite (filter_ext_in _ is_candidate).
    - rewrite Hcand. reflexivity.
    - intros l Hl. unfold is_candidate. rewrite (Hlines l Hl). apply andb_comm. }
  destruct (extract_cases path w) as [[_ He]|[e [_ He]]];
    eexists; eexists; (split; [exact He|]); rewrite Hd'; unfold shorten;
    (split; [intros Hlong | split; [intros Hshort | exact Hclaim]]).
  all: try (destruct (Z.ltb_spec 100 (PyStr.len line)); [|lia];
            split; [reflexivity | apply (len_take 100); lia]).
  all: destruct (Z.ltb_spec 100 (PyStr.len line)); [lia | reflexivity].
Qed.

(** C4, amended.  When no markdown cell of the notebook has, among the
    lines of its text with the surrounding whitespace stripped, a line
    that starts with a heading marker (and also when the notebook cannot
    be read), the extracted title is the base name of the file with every
    occurrence of the text [.ipynb] removed, underscores replaced by
    spaces, and title-casing ([str.title]) applied.  For a base name that
    has the text [.ipynb] at its end and nowhere before, this is the base
    name with the extension removed, underscores replaced by spaces, and
    title-casing applied.  (The lines are those of the stripped text: a
    cell whose only line is a heading marker after two spaces has a
    heading line, and its heading is the title.) *)
Theorem title_without_heading path w :
  (forall cells c,
     read_notebook nbformat_read (w_fs w) path = inr cells ->
     In c cells -> ~ has_heading_line c) ->
  exists md w',
    extract_notebook_metadata str_title nbformat_read path w = (Returns md, w') /\
    title md =
      str_title
        (PyStr.replace "_" " "
           (PyStr.replace ".ipynb" EmptyString (PyStr.basename path))) /\
    (forall stem,
       PyStr.basename path = stem ++ ".ipynb" ->
       PyStr.contains ".ipynb" (stem ++ ".ipyn") = false ->
       title md = claimed_default_title str_title path).
Proof.
  intros Hno.
  assert (Ht : title (snd (block (w_fs w) path (default_metadata str_title path)))
               = default_title str_title path).
  { destruct (read (w_fs w) path) as [e|cells] eqn:Hread.
    - rewrite (block_unreadable _ _ _ _ Hread). reflexivity.
    - destruct (typed_dec cells) as [Hty|Hty].
      + rewrite (block_typed _ _ _ Hread Hty).
        destruct (plotly_after_title cells (counted_metadata str_title path cells)) as [H _].
        rewrite H. rewrite title_stage_no_heading; [reflexivity|].
        intros c Hin. apply (Hno cells c Hread Hin).
      + rewrite (block_untyped _ _ _ Hread Hty). reflexivity. }
  assert (Hclaim : forall stem,
            PyStr.basename path = stem ++ ".ipynb" ->
            PyStr.contains ".ipynb" (stem ++ ".ipyn") = false ->
            default_title str_title path = claimed_default_title str_title path).
  { intros stem Hbase Hclean. unfold default_title, claimed_default_title.
    rewrite Hbase, claimed_stem_app, (replace_only_extension stem Hclean).
    reflexivity. }
  destruct (extract_cases path w) as [[_ He]|[e [_ He]]];
    eexists; eexists; (split; [exact He|]); (split; [exact Ht|]);
    intros stem Hbase Hclean; rewrite Ht; apply (Hclaim stem Hbase Hclean).
Qed.

(** The flag, for a notebook that was read. *)
Lemma plotly_flag_cases path w cells :
  read_notebook nbformat_read (w_fs w) path = inr cells ->
  exists md w',
    extract_notebook_metadata str_title nbformat_read path w = (Returns md, w') /\
    (has_plotly md = true <->
     w_stdout w' = w_stdout w /\ exists c, In c cells /\ mentions_plotly c).
Proof.
  intros Hread.
  pose proof (block_readable (w_fs w) path cells (default_metadata str_title path) Hread)
    as Hb.
  assert (Hflag : forall m r,
            (count_stage cells ;; title_stage cells) (default_metadata str_title path)
              = (r, m) -> has_plotly m = false).
  { intros m r H.
    assert (P : preserves (fun x => has_plotly x = false)
                  (count_stage cells ;; title_stage cells)).
    { apply preserves_bind.
      - unfold count_stage.
        repeat (apply preserves_bind; [|intros ?]);
          try (apply preserves_modify; intros x Hx; exact Hx).
        all: intros x Hx; rewrite count_cells_state; exact Hx.
      - intros _. apply preserves_title_stage; intros v x Hx; exact Hx. }
    specialize (P (default_metadata str_title path) eq_refl). rewrite H in P. exact P. }
  assert (Hsplit : (count_stage cells ;; title_stage cells ;; plotly_stage cells)
                     (default_metadata str_title path)
                   = match (count_stage cells ;; title_stage cells)
                             (default_metadata str_title path) with
                     | (Returns _, m) => plotly_stage cells m
                     | (Raises e, m) => (Raises e, m)
                     end).
  { unfold bind. destruct (count_stage cells (default_metadata str_title path)) as [[[]|e] m];
      [|reflexivity].
    destruct (title_stage cells m) as [[[]|e] m']; reflexivity. }
  rewrite Hsplit in Hb.
  destruct ((count_stage cells ;; title_stage cells) (default_metadata str_title path))
    as [[[]|e0] m0] eqn:Hearly.
  - pose proof (Hflag _ _ eq_refl) as Hm0.
    destruct (extract_cases path w) as [[Hr He]|[e [Hr He]]];
      eexists; eexists; (split; [exact He|]); rewrite Hb in *.
    + split.
      * intros Hp. split; [reflexivity|].
        apply (plotly_stage_sets cells m0 Hm0 Hp).
      * intros [_ Hex].
        destruct (plotly_stage cells m0) as [r m1] eqn:Hp. simpl in *. subst r.
        apply (plotly_stage_found cells m0 m1 Hp Hex).
    + split.
      * intros Hp. destruct (plotly_stage_sets cells m0 Hm0 Hp) as [Hok _].
        rewrite Hok in Hr. discriminate.
      * intros [Hout _]. simpl in Hout. exfalso. exact (app_one_neq _ _ Hout).
  - pose proof (Hflag _ _ eq_refl) as Hm0.
    destruct (extract_cases path w) as [[Hr He]|[e [Hr He]]];
      eexists; eexists; (split; [exact He|]); rewrite Hb in *.
    + discriminate.
    + simpl. rewrite Hm0. split; [discriminate|].
      intros [Hout _]. exfalso. exact (app_one_neq _ _ Hout).
Qed.

(** C5, amended.  For a notebook that was read, the flag is true exactly
    when the extraction ran to its end without a warning and some code
    cell has a text that contains [plotly], whatever the case of its
    letters.  The cells are scanned in order and the scan stops at the
    first match: when every cell has a type, every markdown cell a source,
    and every code cell before a cell that mentions the library a source,
    the flag is true and nothing is printed, whatever the code cells after
    it hold. *)
Theorem plotly_flag_iff path w cells :
  read_notebook nbformat_read (w_fs w) path = inr cells ->
  exists md w',
    extract_notebook_metadata str_title nbformat_read path w = (Returns md, w') /\
    (has_plotly md = true <->
     w_stdout w' = w_stdout w /\ exists c, In c cells /\ mentions_plotly c) /\
    (forall pre c post,
       cells = (pre ++ c :: post)%list ->
       Forall typed cells -> Forall (sourced "markdown") cells ->
       Forall (sourced "code") pre -> mentions_plotly c ->
       has_plotly md = true /\ w' = w).
Proof.
  intros Hread.
  destruct (plotly_flag_cases path w cells Hread) as [md [w' [E Hiff]]].
  exists md, w'. split; [exact E|]. split; [exact Hiff|].
  intros pre c post Hcells Hty Hmd Hcode Hc.
  pose proof (block_typed _ _ _ Hread Hty) as Hb.
  destruct (title_stage_returns cells (counted_metadata str_title path cells) Hty Hmd)
    as [m1 Ht].
  assert (Hpre : Forall typed pre).
  { rewrite Hcells in Hty. apply Forall_app in Hty. tauto. }
  assert (Hrun : block (w_fs w) path (default_metadata str_title path)
                 = (Returns tt, set_has_plotly true m1)).
  { rewrite Hb. unfold bind. rewrite Ht. rewrite Hcells.
    apply plotly_stage_stops; assumption. }
  destruct (extract_cases path w) as [[_ He]|[e [Hr _]]].
  - rewrite Hrun in He. unfold extract in He. rewrite He in E.
    inversion E; subst. split; reflexivity.
  - rewrite Hrun in Hr. discriminate.
Qed.


(** C10.  The record that [extract_notebook_metadata] returns has three
    counts that are not negative, with the markdown and code counts
    together at most the total; the total counts every cell that was
    read, whatever its type. *)
Theorem extract_counts_invariant path w :
  exists md w',
    extract_notebook_metadata str_title nbformat_read path w = (Returns md, w') /\
    (0 <= cell_count md)%Z /\ (0 <= markdown_cells md)%Z /\
    (0 <= code_cells md)%Z /\
    (markdown_cells md + code_cells md <= cell_count md)%Z /\
    forall cells,
      read_notebook nbformat_read (w_fs w) path = inr cells ->
      cell_count md = Z.of_nat (List.length cells).
Proof.
  assert (H : counts_ok (snd (block (w_fs w) path (default_metadata str_title path))) /\
              forall cells, read (w_fs w) path = inr cells ->
                cell_count (snd (block (w_fs w) path (default_metadata str_title path)))
                = Z.of_nat (List.length cells)).
  { destruct (read (w_fs w) path) as [e|cells] eqn:Hread.
    - rewrite (block_unreadable _ _ _ _ Hread). split.
      + unfold counts_ok. simpl. lia.
      + intros cells Hc. discriminate.
    - assert (Hboth :
                counts_ok (snd (block (w_fs w) path (default_metadata str_title path))) /\
                cell_count (snd (block (w_fs w) path (default_metadata str_title path)))
                = Z.of_nat (List.length cells)).
      { destruct (typed_dec cells) as [Hty|Hty].
        + rewrite (block_typed _ _ _ Hread Hty).
          apply (later_stages_keep
                   (fun x => counts_ok x /\
                             cell_count x = Z.of_nat (List.length cells)));
            try (intros v x Hx; exact Hx).
          split; [|reflexivity]. unfold counts_ok. simpl.
          pose proof (count_type_nonneg "markdown" cells).
          pose proof (count_type_nonneg "code" cells).
          pose proof (count_type_disjoint cells). lia.
        + rewrite (block_untyped _ _ _ Hread Hty).
          split; [|reflexivity]. unfold counts_ok. simpl. lia. }
      split; [tauto|]. intros cells' Hc. inversion Hc; subst. tauto. }
  destruct H as [Hok Hlen]. unfold counts_ok in Hok.
  destruct (extract_cases path w) as [[_ He]|[e [_ He]]];
    eexists; eexists; (split; [exact He|]); repeat split; try tauto;
    exact Hlen.
Qed.

End Extraction.

(** ** Paths of inputs and outputs *)

Lemma notebook_file_last f :
  is_notebook_file f = true -> last_char f = Some "b"%char.
Proof.
  intros H. apply endswith_split in H as [x ->].
  rewrite last_char_app; [reflexivity | discriminate].
Qed.

Lemma is_output_cases p :
  is_output p = true -> In p output_paths.
Proof.
  unfold is_output. intros H. apply existsb_exists in H as [q [Hin Heq]].
  apply String.eqb_eq in Heq. subst q. exact Hin.
Qed.

Lemma output_in p : In p output_paths -> is_output p = true.
Proof.
  intros H. unfold is_output. apply existsb_exists. exists p.
  split; [exact H | apply String.eqb_refl].
Qed.

Lemma is_output_last p : is_output p = true -> last_char p = Some "d"%char.
Proof.
  intros H. apply is_output_cases in H. simpl in H.
  repeat (destruct H as [<-|H]; [reflexivity|]). destruct H.
Qed.

Lemma last_not_output p :
  last_char p <> Some "d"%char -> is_output p = false.
Proof.
  intros H. destruct (is_output p) eqn:E; [|reflexivity].
  exfalso. apply H. apply is_output_last. exact E.
Qed.

(** The path of a notebook file is not a generated file. *)
Lemma notebook_path_input d f :
  is_notebook_file f = true -> is_output (PyStr.path_join d f) = false.
Proof.
  intros H. apply last_not_output.
  assert (Hf : f <> EmptyString).
  { intros ->. discriminate H. }
  assert (Hl : forall x, last_char (x ++ f) = Some "b"%char).
  { intros x. rewrite last_char_app by exact Hf. apply notebook_file_last, H. }
  unfold PyStr.path_join.
  destruct (PyStr.startswith f "/").
  - rewrite (notebook_file_last f H). discriminate.
  - destruct ((d =? EmptyString) || PyStr.endswith d "/").
    + rewrite Hl. discriminate.
    + replace (d ++ "/" ++ f) with ((d ++ "/") ++ f).
      * rewrite Hl. discriminate.
      * clear. induction d as [|c d IH]; simpl; [reflexivity | rewrite IH; reflexivity].
Qed.

(** Nothing under [docs/] is a generated file. *)
Lemma docs_path_input s : is_output ("docs/" ++ s) = false.
Proof. reflexivity. Qed.

Lemma folder_path_input key :
  In key (dict_keys folder_info) ->
  is_output (PyStr.path_join "notebooks" key) = false.
Proof.
  simpl. intros H.
  repeat (destruct H as [<-|H]; [reflexivity|]). destruct H.
Qed.

Lemma readme_path_output key :
  In key (dict_keys folder_info) -> is_output (readme_path key) = true.
Proof.
  intros H. apply output_in. right. apply in_map. exact H.
Qed.

Lemma readme_path_inj k1 k2 :
  In k1 (dict_keys folder_info) -> In k2 (dict_keys folder_info) ->
  readme_path k1 = readme_path k2 -> k1 = k2.
Proof.
  simpl. intros H1 H2.
  repeat (destruct H1 as [<-|H1]);
    repeat (destruct H2 as [<-|H2]);
    try contradiction; intros E; try reflexivity; discriminate E.
Qed.

Lemma known_key_descriptor key :
  In key (dict_keys folder_info) ->
  exists info, dict_get folder_info key = Some info.
Proof.
  simpl. intros H.
  repeat (destruct H as [<-|H]; [eexists; reflexivity|]). destruct H.
Qed.

Lemma dict_get_absent {V} (d : list (string * V)) key :
  ~ In key (dict_keys d) -> dict_get d key = None.
Proof.
  induction d as [|[k v] d IH]; simpl; intros H; [reflexivity|].
  destruct (String.eqb_spec k key) as [E|E].
  - exfalso. apply H. left. exact E.
  - apply IH. intros Hin. apply H. right. exact Hin.
Qed.

Lemma drop_prefix_app a s r : drop_prefix a s = Some r -> s = a ++ r.
Proof.
  revert s. induction a as [|c a IH]; intros s H; simpl in *.
  - inversion H. reflexivity.
  - destruct s as [|c' s]; [discriminate|].
    destruct (Ascii.eqb_spec c c') as [<-|]; [|discriminate].
    f_equal. apply IH. exact H.
Qed.

(** A generated file is listed under a name that is not a notebook's. *)
Lemma output_entry_name d p name :
  is_output p = true -> entry_name d p = Some name ->
  is_notebook_file name = false.
Proof.
  intros Hp H. unfold entry_name in H.
  destruct (drop_prefix (d ++ "/") p) as [r|] eqn:E; [|discriminate].
  destruct (PyStr.contains "/" r); [discriminate|]. inversion H; subst r.
  apply drop_prefix_app in E.
  destruct (is_notebook_file name) eqn:Hn; [|reflexivity].
  exfalso. apply is_output_last in Hp.
  assert (Hne : name <> EmptyString) by (intros ->; discriminate Hn).
  rewrite E, last_char_app in Hp by exact Hne.
  rewrite (notebook_file_last name Hn) in Hp. discriminate.
Qed.

Lemma filter_add_name name l :
  is_notebook_file name = false ->
  filter is_notebook_file (add_name name l) = filter is_notebook_file l.
Proof.
  intros H. unfold add_name. destruct (existsb _ l); [reflexivity|].
  simpl. rewrite H. reflexivity.
Qed.
(** ** Runs that read the same inputs *)

Lemma same_notebooks_refl r : same_notebooks r r.
Proof. destruct r; simpl; reflexivity. Qed.

Lemma same_notebooks_sym r1 r2 : same_notebooks r1 r2 -> same_notebooks r2 r1.
Proof.
  destruct r1, r2; simpl; intros H; try contradiction;
    [symmetry; exact H | apply Permutation_sym, H].
Qed.

Lemma same_notebooks_trans r1 r2 r3 :
  same_notebooks r1 r2 -> same_notebooks r2 r3 -> same_notebooks r1 r3.
Proof.
  destruct r1, r2, r3; simpl; intros H1 H2; try contradiction.
  - congruence.
  - eapply Permutation_trans; eassumption.
Qed.

Lemma same_inputs_refl fs : same_inputs fs fs.
Proof. constructor; try reflexivity. intros d. apply same_notebooks_refl. Qed.

Lemma same_inputs_sym fs1 fs2 : same_inputs fs1 fs2 -> same_inputs fs2 fs1.
Proof.
  intros [He Ho Hm Hl Hc]. constructor; intros; try (symmetry; auto).
  apply same_notebooks_sym, Hl.
Qed.

Lemma same_inputs_trans fs1 fs2 fs3 :
  same_inputs fs1 fs2 -> same_inputs fs2 fs3 -> same_inputs fs1 fs3.
Proof.
  intros [He Ho Hm Hl Hc] [He' Ho' Hm' Hl' Hc']. constructor.
  - intros p Hp. rewrite (He p Hp). apply He', Hp.
  - intros p Hp. rewrite (Ho p Hp). apply Ho', Hp.
  - intros p Hp. rewrite (Hm p Hp). apply Hm', Hp.
  - intros d. eapply same_notebooks_trans; [apply Hl | apply Hl'].
  - intros p. rewrite (Hc p). apply Hc'.
Qed.

Lemma same_files_inputs fs1 fs2 : same_files fs1 fs2 -> same_inputs fs1 fs2.
Proof.
  intros [Hp Hl]. constructor.
  - intros p _. apply Hp.
  - intros p _. apply Hp.
  - intros p _. apply Hp.
  - intros d. specialize (Hl d). unfold same_entries in Hl. unfold same_notebooks.
    destruct (fs_listdir fs1 d), (fs_listdir fs2 d); try exact Hl.
    apply filter_perm, Hl.
  - intros p. apply Hp.
Qed.

Lemma same_files_refl fs : same_files fs fs.
Proof.
  split; [intros p; repeat split|].
  intros d. unfold same_entries. destruct (fs_listdir fs d); reflexivity.
Qed.

Lemma output_neq p q : is_output p = false -> is_output q = true -> (p =? q) = false.
Proof.
  intros Hp Hq. destruct (String.eqb_spec p q) as [->|]; [congruence | reflexivity].
Qed.

(** A notebook file is neither a generated file nor the directory of
    one. *)
Lemma notebook_not_written p path :
  is_notebook_file p = true -> is_output path = true ->
  (p =? path) = false /\ (p =? parent path) = false.
Proof.
  intros Hp Hout. apply is_output_cases in Hout. simpl in Hout.
  repeat (destruct Hout as [<-|Hout];
          [split;
           match goal with
           | |- (p =? ?q) = false =>
               destruct (String.eqb_spec p q) as [E|]; [|reflexivity];
               rewrite E in Hp; discriminate Hp
           end|]).
  destruct Hout.
Qed.

(** The path of a notebook file is the path of a notebook file. *)
Lemma notebook_path_file d f :
  is_notebook_file f = true -> is_notebook_file (PyStr.path_join d f) = true.
Proof.
  unfold is_notebook_file. intros H.
  destruct (endswith_split _ _ H) as [x ->].
  unfold PyStr.path_join.
  destruct (PyStr.startswith (x ++ ".ipynb") "/"); [apply endswith_app|].
  destruct ((d =? EmptyString) || PyStr.endswith d "/").
  - rewrite <- string_app_assoc. apply endswith_app.
  - rewrite <- !string_app_assoc. apply endswith_app.
Qed.

(** Writing a generated file changes no input. *)
Lemma same_inputs_write now path text fs :
  is_output path = true -> same_inputs fs (fs_write now path text fs).
Proof.
  intros Hout. constructor; simpl.
  - intros p Hp. rewrite (output_neq p path Hp Hout). reflexivity.
  - intros p Hp. rewrite (output_neq p path Hp Hout). reflexivity.
  - intros p Hp. destruct (notebook_not_written p path Hp Hout) as [-> ->].
    reflexivity.
  - intros d. destruct (fs_listdir fs d) as [e|l]; simpl; [reflexivity|].
    destruct (entry_name d path) as [name|] eqn:E; [|reflexivity].
    rewrite filter_add_name; [reflexivity|].
    apply (output_entry_name d path name Hout E).
  - reflexivity.
Qed.

Lemma same_inputs_write_both now1 now2 path text1 text2 fs1 fs2 :
  is_output path = true -> same_inputs fs1 fs2 ->
  same_inputs (fs_write now1 path text1 fs1) (fs_write now2 path text2 fs2).
Proof.
  intros Hout H.
  apply same_inputs_trans with fs1.
  - apply same_inputs_sym, same_inputs_write, Hout.
  - apply same_inputs_trans with fs2; [exact H|].
    apply same_inputs_write, Hout.
Qed.

Lemma printed_refl w : printed w w.
Proof.
  repeat split. exists []. rewrite app_nil_r. reflexivity.
Qed.

Lemma printed_trans w1 w2 w3 : printed w1 w2 -> printed w2 w3 -> printed w1 w3.
Proof.
  intros [Hf [Hc [o Ho]]] [Hf' [Hc' [o' Ho']]].
  repeat split; try congruence.
  exists (o ++ o')%list. rewrite Ho', Ho, app_assoc. reflexivity.
Qed.

Lemma printed_emit line w : printed w (emit line w).
Proof. repeat split. exists [line]. reflexivity. Qed.

(** ** The calls that can fail, case by case *)

Lemma os_listdir_eq d w :
  os_listdir d w
  = match fs_listdir (w_fs w) d with
    | inl msg => (Raises (Exception msg), w)
    | inr listing => (Returns listing, w)
    end.
Proof.
  unfold os_listdir, bind, gets, lift. destruct (fs_listdir (w_fs w) d); reflexivity.
Qed.

Lemma list_notebooks_eq d w :
  list_notebooks d w
  = match fs_listdir (w_fs w) d with
    | inl msg => (Raises (Exception msg), w)
    | inr listing => (Returns (filter is_notebook_file listing), w)
    end.
Proof.
  unfold list_notebooks. unfold bind at 1. rewrite os_listdir_eq.
  destruct (fs_listdir (w_fs w) d); reflexivity.
Qed.

Lemma bind_list_notebooks {B} d (k : list string -> Py world B) w :
  bind (list_notebooks d) k w
  = match fs_listdir (w_fs w) d with
    | inl msg => (Raises (Exception msg), w)
    | inr listing => k (filter is_notebook_file listing) w
    end.
Proof.
  unfold bind at 1. rewrite list_notebooks_eq.
  destruct (fs_listdir (w_fs w) d); reflexivity.
Qed.

Lemma os_path_getmtime_eq p w :
  os_path_getmtime p w
  = match fs_getmtime (w_fs w) p with
    | inl msg => (Raises (Exception msg), w)
    | inr t => (Returns t, w)
    end.
Proof.
  unfold os_path_getmtime, bind, gets, lift.
  destruct (fs_getmtime (w_fs w) p); reflexivity.
Qed.

Lemma bind_getmtime {B} p (k : Z -> Py world B) w :
  bind (os_path_getmtime p) k w
  = match fs_getmtime (w_fs w) p with
    | inl msg => (Raises (Exception msg), w)
    | inr t => k t w
    end.
Proof.
  unfold bind at 1. rewrite os_path_getmtime_eq.
  destruct (fs_getmtime (w_fs w) p); reflexivity.
Qed.

Lemma write_file_eq path text w :
  write_file path text w
  = match fs_create (w_fs w) path with
    | Some msg => (Raises (Exception msg), w)
    | None => (Returns tt, store path text w)
    end.
Proof.
  unfold write_file, bind, gets. destruct (fs_create (w_fs w) path); reflexivity.
Qed.

Lemma bind_returns {S A B} (c : Py S A) (k : A -> Py S B) s a s' :
  c s = (Returns a, s') -> bind c k s = k a s'.
Proof. intros E. unfold bind. rewrite E. reflexivity. Qed.

Lemma bind_raises {S A B} (c : Py S A) (k : A -> Py S B) s e s' :
  c s = (Raises e, s') -> bind c k s = (Raises e, s').
Proof. intros E. unfold bind. rewrite E. reflexivity. Qed.

(** ** Computations that read and print *)

Lemma observes_ret {A} (a : A) : observes (ret a).
Proof.
  intros w1 w2 _. exists (Returns a), w1, w2. auto using printed_refl.
Qed.

Lemma observes_raise {A} (e : exn) : observes (@raise world A e).
Proof.
  intros w1 w2 _. exists (Raises e), w1, w2. auto using printed_refl.
Qed.

Lemma observes_bind {A B} (c : Py world A) (k : A -> Py world B) :
  observes c -> (forall a, observes (k a)) -> observes (bind c k).
Proof.
  intros Hc Hk w1 w2 H.
  destruct (Hc w1 w2 H) as [[a|e] [w1' [w2' [E1 [E2 [P1 P2]]]]]].
  - assert (H' : same_inputs (w_fs w1') (w_fs w2')).
    { destruct P1 as [-> _], P2 as [-> _]. exact H. }
    destruct (Hk a w1' w2' H') as [r [w1'' [w2'' [F1 [F2 [Q1 Q2]]]]]].
    exists r, w1'', w2''.
    rewrite (bind_returns _ _ _ _ _ E1), (bind_returns _ _ _ _ _ E2).
    repeat split; try assumption; eapply printed_trans; eassumption.
  - exists (Raises e), w1', w2'.
    rewrite (bind_raises _ _ _ _ _ E1), (bind_raises _ _ _ _ _ E2).
    split; [reflexivity|]. split; [reflexivity|]. split; assumption.
Qed.

Lemma observes_print line : observes (print line).
Proof.
  intros w1 w2 _. exists (Returns tt), (emit line w1), (emit line w2).
  auto using printed_emit.
Qed.

Lemma observes_exists p : is_output p = false -> observes (os_path_exists p).
Proof.
  intros Hp w1 w2 H. exists (Returns (fs_exists (w_fs w1) p)), w1, w2.
  unfold os_path_exists, gets. rewrite (si_exists _ _ H p Hp).
  auto using printed_refl.
Qed.

Lemma observes_getmtime p :
  is_notebook_file p = true -> observes (os_path_getmtime p).
Proof.
  intros Hp w1 w2 H. rewrite !os_path_getmtime_eq.
  rewrite <- (si_getmtime _ _ H p Hp).
  destruct (fs_getmtime (w_fs w1) p);
    eexists; eexists; eexists; auto using printed_refl.
Qed.

(** The sorted list of the notebook files of a directory is the same in
    two states with the same inputs. *)
Lemma sorted_listing l1 l2 :
  same_notebooks (inr l1) (inr l2) ->
  PyStr.sort (filter is_notebook_file l1) = PyStr.sort (filter is_notebook_file l2).
Proof. intros H. apply sort_canonical, H. Qed.

Lemma observes_listing_sorted {B} d (k : list string -> Py world B) :
  (forall l, (forall f, In f l -> is_notebook_file f = true) -> observes (k l)) ->
  observes (bind (list_notebooks d) (fun l => k (PyStr.sort l))).
Proof.
  intros Hk w1 w2 H. rewrite !bind_list_notebooks.
  pose proof (si_listdir _ _ H d) as Hl. unfold same_notebooks in Hl.
  destruct (fs_listdir (w_fs w1) d) as [e1|l1], (fs_listdir (w_fs w2) d) as [e2|l2];
    try contradiction.
  - subst e2. exists (Raises (Exception e1)), w1, w2. auto using printed_refl.
  - rewrite <- (sorted_listing l1 l2 Hl).
    apply Hk; [|exact H].
    intros f Hf. apply In_sort in Hf. apply filter_In in Hf. tauto.
Qed.

Lemma observes_dict_item key :
  In key (dict_keys folder_info) -> observes (dict_item folder_info key).
Proof.
  intros Hk. destruct (known_key_descriptor key Hk) as [info E].
  unfold dict_item. rewrite E. apply observes_ret.
Qed.

Lemma observes_for_each {A B} (l : list A) (body : B -> A -> Py world B) :
  (forall x, In x l -> forall acc, observes (body acc x)) ->
  forall acc, observes (for_each l acc body).
Proof.
  induction l as [|x l IH]; intros Hb acc; simpl.
  - apply observes_ret.
  - apply observes_bind.
    + apply Hb. left. reflexivity.
    + intros acc'. apply IH. intros y Hy. apply Hb. right. exact Hy.
Qed.

#[local] Hint Resolve observes_ret observes_raise observes_print observes_exists
  observes_getmtime observes_dict_item
  docs_path_input notebook_path_input notebook_path_file folder_path_input : stages.

Section Generation.

Variable str_title : string -> string.
Variable nbformat_read : string -> string + notebook.
Variable strftime_date : Z -> string.
Variable strftime_minute : Z -> string.

Lemma observes_extract p :
  is_output p = false ->
  observes (extract_notebook_metadata str_title nbformat_read p).
Proof.
  intros Hp w1 w2 H.
  assert (Hb : try_block nbformat_read (w_fs w1) p (default_metadata str_title p)
               = try_block nbformat_read (w_fs w2) p (default_metadata str_title p)).
  { unfold try_block, read_notebook. rewrite (si_open _ _ H p Hp). reflexivity. }
  destruct (extract_cases str_title nbformat_read p w1) as [[R1 E1]|[e1 [R1 E1]]];
    destruct (extract_cases str_title nbformat_read p w2) as [[R2 E2]|[e2 [R2 E2]]];
    rewrite Hb in *; try congruence.
  - eexists; eexists; eexists. rewrite E1, E2.
    repeat split; eauto using printed_refl.
    all: exists []; rewrite app_nil_r; reflexivity.
  - eexists; eexists; eexists. rewrite E1, E2.
    repeat split; eauto; eexists; reflexivity.
Qed.

Lemma observes_folder_row folder_path folder_key acc f :
  is_notebook_file f = true ->
  observes (folder_row str_title nbformat_read strftime_date
              folder_path folder_key acc f).
Proof.
  intros Hf. unfold folder_row. destruct acc as [readme_lines notebooks_found].
  apply observes_bind; [apply observes_extract; auto with stages|].
  intros md. simpl.
  apply observes_bind; [auto with stages|]. intros mtime.
  apply observes_bind; [auto with stages|]. intros rendered.
  apply observes_ret.
Qed.

Lemma observes_quick_access_row folder_path readme_lines f :
  is_notebook_file f = true ->
  observes (quick_access_row str_title nbformat_read folder_path readme_lines f).
Proof.
  intros Hf. unfold quick_access_row.
  apply observes_bind; [apply observes_extract; auto with stages|].
  intros md.
  apply observes_bind; [auto with stages|]. intros rendered.
  destruct rendered; apply observes_ret.
Qed.

Lemma observes_quick_access_folder readme_lines key :
  In key (dict_keys folder_info) ->
  observes (quick_access_folder str_title nbformat_read readme_lines key).
Proof.
  intros Hk. unfold quick_access_folder.
  apply observes_bind; [auto with stages|]. intros present.
  destruct present; [|apply observes_ret].
  apply observes_bind; [auto with stages|]. intros info.
  match goal with
  | |- observes (bind (list_notebooks ?d) (fun nf => @?k nf)) =>
      apply (observes_listing_sorted d
               (fun l => lines <- for_each l
                                    (append readme_lines ("### " ++ fd_title info))
                                    (quick_access_row str_title nbformat_read d) ;;
                         ret (append lines EmptyString)))
  end.
  intros files Hfiles.
  apply observes_bind; [|intros; apply observes_ret].
  apply observes_for_each. intros f Hf acc.
  apply observes_quick_access_row. apply Hfiles, Hf.
Qed.

Lemma observes_technical_folder readme_lines key :
  In key (dict_keys folder_info) ->
  observes (technical_folder readme_lines key).
Proof.
  intros Hk. unfold technical_folder.
  apply observes_bind; [auto with stages|]. intros present.
  destruct present; [|apply observes_ret].
  apply observes_bind; [auto with stages|]. intros info.
  apply observes_ret.
Qed.

Lemma observes_main_report key :
  In key (dict_keys folder_info) -> observes (main_report "notebooks" tt key).
Proof.
  intros Hk. unfold main_report.
  apply observes_bind; [auto with stages|]. intros present.
  destruct present; auto with stages.
Qed.

(** ** Two runs in step *)

Lemma in_step_start A B :
  same_inputs (w_fs A) (w_fs B) -> in_step strftime_minute A A B B.
Proof.
  intros H. split; [apply same_inputs_refl|].
  split; [apply same_inputs_refl|]. split; [exact H|].
  intros p. right. repeat split.
Qed.

Lemma in_step_files A A' A'' B B' B'' :
  in_step strftime_minute A A' B B' ->
  w_fs A'' = w_fs A' -> w_fs B'' = w_fs B' ->
  in_step strftime_minute A A'' B B''.
Proof.
  intros H Hf1 Hf2. unfold in_step. rewrite Hf1, Hf2. exact H.
Qed.

Lemma in_step_printed A A' A'' B B' B'' :
  in_step strftime_minute A A' B B' -> printed A' A'' -> printed B' B'' ->
  in_step strftime_minute A A'' B B''.
Proof.
  intros H [Hf1 _] [Hf2 _]. apply (in_step_files _ _ _ _ _ _ H Hf1 Hf2).
Qed.

Lemma in_step_write A A' A'' B B' B'' path now1 now2 text1 text2 :
  in_step strftime_minute A A' B B' -> is_output path = true ->
  stamped strftime_minute (inr text1) (inr text2) ->
  w_fs A'' = fs_write now1 path text1 (w_fs A') ->
  w_fs B'' = fs_write now2 path text2 (w_fs B') ->
  in_step strftime_minute A A'' B B''.
Proof.
  intros [HA [HB [HAB Ht]]] Hout Hst Hf1 Hf2. unfold in_step.
  rewrite Hf1, Hf2. split; [|split; [|split]].
  - eapply same_inputs_trans; [exact HA | apply same_inputs_write, Hout].
  - eapply same_inputs_trans; [exact HB | apply same_inputs_write, Hout].
  - apply same_inputs_write_both; assumption.
  - intros p. unfold touched. simpl.
    destruct (String.eqb_spec p path) as [->|Hne].
    + left. repeat split. exact Hst.
    + simpl. exact (Ht p).
Qed.

Lemma folder_stamped body t1 t2 :
  stamped strftime_minute
    (inr (body ++ PyStr.nl ++ folder_stamp strftime_minute t1))
    (inr (body ++ PyStr.nl ++ folder_stamp strftime_minute t2)).
Proof. exists body, t1, t2. left. split; reflexivity. Qed.

Lemma main_stamped body t1 t2 :
  stamped strftime_minute
    (inr (body ++ PyStr.nl ++ main_stamp strftime_minute t1))
    (inr (body ++ PyStr.nl ++ main_stamp strftime_minute t2)).
Proof. exists body, t1, t2. right. split; reflexivity. Qed.

Lemma keeps_in_step_observes {R} (c : Py world R) :
  observes c -> keeps_in_step strftime_minute c.
Proof.
  intros Hc A A' B B' H.
  destruct (Hc A' B' (proj1 (proj2 (proj2 H)))) as [r [A'' [B'' [E1 [E2 [P1 P2]]]]]].
  exists r, A'', B''. split; [exact E1|]. split; [exact E2|].
  eapply in_step_printed; eassumption.
Qed.

Lemma keeps_in_step_bind {R T} (c : Py world R) (k : R -> Py world T) :
  keeps_in_step strftime_minute c ->
  (forall a, keeps_in_step strftime_minute (k a)) ->
  keeps_in_step strftime_minute (bind c k).
Proof.
  intros Hc Hk A A' B B' H.
  destruct (Hc A A' B B' H) as [[a|e] [A'' [B'' [E1 [E2 H']]]]].
  - destruct (Hk a A A'' B B'' H') as [r [A3 [B3 [F1 [F2 H'']]]]].
    exists r, A3, B3.
    rewrite (bind_returns _ _ _ _ _ E1), (bind_returns _ _ _ _ _ E2). auto.
  - exists (Raises e), A'', B''.
    rewrite (bind_raises _ _ _ _ _ E1), (bind_raises _ _ _ _ _ E2). auto.
Qed.

Lemma keeps_in_step_for_each {X T} (l : list X) (body : T -> X -> Py world T) :
  (forall x, In x l -> forall acc, keeps_in_step strftime_minute (body acc x)) ->
  forall acc, keeps_in_step strftime_minute (for_each l acc body).
Proof.
  induction l as [|x l IH]; intros Hb acc; simpl.
  - apply keeps_in_step_observes, observes_ret.
  - apply keeps_in_step_bind.
    + apply Hb. left. reflexivity.
    + intros acc'. apply IH. intros y Hy. apply Hb. right. exact Hy.
Qed.

(** Listing a folder: both runs fail alike, or they go on with the same
    notebook files, in whatever order. *)
Lemma keeps_in_step_listing {T} d (k : list string -> Py world T) :
  (forall l1 l2,
     Permutation (filter is_notebook_file l1) (filter is_notebook_file l2) ->
     forall A A' B B',
       in_step strftime_minute A A' B B' ->
       exists r A'' B'',
         k (filter is_notebook_file l1) A' = (r, A'') /\
         k (filter is_notebook_file l2) B' = (r, B'') /\
         in_step strftime_minute A A'' B B'') ->
  keeps_in_step strftime_minute (bind (list_notebooks d) k).
Proof.
  intros Hk A A' B B' H. rewrite !bind_list_notebooks.
  pose proof (si_listdir _ _ (proj1 (proj2 (proj2 H))) d) as Hl.
  unfold same_notebooks in Hl.
  destruct (fs_listdir (w_fs A') d) as [e1|l1], (fs_listdir (w_fs B') d) as [e2|l2];
    try contradiction.
  - subst e2. exists (Raises (Exception e1)), A', B'. auto.
  - apply (Hk l1 l2 Hl A A' B B' H).
Qed.

(** Reading the clock and writing a generated file whose text is the same
    up to the stamp: both runs fail to open the file, or both write it. *)
Lemma keeps_in_step_stamp {T} path (text : Z -> string) (k : Py world T) :
  is_output path = true ->
  (forall t1 t2, stamped strftime_minute (inr (text t1)) (inr (text t2))) ->
  keeps_in_step strftime_minute k ->
  keeps_in_step strftime_minute
    (now <- datetime_now ;; write_file path (text now) ;; k).
Proof.
  intros Hout Hst Hk A A' B B' H.
  unfold bind at 1 3, datetime_now.
  unfold bind at 1 2. rewrite !write_file_eq. cbn [tick w_fs].
  rewrite <- (si_create _ _ (proj1 (proj2 (proj2 H))) path).
  destruct (fs_create (w_fs A') path) as [msg|].
  - exists (Raises (Exception msg)), (tick A'), (tick B').
    split; [reflexivity|]. split; [reflexivity|].
    apply (in_step_files _ _ _ _ _ _ H); reflexivity.
  - apply Hk.
    eapply in_step_write; [exact H | exact Hout | apply Hst | |]; reflexivity.
Qed.

Lemma join_stamp (lines : list string) (stamp : string) :
  lines <> [] ->
  PyStr.join PyStr.nl (lines ++ [stamp])%list
  = PyStr.join PyStr.nl lines ++ PyStr.nl ++ stamp.
Proof. intros H. apply join_snoc, H. Qed.

Lemma listed_nb (l : list string) f :
  In f (PyStr.sort (filter is_notebook_file l)) -> is_notebook_file f = true.
Proof.
  intros H. apply In_sort in H. apply filter_In in H. tauto.
Qed.

(** The folder builder on a known folder of the base directory keeps two
    runs in step: both fail at the same call, or both write the README
    with the same text up to the stamp. *)
Lemma keeps_generate_folder_readme key :
  In key (dict_keys folder_info) ->
  keeps_in_step strftime_minute
    (generate_folder_readme str_title nbformat_read strftime_date strftime_minute
       (PyStr.path_join "notebooks" key) key).
Proof.
  intros Hk. destruct (known_key_descriptor key Hk) as [info Hinfo].
  unfold generate_folder_readme. rewrite Hinfo.
  apply keeps_in_step_listing. intros l1 l2 Hl. cbv zeta.
  rewrite <- (sort_canonical _ _ Hl).
  pose proof (listed_nb l1) as Hfiles.
  revert Hfiles. generalize (PyStr.sort (filter is_notebook_file l1)).
  intros files Hfiles.
  apply keeps_in_step_bind.
  - apply keeps_in_step_for_each. intros f Hf acc.
    apply keeps_in_step_observes, observes_folder_row, Hfiles, Hf.
  - intros [lines found]. cbv zeta.
    match goal with
    | |- keeps_in_step _ (bind datetime_now
                            (fun now => bind (write_file ?p (@?text now))
                                          (fun _ => ?k))) =>
        apply (keeps_in_step_stamp p text k)
    end.
    + apply (readme_path_output key Hk).
    + intros t1 t2. cbv beta. unfold extend.
      match goal with
      | |- stamped _ (inr (PyStr.join _ (?X ++ [?a1; ?a2; ?a3; ?a4; ?a5; ?a6; ?a7; _])%list)) _ =>
          assert (J : forall st,
                     PyStr.join PyStr.nl (X ++ [a1; a2; a3; a4; a5; a6; a7; st])%list
                     = PyStr.join PyStr.nl (X ++ [a1; a2; a3; a4; a5; a6; a7])%list
                       ++ PyStr.nl ++ st)
      end.
      { intros st. rewrite <- join_stamp.
        - rewrite <- app_assoc. reflexivity.
        - intros E. apply app_eq_nil in E as [_ E]. discriminate E. }
      rewrite !J. apply folder_stamped.
    + apply keeps_in_step_observes, observes_print.
Qed.

(** The main builder keeps two runs in step. *)
Lemma keeps_generate_main_readme :
  keeps_in_step strftime_minute
    (generate_main_readme str_title nbformat_read strftime_minute).
Proof.
  unfold generate_main_readme. cbv zeta.
  apply keeps_in_step_bind.
  { apply keeps_in_step_observes, observes_for_each. intros key Hk acc.
    apply observes_quick_access_folder, Hk. }
  intros lines.
  apply keeps_in_step_bind.
  { apply keeps_in_step_observes, observes_for_each. intros key Hk acc.
    apply observes_technical_folder, Hk. }
  intros lines'.
  match goal with
  | |- keeps_in_step _ (bind datetime_now
                          (fun now => bind (write_file ?p (@?text now))
                                        (fun _ => ?k))) =>
      apply (keeps_in_step_stamp p text k)
  end.
  - reflexivity.
  - intros t1 t2. cbv beta. unfold extend.
    match goal with
    | |- stamped _ (inr (PyStr.join _ (?X ++ [?a1; _])%list)) _ =>
        assert (J : forall st,
                   PyStr.join PyStr.nl (X ++ [a1; st])%list
                   = PyStr.join PyStr.nl (X ++ [a1])%list ++ PyStr.nl ++ st)
    end.
    { intros st. rewrite <- join_stamp.
      - rewrite <- app_assoc. reflexivity.
      - intros E. apply app_eq_nil in E as [_ E]. discriminate E. }
    rewrite !J. apply main_stamped.
  - apply keeps_in_step_observes, observes_print.
Qed.

Lemma keeps_main_folder n key :
  In key (dict_keys folder_info) ->
  keeps_in_step strftime_minute
    (main_folder str_title nbformat_read strftime_date strftime_minute
       "notebooks" n key).
Proof.
  intros Hk. unfold main_folder. cbv zeta.
  apply keeps_in_step_bind.
  { apply keeps_in_step_observes. auto with stages. }
  intros [|].
  - apply keeps_in_step_bind; [apply keeps_generate_folder_readme, Hk|].
    intros _. apply keeps_in_step_observes, observes_ret.
  - apply keeps_in_step_observes.
    apply observes_bind; [apply observes_print | intros _; apply observes_ret].
Qed.

(** Two runs of [main] from states with the same inputs end alike and are
    in step. *)
Lemma keeps_main :
  keeps_in_step strftime_minute
    (main str_title nbformat_read strftime_date strftime_minute).
Proof.
  unfold main. cbv zeta.
  apply keeps_in_step_bind;
    [apply keeps_in_step_observes, observes_print | intros _].
  apply keeps_in_step_bind;
    [apply keeps_in_step_observes, observes_exists; reflexivity | intros present].
  apply keeps_in_step_bind.
  { apply keeps_in_step_observes. destruct (negb present).
    - apply observes_bind; [apply observes_print | intros _; apply observes_raise].
    - apply observes_ret. }
  intros _.
  apply keeps_in_step_bind.
  { apply keeps_in_step_for_each. intros key Hk n. apply keeps_main_folder, Hk. }
  intros folders_processed.
  apply keeps_in_step_bind; [apply keeps_generate_main_readme | intros _].
  apply keeps_in_step_observes.
  repeat (apply observes_bind; [apply observes_print | intros _]).
  apply observes_for_each. intros key Hk []. apply observes_main_report, Hk.
Qed.

(** [main] when the base directory is there: the part after the check. *)
Lemma main_present w :
  fs_exists (w_fs w) "notebooks" = true ->
  main str_title nbformat_read strftime_date strftime_minute w
  = (folders_processed <-
       for_each (dict_keys folder_info) 0%Z
         (main_folder str_title nbformat_read strftime_date strftime_minute
            "notebooks") ;;
     generate_main_readme str_title nbformat_read strftime_minute ;;
     print (PyStr.nl ++ "✅ Complete! Generated README files for "
            ++ PyStr.of_int folders_processed ++ " folders.") ;;
     print "📝 Files created:" ;;
     print "   - NOTEBOOKS_README.md (main overview)" ;;
     for_each (dict_keys folder_info) tt (main_report "notebooks"))
      (emit "🚀 Generating README files for notebook directories..." w).
Proof.
  intros H. unfold main. unfold bind at 1, print at 1, modify at 1.
  unfold bind at 1, os_path_exists at 1, gets. simpl w_fs. rewrite H.
  reflexivity.
Qed.

(** [main] when the base directory is missing: two lines are printed and
    [sys.exit(1)] ends the run. *)
Lemma main_absent w :
  fs_exists (w_fs w) "notebooks" = false ->
  main str_title nbformat_read strftime_date strftime_minute w
  = (Raises (SystemExit 1),
     emit "❌ Error: notebooks directory not found!"
       (emit "🚀 Generating README files for notebook directories..." w)).
Proof.
  intros H. unfold main. unfold bind at 1, print at 1, modify at 1.
  unfold bind at 1, os_path_exists at 1, gets. simpl w_fs. rewrite H.
  reflexivity.
Qed.

Lemma readme_not_main key :
  In key (dict_keys folder_info) ->
  (readme_path key =? "NOTEBOOKS_README.md") = false.
Proof.
  simpl. intros H.
  repeat (destruct H as [<-|H]; [reflexivity|]). destruct H.
Qed.

(** C6.  For a folder identifier that is not a key of [folder_info], the
    folder builder returns without raising, writes nothing (the file
    system and the clock are as before) and prints one warning that names
    the folder. *)
Theorem folder_readme_unknown_folder folder_path folder_key w :
  ~ In folder_key (dict_keys folder_info) ->
  exists w',
    generate_folder_readme str_title nbformat_read strftime_date strftime_minute
      folder_path folder_key w = (Returns tt, w') /\
    w_fs w' = w_fs w /\
    w_clock w' = w_clock w /\
    w_stdout w'
    = append (w_stdout w) ("Warning: No info found for folder " ++ folder_key).
Proof.
  intros Habsent.
  exists (emit ("Warning: No info found for folder " ++ folder_key) w).
  unfold generate_folder_readme.
  rewrite (dict_get_absent folder_info folder_key Habsent).
  repeat split.
Qed.

(** C8.  Run the script, and run it again in the state the first run
    left, whatever the order in which the directories now list their
    entries.  The second run ends with the same status, and it leaves
    every file as the first run left it, up to the time in the generation
    line that ends a generated file; no file appears or disappears. *)
Theorem rerun_same_but_stamp w0 wB :
  let w1 := snd (run_script str_title nbformat_read strftime_date strftime_minute w0) in
  same_files (w_fs w1) (w_fs wB) ->
  let w2 := snd (run_script str_title nbformat_read strftime_date strftime_minute wB) in
  fst (run_script str_title nbformat_read strftime_date strftime_minute wB)
  = fst (run_script str_title nbformat_read strftime_date strftime_minute w0) /\
  forall p,
    fs_exists (w_fs w2) p = fs_exists (w_fs w1) p /\
    same_but_stamp strftime_minute (fs_open (w_fs w1) p) (fs_open (w_fs w2) p).
Proof.
  cbv zeta. intros Hsame.
  destruct (keeps_main w0 w0 w0 w0 (in_step_start w0 w0 (same_inputs_refl _)))
    as [r [w1 [w1' [E1 [_ [Hframe _]]]]]].
  assert (HB : same_inputs (w_fs w0) (w_fs wB)).
  { eapply same_inputs_trans; [exact Hframe|].
    apply same_files_inputs. unfold run_script in Hsame. rewrite E1 in Hsame.
    destruct r as [[]|[msg|status]]; exact Hsame. }
  destruct (keeps_main w0 w0 wB wB (in_step_start w0 wB HB))
    as [r' [v1 [w2 [F1 [F2 [_ [_ [_ Ht]]]]]]]].
  rewrite E1 in F1. inversion F1; subst r' v1.
  assert (R1 : run_script str_title nbformat_read strftime_date strftime_minute w0
               = (match r with
                  | Returns _ => 0%Z
                  | Raises (SystemExit status) => status
                  | Raises (Exception _) => 1%Z
                  end, w1)).
  { unfold run_script. rewrite E1. destruct r as [[]|[msg|status]]; reflexivity. }
  assert (R2 : run_script str_title nbformat_read strftime_date strftime_minute wB
               = (match r with
                  | Returns _ => 0%Z
                  | Raises (SystemExit status) => status
                  | Raises (Exception _) => 1%Z
                  end, w2)).
  { unfold run_script. rewrite F2. destruct r as [[]|[msg|status]]; reflexivity. }
  rewrite R1 in Hsame. rewrite R1, R2. cbn [fst snd] in *.
  split; [reflexivity|]. intros p.
  destruct Hsame as [Hsame _]. destruct (Hsame p) as [Sex [Sop _]].
  destruct (Ht p) as [[Hex1 [Hex2 Hst]]|[_ [_ [Hex Hop]]]].
  - split; [congruence | right; exact Hst].
  - split; [congruence | left; congruence].
Qed.


(** X2.  The links of a notebook file whose name has the text [.ipynb] at
    its end and nowhere before: the file under its folder, and the page
    under [docs] with the extension replaced. *)
Theorem notebook_links_of_stem stem folder :
  PyStr.contains ".ipynb" (stem ++ ".ipyn") = false ->
  generate_notebook_links (stem ++ ".ipynb") folder
  = ("notebooks/" ++ folder ++ "/" ++ stem ++ ".ipynb",
     "docs/" ++ stem ++ ".html").
Proof.
  intros H. unfold generate_notebook_links.
  rewrite (replace_only_extension stem H). reflexivity.
Qed.

End Generation.

(** * Further properties of the generator *)

(** ** Lines and their lengths *)

Lemma mem_char_app a b c :
  PyStr.mem_char (a ++ b) c = PyStr.mem_char a c || PyStr.mem_char b c.
Proof.
  unfold PyStr.mem_char. induction a as [|x a IH]; simpl; [reflexivity|].
  rewrite IH. apply orb_assoc.
Qed.

(** No piece of [s.split(sep)] contains the separator. *)
Lemma split_no_separator sep s : forall l,
  In l (PyStr.split sep s) -> PyStr.mem_char l sep = false.
Proof.
  unfold PyStr.mem_char.
  induction s as [|x s IH]; simpl; intros l H.
  - destruct H as [<-|[]]. reflexivity.
  - destruct (Ascii.eqb x sep) eqn:Hx.
    + destruct H as [<-|H]; [reflexivity | apply IH; exact H].
    + assert (Hs : Ascii.eqb sep x = false)
        by (rewrite Ascii.eqb_sym; exact Hx).
      destruct (PyStr.split sep s) as [|l0 ls].
      * destruct H as [<-|[]]. simpl. rewrite Hs. reflexivity.
      * destruct H as [<-|H].
        -- simpl. rewrite Hs. simpl. apply IH. left. reflexivity.
        -- apply IH. right. exact H.
Qed.

Lemma shorten_length line : (PyStr.len (shorten line) <= 103)%Z.
Proof.
  unfold shorten.
  destruct (Z.ltb_spec 100 (PyStr.len line)) as [H|H]; [|lia].
  rewrite len_app, (len_take 100) by lia. change (PyStr.len "...") with 3%Z. lia.
Qed.

Lemma shorten_single_line line :
  single_line line = true -> single_line (shorten line) = true.
Proof.
  unfold single_line, shorten. intros H.
  apply negb_true_iff in H.
  destruct (100 <? PyStr.len line)%Z.
  - rewrite mem_char_app, (mem_char_take _ _ _ H). reflexivity.
  - rewrite H. reflexivity.
Qed.

Lemma cell_lines_single_line src line :
  In line (cell_lines src) -> single_line line = true.
Proof.
  unfold cell_lines, single_line. intros H.
  rewrite (split_no_separator _ _ _ H). reflexivity.
Qed.

(** The description is only ever assigned a shortened line of a markdown
    cell of the notebook. *)
Lemma preserves_title_stage_lines (I : metadata -> Prop) cells :
  (forall v m, I m -> I (set_title v m)) ->
  (forall c src line m,
     In c cells -> cell_type c = Some "markdown" -> source c = Some src ->
     In line (cell_lines src) -> I m -> I (set_description (shorten line) m)) ->
  preserves I (title_stage cells).
Proof.
  intros Ht. induction cells as [|c cs IH]; intros Hd m Hm; simpl; [exact Hm|].
  assert (Hrest : I (snd (title_stage cs m))).
  { apply IH; [|exact Hm]. intros c' src line m' Hin. apply Hd. right. exact Hin. }
  unfold bind. destruct (cell_type c) as [t|] eqn:Et; simpl; [|exact Hm].
  destruct (String.eqb_spec t "markdown") as [->|]; [|exact Hrest].
  destruct (source c) as [src|] eqn:Es; simpl; [|exact Hm].
  destruct (truthy (PyStr.strip src)); [|exact Hrest].
  rewrite title_from_cell_eq. simpl.
  assert (H1 : I match find is_heading (cell_lines src) with
                 | Some line => set_title (PyStr.strip (PyStr.strip_chars "#" line)) m
                 | None => m
                 end)
    by (destruct (find _ _); auto).
  destruct (filter is_candidate (cell_lines src)) as [|line rest] eqn:Hf;
    [exact H1|].
  apply (Hd c src line); try assumption; [left; reflexivity|].
  assert (Hin : In line (filter is_candidate (cell_lines src)))
    by (rewrite Hf; left; reflexivity).
  apply filter_In in Hin. apply Hin.
Qed.

Lemma preserves_count_stage (I : metadata -> Prop) cells :
  (forall v m, I m -> I (set_cell_count v m)) ->
  (forall v m, I m -> I (set_code_cells v m)) ->
  (forall v m, I m -> I (set_markdown_cells v m)) ->
  preserves I (count_stage cells).
Proof.
  intros H1 H2 H3.
  assert (Hc : forall ty, preserves I (@count_cells metadata ty cells))
    by (intros ty m Hm; rewrite count_cells_state; exact Hm).
  unfold count_stage.
  repeat (apply preserves_bind; [auto using preserves_modify | intros ?]).
  auto using preserves_modify.
Qed.

Section MoreExtraction.

Variable str_title : string -> string.
Variable nbformat_read : string -> string + notebook.

(** Whatever the extractor's [try] block does, the description stays
    empty or becomes a shortened line of a markdown cell. *)
Lemma try_block_description fs path :
  let md := snd (try_block nbformat_read fs path (default_metadata str_title path)) in
  description md = EmptyString \/
  exists cells c src line,
    read_notebook nbformat_read fs path = inr cells /\
    In c cells /\ cell_type c = Some "markdown" /\ source c = Some src /\
    In line (cell_lines src) /\ description md = shorten line.
Proof.
  cbv zeta.
  destruct (read_notebook nbformat_read fs path) as [e|cells] eqn:Hread.
  - rewrite (block_unreadable nbformat_read _ _ _ _ Hread). left. reflexivity.
  - rewrite (block_readable nbformat_read _ _ _ _ Hread).
    set (I := fun m : metadata =>
                description m = EmptyString \/
                exists c src line,
                  In c cells /\ cell_type c = Some "markdown" /\
                  source c = Some src /\
                  In line (cell_lines src) /\ description m = shorten line).
    assert (H : preserves I (count_stage cells ;; title_stage cells ;;
                             plotly_stage cells)).
    { apply preserves_bind;
        [apply preserves_count_stage; intros v m Hm; exact Hm | intros _].
      apply preserves_bind.
      - apply preserves_title_stage_lines.
        + intros v m Hm. exact Hm.
        + intros c src line m Hin Hc Hs Hl _. right.
          exists c, src, line. repeat split; assumption.
      - intros _. apply preserves_plotly_stage. intros v m Hm. exact Hm. }
    destruct (H (default_metadata str_title path) (or_introl eq_refl))
      as [Hd|[c [src [line Hd]]]]; [left; exact Hd|].
    right. exists cells, c, src, line. split; [reflexivity | exact Hd].
Qed.

Lemma emits_nil w : emits [] w = w.
Proof. destruct w. unfold emits. simpl. rewrite app_nil_r. reflexivity. Qed.

Lemma emits_emits a b w : emits b (emits a w) = emits (a ++ b)%list w.
Proof. unfold emits. simpl. rewrite app_assoc. reflexivity. Qed.

(** The extractor as a function of the file system. *)
Lemma extract_eq path w :
  extract_notebook_metadata str_title nbformat_read path w
  = (Returns (metadata_at str_title nbformat_read (w_fs w) path),
     emits (warnings_at str_title nbformat_read (w_fs w) path) w).
Proof.
  unfold metadata_at, warnings_at.
  destruct (extract_cases str_title nbformat_read path w)
    as [[Hr He]|[e [Hr He]]];
    rewrite He, Hr.
  - rewrite emits_nil. reflexivity.
  - reflexivity.
Qed.

Lemma try_block_same_file fs1 fs2 path :
  fs_open fs1 path = fs_open fs2 path ->
  try_block nbformat_read fs1 path = try_block nbformat_read fs2 path.
Proof.
  intros H. unfold try_block, read_notebook. rewrite H. reflexivity.
Qed.

(** X4.  The extractor always returns, and the description it returns is
    empty or a line of a markdown cell of the notebook (of its text
    without surrounding whitespace): the line itself when it has at most
    100 characters, and otherwise its first 100 characters and three
    dots.  So the description is a single line (it has no line feed) of
    at most 103 characters. *)
Theorem description_short_single_line path w :
  exists md w',
    extract_notebook_metadata str_title nbformat_read path w = (Returns md, w') /\
    (description md = EmptyString \/
     exists cells c src line,
       read_notebook nbformat_read (w_fs w) path = inr cells /\
       In c cells /\ cell_type c = Some "markdown" /\ source c = Some src /\
       In line (cell_lines src) /\
       description md
       = if (100 <? PyStr.len line)%Z then PyStr.take 100 line ++ "..." else line) /\
    (PyStr.len (description md) <= 103)%Z /\
    PyStr.mem_char (description md) (ascii_of_nat 10) = false.
Proof.
  exists (metadata_at str_title nbformat_read (w_fs w) path),
         (emits (warnings_at str_title nbformat_read (w_fs w) path) w).
  split; [apply extract_eq|].
  pose proof (try_block_description (w_fs w) path) as H. cbv zeta in H.
  fold (metadata_at str_title nbformat_read (w_fs w) path) in H.
  split; [exact H|].
  destruct H as [->|[cells [c [src [line [_ [_ [_ [_ [Hl ->]]]]]]]]]].
  - split; [unfold PyStr.len; simpl; lia | reflexivity].
  - split; [apply shorten_length|].
    apply negb_true_iff, shorten_single_line, (cell_lines_single_line src), Hl.
Qed.

(** X5.  The extractor reads one file and writes none.  From two states
    that hold the same content at [path] it returns the same record and
    prints the same lines, at most one; the file system and the clock of
    each state are left as they were. *)
Theorem extract_reads_one_file path w1 w2 :
  fs_open (w_fs w1) path = fs_open (w_fs w2) path ->
  exists md warn,
    extract_notebook_metadata str_title nbformat_read path w1
    = (Returns md, emits warn w1) /\
    extract_notebook_metadata str_title nbformat_read path w2
    = (Returns md, emits warn w2) /\
    (List.length warn <= 1)%nat.
Proof.
  intros H.
  exists (metadata_at str_title nbformat_read (w_fs w1) path),
         (warnings_at str_title nbformat_read (w_fs w1) path).
  split; [apply extract_eq|]. split.
  - rewrite extract_eq. unfold metadata_at, warnings_at.
    rewrite (try_block_same_file _ _ _ H). reflexivity.
  - unfold warnings_at.
    destruct (fst (try_block nbformat_read (w_fs w1) path
                     (default_metadata str_title path)))
      as [[]|[e|n]]; simpl; lia.
Qed.

End MoreExtraction.

Lemma fold_objectives (os : list string) : forall acc : list string,
  fold_left (fun lines objective => append lines ("- " ++ objective)) os acc
  = extend acc (map (String.append "- ") os).
Proof.
  induction os as [|o os IH]; intros acc; simpl.
  - unfold extend. rewrite app_nil_r. reflexivity.
  - rewrite IH. unfold extend, append. rewrite <- app_assoc. reflexivity.
Qed.

Section MoreGeneration.

Variable str_title : string -> string.
Variable nbformat_read : string -> string + notebook.
Variable strftime_date : Z -> string.
Variable strftime_minute : Z -> string.

(** ** The folder builder when its calls succeed *)

(** One turn of the loop of the folder builder adds the row of the file
    and prints what the extractor prints. *)
Lemma folder_row_eq folder_path folder_key lines n f w t :
  fs_getmtime (w_fs w) (PyStr.path_join folder_path f) = inr t ->
  folder_row str_title nbformat_read strftime_date folder_path folder_key
    (lines, n) f w
  = (Returns
       (append lines
          (table_row str_title nbformat_read strftime_date (w_fs w)
             folder_path folder_key f),
        (n + 1)%Z),
     emits (warnings_at str_title nbformat_read (w_fs w)
              (PyStr.path_join folder_path f)) w).
Proof.
  intros Ht. unfold folder_row.
  rewrite (bind_returns _ _ _ _ _ (extract_eq str_title nbformat_read _ w)).
  unfold generate_notebook_links. cbv beta iota zeta.
  rewrite bind_getmtime. cbn [emits w_fs]. rewrite Ht.
  unfold table_row, mtime_of. rewrite Ht. reflexivity.
Qed.

(** A turn stops the loop when the time of the file cannot be read. *)
Lemma folder_row_fails folder_path folder_key lines n f w msg :
  fs_getmtime (w_fs w) (PyStr.path_join folder_path f) = inl msg ->
  folder_row str_title nbformat_read strftime_date folder_path folder_key
    (lines, n) f w
  = (Raises (Exception msg),
     emits (warnings_at str_title nbformat_read (w_fs w)
              (PyStr.path_join folder_path f)) w).
Proof.
  intros Ht. unfold folder_row.
  rewrite (bind_returns _ _ _ _ _ (extract_eq str_title nbformat_read _ w)).
  unfold generate_notebook_links. cbv beta iota zeta.
  rewrite bind_getmtime. cbn [emits w_fs]. rewrite Ht. reflexivity.
Qed.

Lemma folder_rows_eq folder_path folder_key files : forall lines n w,
  (forall f, In f files ->
     exists t, fs_getmtime (w_fs w) (PyStr.path_join folder_path f) = inr t) ->
  for_each files (lines, n)
    (folder_row str_title nbformat_read strftime_date folder_path folder_key) w
  = (Returns
       (extend lines
          (map (table_row str_title nbformat_read strftime_date (w_fs w)
                  folder_path folder_key)
             files),
        (n + Z.of_nat (List.length files))%Z),
     emits (folder_warnings str_title nbformat_read (w_fs w) folder_path files) w).
Proof.
  induction files as [|f files IH]; intros lines n w Hm.
  - unfold extend, folder_warnings. simpl. rewrite emits_nil, app_nil_r, Z.add_0_r.
    reflexivity.
  - cbn [for_each].
    destruct (Hm f (or_introl eq_refl)) as [t Ht].
    rewrite (bind_returns _ _ _ _ _
               (folder_row_eq folder_path folder_key lines n f w t Ht)).
    rewrite IH by (intros f' Hf'; apply Hm; right; exact Hf').
    rewrite emits_emits. unfold extend, append, folder_warnings.
    cbn [map flat_map List.length emits w_fs]. rewrite <- app_assoc.
    replace (n + 1 + Z.of_nat (List.length files))%Z
      with (n + Z.of_nat (S (List.length files)))%Z by lia.
    reflexivity.
Qed.

Lemma folder_files_listing fs folder_path listing :
  fs_listdir fs folder_path = inr listing ->
  folder_files fs folder_path = PyStr.sort (filter is_notebook_file listing).
Proof. intros H. unfold folder_files, listing_of. rewrite H. reflexivity. Qed.

(** The folder builder on a known folder, as a function of the file
    system and the clock, when its unguarded calls succeed. *)
Lemma generate_folder_readme_eq folder_path folder_key info w :
  dict_get folder_info folder_key = Some info ->
  folder_ok (w_fs w) folder_path ->
  generate_folder_readme str_title nbformat_read strftime_date strftime_minute
    folder_path folder_key w
  = (Returns tt,
     written w
       (append (folder_warnings str_title nbformat_read (w_fs w) folder_path
                  (folder_files (w_fs w) folder_path))
          ("✓ Generated README for " ++ folder_key ++ " ("
           ++ PyStr.of_int
                (Z.of_nat (List.length (folder_files (w_fs w) folder_path)))
           ++ " notebooks)"))
       (PyStr.path_join folder_path "README.md")
       (PyStr.join PyStr.nl
          (folder_readme_lines strftime_minute info
             (map (table_row str_title nbformat_read strftime_date (w_fs w)
                     folder_path folder_key)
                (folder_files (w_fs w) folder_path))
             (w_clock w 0)))).
Proof.
  intros Hinfo [[listing Hl] [Hm Hc]].
  unfold generate_folder_readme. rewrite Hinfo.
  rewrite bind_list_notebooks, Hl. cbv zeta.
  rewrite <- (folder_files_listing _ _ _ Hl).
  set (files := folder_files (w_fs w) folder_path) in *.
  rewrite (bind_returns _ _ _ _ _
             (folder_rows_eq folder_path folder_key files _ _ w Hm)).
  rewrite fold_objectives.
  unfold bind at 1, datetime_now. unfold bind at 1. rewrite write_file_eq.
  cbn [tick emits w_fs]. rewrite Hc.
  assert (Hbody :
    (if (0 + Z.of_nat (List.length files) =? 0)%Z
     then append
            (extend (folder_header info)
               (map (table_row str_title nbformat_read strftime_date (w_fs w)
                       folder_path folder_key) files))
            "| *No notebooks yet* | | | |"
     else extend (folder_header info)
            (map (table_row str_title nbformat_read strftime_date (w_fs w)
                    folder_path folder_key) files))
    = extend (folder_header info)
        (table_body
           (map (table_row str_title nbformat_read strftime_date (w_fs w)
                   folder_path folder_key) files))).
  { destruct files as [|f rest]; [reflexivity|].
    replace (0 + Z.of_nat (List.length (f :: rest)) =? 0)%Z with false;
      [reflexivity|].
    symmetry. apply Z.eqb_neq. simpl List.length. lia. }
  unfold folder_header in Hbody at 1 2. rewrite Hbody.
  unfold print, modify, emit, store, tick, written, emits, append,
    folder_readme_lines, folder_footer, folder_stamp.
  cbn [w_fs w_stdout w_clock]. rewrite <- app_assoc. reflexivity.
Qed.

(** The folder builder fails where the first of its unguarded calls
    fails: here, when the folder cannot be listed. *)
Lemma generate_folder_readme_unlistable folder_path folder_key info w msg :
  dict_get folder_info folder_key = Some info ->
  fs_listdir (w_fs w) folder_path = inl msg ->
  generate_folder_readme str_title nbformat_read strftime_date strftime_minute
    folder_path folder_key w
  = (Raises (Exception msg), w).
Proof.
  intros Hinfo Hl. unfold generate_folder_readme. rewrite Hinfo.
  rewrite bind_list_notebooks, Hl. reflexivity.
Qed.

(** ** The main builder when its calls succeed *)

(** Every entry of [folder_info] is found under its key. *)
Lemma folder_info_lookup entry :
  In entry folder_info -> dict_get folder_info (fst entry) = Some (snd entry).
Proof.
  intros H. simpl in H.
  repeat (destruct H as [<-|H]; [reflexivity|]). destruct H.
Qed.

Lemma quick_access_row_eq folder_path lines f w :
  quick_access_row str_title nbformat_read folder_path lines f w
  = (Returns (extend lines
                (quick_access_links str_title nbformat_read (w_fs w)
                   folder_path [f])),
     emits (warnings_at str_title nbformat_read (w_fs w)
              (PyStr.path_join folder_path f)) w).
Proof.
  unfold quick_access_row.
  rewrite (bind_returns _ _ _ _ _ (extract_eq str_title nbformat_read _ w)).
  unfold bind, os_path_exists, gets, ret, quick_access_links, extend, append.
  cbn [flat_map emits w_fs].
  destruct (fs_exists (w_fs w) _); rewrite app_nil_r; reflexivity.
Qed.

Lemma quick_access_rows_eq folder_path files : forall lines w,
  for_each files lines (quick_access_row str_title nbformat_read folder_path) w
  = (Returns (extend lines
                (quick_access_links str_title nbformat_read (w_fs w)
                   folder_path files)),
     emits (folder_warnings str_title nbformat_read (w_fs w) folder_path files) w).
Proof.
  induction files as [|f files IH]; intros lines w.
  - unfold extend, folder_warnings, quick_access_links. simpl.
    rewrite emits_nil, app_nil_r. reflexivity.
  - cbn [for_each].
    rewrite (bind_returns _ _ _ _ _ (quick_access_row_eq folder_path lines f w)).
    rewrite IH, emits_emits. unfold extend, folder_warnings, quick_access_links.
    cbn [flat_map emits w_fs]. rewrite app_nil_r, <- app_assoc. reflexivity.
Qed.

Lemma quick_access_folder_eq entry lines w :
  In entry folder_info ->
  (fs_exists (w_fs w) (PyStr.path_join "notebooks" (fst entry)) = true ->
   exists listing,
     fs_listdir (w_fs w) (PyStr.path_join "notebooks" (fst entry)) = inr listing) ->
  quick_access_folder str_title nbformat_read lines (fst entry) w
  = (Returns (extend lines
                (quick_access_section str_title nbformat_read (w_fs w) entry)),
     emits (section_warnings str_title nbformat_read (w_fs w) entry) w).
Proof.
  intros Hin Hlist.
  unfold quick_access_folder, quick_access_section, section_warnings.
  unfold bind at 1, os_path_exists, gets.
  destruct (fs_exists (w_fs w) (PyStr.path_join "notebooks" (fst entry))).
  - destruct (Hlist eq_refl) as [listing Hl].
    unfold bind at 1, dict_item. rewrite (folder_info_lookup entry Hin).
    unfold ret at 1.
    rewrite bind_list_notebooks, Hl.
    rewrite <- (folder_files_listing _ _ _ Hl).
    rewrite (bind_returns _ _ _ _ _ (quick_access_rows_eq _ _ _ w)).
    unfold ret, extend, append. rewrite <- !app_assoc. reflexivity.
  - unfold ret, extend. rewrite emits_nil, app_nil_r. reflexivity.
Qed.

(** The main builder fails when a known folder that exists cannot be
    listed. *)
Lemma quick_access_folder_unlistable entry lines w msg :
  In entry folder_info ->
  fs_exists (w_fs w) (PyStr.path_join "notebooks" (fst entry)) = true ->
  fs_listdir (w_fs w) (PyStr.path_join "notebooks" (fst entry)) = inl msg ->
  quick_access_folder str_title nbformat_read lines (fst entry) w
  = (Raises (Exception msg), w).
Proof.
  intros Hin He Hl. unfold quick_access_folder.
  unfold bind at 1, os_path_exists, gets. rewrite He.
  unfold bind at 1, dict_item. rewrite (folder_info_lookup entry Hin).
  unfold ret at 1. rewrite bind_list_notebooks, Hl. reflexivity.
Qed.

Lemma technical_folder_eq entry lines w :
  In entry folder_info ->
  technical_folder lines (fst entry) w
  = (Returns (extend lines (technical_section (w_fs w) entry)), w).
Proof.
  intros Hin. unfold technical_folder, technical_section.
  unfold bind at 1, os_path_exists, gets.
  destruct (fs_exists (w_fs w) (PyStr.path_join "notebooks" (fst entry))).
  - unfold bind at 1, dict_item. rewrite (folder_info_lookup entry Hin).
    unfold ret, extend, append. rewrite <- !app_assoc. reflexivity.
  - unfold ret, extend. rewrite app_nil_r. reflexivity.
Qed.

Lemma quick_access_loop_eq entries :
  incl entries folder_info ->
  forall lines w,
  (forall entry, In entry entries ->
     fs_exists (w_fs w) (PyStr.path_join "notebooks" (fst entry)) = true ->
     exists listing,
       fs_listdir (w_fs w) (PyStr.path_join "notebooks" (fst entry)) = inr listing) ->
  for_each (dict_keys entries) lines (quick_access_folder str_title nbformat_read) w
  = (Returns (extend lines
                (flat_map (quick_access_section str_title nbformat_read (w_fs w))
                   entries)),
     emits (flat_map (section_warnings str_title nbformat_read (w_fs w)) entries) w).
Proof.
  induction entries as [|entry entries IH]; intros Hin lines w Hlist.
  - unfold extend. simpl. rewrite emits_nil, app_nil_r. reflexivity.
  - cbn [dict_keys map for_each].
    rewrite (bind_returns _ _ _ _ _
               (quick_access_folder_eq entry lines w
                  (Hin entry (or_introl eq_refl))
                  (Hlist entry (or_introl eq_refl)))).
    unfold dict_keys in IH. rewrite IH.
    + rewrite emits_emits. unfold extend. cbn [flat_map emits w_fs].
      rewrite <- app_assoc. reflexivity.
    + intros e He. apply Hin. right. exact He.
    + intros e He. cbn [emits w_fs]. apply Hlist. right. exact He.
Qed.

Lemma technical_loop_eq entries :
  incl entries folder_info ->
  forall lines w,
  for_each (dict_keys entries) lines technical_folder w
  = (Returns (extend lines (flat_map (technical_section (w_fs w)) entries)), w).
Proof.
  induction entries as [|entry entries IH]; intros Hin lines w.
  - unfold extend. simpl. rewrite app_nil_r. reflexivity.
  - cbn [dict_keys map for_each].
    rewrite (bind_returns _ _ _ _ _
               (technical_folder_eq entry lines w (Hin entry (or_introl eq_refl)))).
    unfold dict_keys in IH. rewrite IH by (intros e He; apply Hin; right; exact He).
    unfold extend. cbn [flat_map]. rewrite <- app_assoc. reflexivity.
Qed.

(** The main builder as a function of the file system and the clock, when
    its unguarded calls succeed. *)
Lemma generate_main_readme_eq w :
  main_ok (w_fs w) ->
  generate_main_readme str_title nbformat_read strftime_minute w
  = (Returns tt,
     written w
       (append (flat_map (section_warnings str_title nbformat_read (w_fs w))
                  folder_info)
          "✓ Generated main notebooks README")
       "NOTEBOOKS_README.md"
       (PyStr.join PyStr.nl
          (main_readme_lines str_title nbformat_read strftime_minute
             (w_fs w) (w_clock w 0)))).
Proof.
  intros [Hlist Hc]. unfold generate_main_readme.
  rewrite (bind_returns _ _ _ _ _
             (quick_access_loop_eq folder_info (incl_refl _) _ w
                (fun entry Hin => Hlist (fst entry) (in_map fst _ _ Hin)))).
  rewrite (bind_returns _ _ _ _ _
             (technical_loop_eq folder_info (incl_refl _) _ _)).
  unfold bind at 1, datetime_now. unfold bind at 1. rewrite write_file_eq.
  cbn [tick emits w_fs]. rewrite Hc.
  unfold print, modify, emit, store, tick, written, emits, append,
    main_readme_lines, main_header, technical_header, main_stamp.
  cbn [w_fs w_stdout w_clock]. rewrite <- app_assoc. reflexivity.
Qed.

(** ** The orchestrator *)

Lemma main_report_eq key w :
  main_report "notebooks" tt key w
  = (Returns tt,
     emits (if fs_exists (w_fs w) (PyStr.path_join "notebooks" key)
            then [report_line key] else []) w).
Proof.
  unfold main_report, bind, os_path_exists, gets.
  destruct (fs_exists (w_fs w) (PyStr.path_join "notebooks" key)).
  - reflexivity.
  - rewrite emits_nil. reflexivity.
Qed.

Lemma main_report_loop_eq keys : forall w,
  for_each keys tt (main_report "notebooks") w
  = (Returns tt,
     emits (map report_line
              (filter (fun key => fs_exists (w_fs w) (PyStr.path_join "notebooks" key))
                 keys)) w).
Proof.
  induction keys as [|key keys IH]; intros w.
  - simpl. rewrite emits_nil. reflexivity.
  - cbn [for_each filter].
    rewrite (bind_returns _ _ _ _ _ (main_report_eq key w)).
    rewrite IH, emits_emits. cbn [emits w_fs].
    destruct (fs_exists (w_fs w) (PyStr.path_join "notebooks" key)); reflexivity.
Qed.

(** ** File names *)

Lemma string_app_nil_r (s : string) : s ++ EmptyString = s.
Proof. induction s as [|c s IH]; simpl; [reflexivity | rewrite IH; reflexivity]. Qed.

(** [name.replace('.ipynb', new)] replaces the extension, and nothing
    else, in a name that has the text [.ipynb] nowhere before its end. *)
Lemma replace_extension_with new stem :
  PyStr.contains ".ipynb" (stem ++ ".ipyn") = false ->
  PyStr.replace ".ipynb" new (stem ++ ".ipynb") = stem ++ new.
Proof.
  unfold PyStr.replace. induction stem as [|c stem IH]; intros H.
  - cbn. rewrite string_app_nil_r. reflexivity.
  - simpl in H. apply orb_false_elim in H as [Hp Hc].
    change ((String c stem) ++ ".ipynb") with (String c (stem ++ ".ipynb")).
    cbn [PyStr.replace_from].
    assert (E : prefix ".ipynb" (String c (stem ++ ".ipynb")) = false).
    { replace (String c (stem ++ ".ipynb"))
        with ((String c (stem ++ ".ipyn")) ++ "b").
      - rewrite prefix_app_short; [exact Hp|].
        simpl. rewrite string_length_app. simpl. lia.
      - simpl. rewrite string_app_assoc. reflexivity. }
    rewrite E. simpl. f_equal. apply IH, Hc.
Qed.

Lemma split_nonempty sep s : PyStr.split sep s <> [].
Proof.
  destruct s as [|c s]; simpl; [discriminate|].
  destruct (Ascii.eqb c sep); [discriminate|].
  destruct (PyStr.split sep s); discriminate.
Qed.

Lemma last_cons_nonempty {A} (x : A) l d : l <> [] -> last (x :: l) d = last l d.
Proof. destruct l; [congruence | reflexivity]. Qed.

(** A string without the separator is the only piece of its split. *)
Lemma split_without_separator sep s :
  PyStr.mem_char s sep = false -> PyStr.split sep s = [s].
Proof.
  unfold PyStr.mem_char. induction s as [|c s IH]; simpl; intros H; [reflexivity|].
  apply orb_false_iff in H as [Hc Hs]. rewrite Ascii.eqb_sym in Hc.
  rewrite Hc, (IH Hs). reflexivity.
Qed.

(** What follows the last separator of [a ++ sep ++ b] is what follows
    the last separator of [b]. *)
Lemma split_app_separator sep b : forall a,
  exists l ls, PyStr.split sep (a ++ String sep b) = l :: ls /\ ls <> [] /\
               last ls EmptyString = last (PyStr.split sep b) EmptyString.
Proof.
  induction a as [|c a IH]; simpl.
  - rewrite Ascii.eqb_refl. exists EmptyString, (PyStr.split sep b).
    split; [reflexivity|]. split; [apply split_nonempty | reflexivity].
  - destruct IH as [l [ls [E [Hne Hl]]]]. rewrite E.
    destruct (Ascii.eqb c sep).
    + exists EmptyString, (l :: ls). split; [reflexivity|].
      split; [discriminate|]. rewrite last_cons_nonempty by exact Hne. exact Hl.
    + exists (String c l), ls. auto.
Qed.

Lemma basename_app_slash a b :
  PyStr.basename (a ++ "/" ++ b) = PyStr.basename b.
Proof.
  unfold PyStr.basename.
  destruct (split_app_separator "/"%char b a) as [l [ls [E [Hne Hl]]]].
  change (a ++ "/" ++ b) with (a ++ String "/"%char b).
  rewrite E, last_cons_nonempty by exact Hne. exact Hl.
Qed.

(** The base name of a file in a folder is the name of the file. *)
Lemma basename_path_join d f :
  PyStr.contains "/" f = false ->
  PyStr.basename (PyStr.path_join d f) = f.
Proof.
  intros H.
  assert (Hm : PyStr.mem_char f "/"%char = false).
  { clear -H. unfold PyStr.mem_char.
    induction f as [|c f IH]; [reflexivity|].
    cbn [PyStr.contains prefix] in H.
    cbn [list_ascii_of_string existsb].
    apply orb_false_iff in H as [Hc Hf]. rewrite (IH Hf), orb_false_r.
    destruct (ascii_dec "/" c) as [E|E]; [destruct f; discriminate Hc|].
    apply Ascii.eqb_neq. exact E. }
  assert (Hb : PyStr.basename f = f).
  { unfold PyStr.basename. rewrite (split_without_separator _ _ Hm). reflexivity. }
  unfold PyStr.path_join.
  destruct (PyStr.startswith f "/"); [exact Hb|].
  destruct (String.eqb_spec d EmptyString) as [->|Hd]; [exact Hb|]. simpl orb.
  destruct (PyStr.endswith d "/") eqn:He.
  - apply endswith_split in He as [x ->].
    rewrite string_app_assoc, basename_app_slash. exact Hb.
  - rewrite basename_app_slash. exact Hb.
Qed.

(** ** What the builders read *)

Lemma try_block_inputs fs1 fs2 p :
  same_inputs fs1 fs2 -> is_output p = false ->
  try_block nbformat_read fs1 p = try_block nbformat_read fs2 p.
Proof.
  intros H Hp. apply try_block_same_file. apply (si_open _ _ H p Hp).
Qed.

Lemma table_row_inputs fs1 fs2 d key f :
  same_inputs fs1 fs2 -> is_notebook_file f = true ->
  table_row str_title nbformat_read strftime_date fs1 d key f
  = table_row str_title nbformat_read strftime_date fs2 d key f.
Proof.
  intros H Hf. unfold table_row, metadata_at, mtime_of.
  rewrite (try_block_inputs fs1 fs2 _ H (notebook_path_input d f Hf)).
  rewrite (si_getmtime _ _ H _ (notebook_path_file d f Hf)).
  rewrite (si_exists _ _ H _ (docs_path_input _)).
  reflexivity.
Qed.

Lemma folder_files_inputs fs1 fs2 d :
  same_inputs fs1 fs2 -> folder_files fs1 d = folder_files fs2 d.
Proof.
  intros H. unfold folder_files, listing_of.
  pose proof (si_listdir _ _ H d) as Hl. unfold same_notebooks in Hl.
  destruct (fs_listdir fs1 d), (fs_listdir fs2 d); try contradiction.
  - reflexivity.
  - apply sort_canonical, Hl.
Qed.

Lemma folder_files_notebooks fs d f :
  In f (folder_files fs d) -> is_notebook_file f = true.
Proof.
  unfold folder_files. intros H. apply In_sort in H. apply filter_In in H. tauto.
Qed.

Lemma folder_rows_inputs fs1 fs2 d key :
  same_inputs fs1 fs2 ->
  map (table_row str_title nbformat_read strftime_date fs1 d key) (folder_files fs1 d)
  = map (table_row str_title nbformat_read strftime_date fs2 d key) (folder_files fs2 d).
Proof.
  intros H. rewrite <- (folder_files_inputs fs1 fs2 d H).
  apply map_ext_in. intros f Hf.
  apply table_row_inputs; [exact H | apply (folder_files_notebooks fs1 d f Hf)].
Qed.

Lemma flat_map_ext_in {A B} (f g : A -> list B) (l : list A) :
  (forall a, In a l -> f a = g a) -> flat_map f l = flat_map g l.
Proof.
  intros H. rewrite !flat_map_concat_map. f_equal. apply map_ext_in, H.
Qed.

Lemma quick_access_links_inputs fs1 fs2 d :
  same_inputs fs1 fs2 ->
  quick_access_links str_title nbformat_read fs1 d (folder_files fs1 d)
  = quick_access_links str_title nbformat_read fs2 d (folder_files fs2 d).
Proof.
  intros H. rewrite <- (folder_files_inputs fs1 fs2 d H).
  unfold quick_access_links. apply flat_map_ext_in. intros f Hf.
  apply folder_files_notebooks in Hf. unfold metadata_at.
  rewrite (try_block_inputs fs1 fs2 _ H (notebook_path_input d f Hf)).
  rewrite (si_exists _ _ H _ (docs_path_input _)).
  reflexivity.
Qed.

Lemma main_readme_lines_inputs fs1 fs2 now :
  same_inputs fs1 fs2 ->
  main_readme_lines str_title nbformat_read strftime_minute fs1 now
  = main_readme_lines str_title nbformat_read strftime_minute fs2 now.
Proof.
  intros H. unfold main_readme_lines.
  assert (Hq : flat_map (quick_access_section str_title nbformat_read fs1) folder_info
               = flat_map (quick_access_section str_title nbformat_read fs2) folder_info).
  { apply flat_map_ext_in. intros entry Hin. unfold quick_access_section.
    rewrite (si_exists _ _ H _ (folder_path_input (fst entry) (in_map fst _ _ Hin))).
    rewrite (quick_access_links_inputs fs1 fs2 _ H). reflexivity. }
  assert (Ht : flat_map (technical_section fs1) folder_info
               = flat_map (technical_section fs2) folder_info).
  { apply flat_map_ext_in. intros entry Hin. unfold technical_section.
    rewrite (si_exists _ _ H _ (folder_path_input (fst entry) (in_map fst _ _ Hin))).
    reflexivity. }
  rewrite Hq, Ht. reflexivity.
Qed.

(** The unguarded calls succeed in a state when they do in a state with
    the same inputs. *)
Lemma folder_ok_inputs fs1 fs2 d :
  same_inputs fs1 fs2 -> folder_ok fs1 d -> folder_ok fs2 d.
Proof.
  intros H [[listing Hl] [Hm Hc]]. split; [|split].
  - pose proof (si_listdir _ _ H d) as Hs. unfold same_notebooks in Hs.
    rewrite Hl in Hs. destruct (fs_listdir fs2 d) as [e|l2]; [contradiction|].
    exists l2. reflexivity.
  - intros f Hf. rewrite <- (folder_files_inputs fs1 fs2 d H) in Hf.
    destruct (Hm f Hf) as [t Ht]. exists t.
    rewrite <- (si_getmtime _ _ H _
                  (notebook_path_file d f (folder_files_notebooks fs1 d f Hf))).
    exact Ht.
  - rewrite <- (si_create _ _ H). exact Hc.
Qed.

Lemma io_ok_inputs fs1 fs2 :
  same_inputs fs1 fs2 -> io_ok fs1 -> io_ok fs2.
Proof.
  intros H [Hf Hc]. split.
  - intros key Hk He. apply (folder_ok_inputs fs1 fs2 _ H). apply Hf; [exact Hk|].
    rewrite (si_exists _ _ H _ (folder_path_input key Hk)). exact He.
  - rewrite <- (si_create _ _ H). exact Hc.
Qed.

Lemma io_ok_main fs : io_ok fs -> main_ok fs.
Proof.
  intros [Hf Hc]. split; [|exact Hc].
  intros key Hk He. apply (Hf key Hk He).
Qed.

Lemma dict_get_In {V} (d : list (string * V)) key v :
  dict_get d key = Some v -> In key (dict_keys d).
Proof.
  induction d as [|[k x] d IH]; simpl; [discriminate|].
  destruct (String.eqb_spec k key) as [E|E]; [left; exact E | right; auto].
Qed.

Lemma folder_keys_distinct : NoDup (dict_keys folder_info).
Proof.
  simpl. repeat constructor; simpl; intros H;
    repeat (destruct H as [H|H]; [discriminate H|]); exact H.
Qed.

(** ** A run whose calls succeed *)

Lemma main_folder_present n key info w :
  dict_get folder_info key = Some info ->
  fs_exists (w_fs w) (PyStr.path_join "notebooks" key) = true ->
  folder_ok (w_fs w) (PyStr.path_join "notebooks" key) ->
  main_folder str_title nbformat_read strftime_date strftime_minute
    "notebooks" n key w
  = (Returns (n + 1)%Z,
     written w
       (append
          (folder_warnings str_title nbformat_read (w_fs w)
             (PyStr.path_join "notebooks" key)
             (folder_files (w_fs w) (PyStr.path_join "notebooks" key)))
          ("✓ Generated README for " ++ key ++ " ("
           ++ PyStr.of_int
                (Z.of_nat
                   (List.length
                      (folder_files (w_fs w) (PyStr.path_join "notebooks" key))))
           ++ " notebooks)"))
       (readme_path key)
       (PyStr.join PyStr.nl
          (folder_readme_lines strftime_minute info
             (map (table_row str_title nbformat_read strftime_date (w_fs w)
                     (PyStr.path_join "notebooks" key) key)
                (folder_files (w_fs w) (PyStr.path_join "notebooks" key)))
             (w_clock w 0)))).
Proof.
  intros Hinfo Hp Hok. unfold main_folder, bind, os_path_exists, gets. rewrite Hp.
  rewrite (generate_folder_readme_eq _ _ info w Hinfo Hok). reflexivity.
Qed.

Lemma main_folder_missing n key w :
  fs_exists (w_fs w) (PyStr.path_join "notebooks" key) = false ->
  main_folder str_title nbformat_read strftime_date strftime_minute
    "notebooks" n key w
  = (Returns n,
     emit ("⚠️  Folder not found: " ++ PyStr.path_join "notebooks" key) w).
Proof.
  intros Hp. unfold main_folder, bind, os_path_exists, gets. rewrite Hp.
  reflexivity.
Qed.

(** A run stops with the error of the listing when a known folder exists
    and cannot be listed. *)
Lemma main_folder_unlistable n key w msg :
  In key (dict_keys folder_info) ->
  fs_exists (w_fs w) (PyStr.path_join "notebooks" key) = true ->
  fs_listdir (w_fs w) (PyStr.path_join "notebooks" key) = inl msg ->
  main_folder str_title nbformat_read strftime_date strftime_minute
    "notebooks" n key w
  = (Raises (Exception msg), w).
Proof.
  intros Hk Hp Hl. destruct (known_key_descriptor key Hk) as [info Hinfo].
  unfold main_folder, bind, os_path_exists, gets. rewrite Hp.
  rewrite (generate_folder_readme_unlistable _ _ info w msg Hinfo Hl). reflexivity.
Qed.

(** The first loop of [main] when the unguarded calls succeed.  It counts
    the folders that are there and warns about the others; the README of
    each folder that is there holds the text computed from the inputs as
    they were before the loop; no other file is written. *)
Lemma folders_loop_run keys :
  incl keys (dict_keys folder_info) -> NoDup keys ->
  forall n w0 w,
    same_inputs (w_fs w0) (w_fs w) ->
    (forall key, In key (dict_keys folder_info) ->
       fs_exists (w_fs w0) (PyStr.path_join "notebooks" key) = true ->
       folder_ok (w_fs w0) (PyStr.path_join "notebooks" key)) ->
    exists w' out,
      for_each keys n
        (main_folder str_title nbformat_read strftime_date strftime_minute
           "notebooks") w
      = (Returns
           (n + Z.of_nat
                  (List.length
                     (filter (fun key => fs_exists (w_fs w0)
                                           (PyStr.path_join "notebooks" key))
                        keys)))%Z,
         w') /\
      same_inputs (w_fs w0) (w_fs w') /\
      w_stdout w' = (w_stdout w ++ out)%list /\
      (forall key,
         In key keys ->
         fs_exists (w_fs w0) (PyStr.path_join "notebooks" key) = false ->
         In ("⚠️  Folder not found: " ++ PyStr.path_join "notebooks" key) out) /\
      (forall key info,
         In key keys -> dict_get folder_info key = Some info ->
         fs_exists (w_fs w0) (PyStr.path_join "notebooks" key) = true ->
         exists now,
           fs_open (w_fs w') (readme_path key)
           = inr (PyStr.join PyStr.nl
                    (folder_readme_lines strftime_minute info
                       (map (table_row str_title nbformat_read strftime_date
                               (w_fs w0) (PyStr.path_join "notebooks" key) key)
                          (folder_files (w_fs w0) (PyStr.path_join "notebooks" key)))
                       now))) /\
      (forall p,
         (forall key, In key keys ->
            fs_exists (w_fs w0) (PyStr.path_join "notebooks" key) = true ->
            readme_path key <> p) ->
         fs_exists (w_fs w') p = fs_exists (w_fs w) p /\
         fs_open (w_fs w') p = fs_open (w_fs w) p).
Proof.
  induction keys as [|key keys IH]; intros Hin Hnd n w0 w H Hio.
  - exists w, []. simpl. rewrite Z.add_0_r, app_nil_r.
    split; [reflexivity|]. split; [exact H|]. split; [reflexivity|].
    split; [intros key []|]. split; [intros key info []|].
    intros p _. split; reflexivity.
  - assert (Hk : In key (dict_keys folder_info)) by (apply Hin; left; reflexivity).
    assert (Hrest : incl keys (dict_keys folder_info))
      by (intros k Hk'; apply Hin; right; exact Hk').
    inversion Hnd as [|k ks Hnotin Hnd']; subst k ks.
    pose proof (si_exists _ _ H _ (folder_path_input key Hk)) as Hex.
    cbn [for_each filter].
    destruct (fs_exists (w_fs w0) (PyStr.path_join "notebooks" key)) eqn:Hp.
    + destruct (known_key_descriptor key Hk) as [info Hinfo].
      assert (Hok : folder_ok (w_fs w) (PyStr.path_join "notebooks" key)).
      { apply (folder_ok_inputs _ _ _ H). apply (Hio key Hk Hp). }
      rewrite (bind_returns _ _ _ _ _
                 (main_folder_present n key info w Hinfo (eq_sym Hex) Hok)).
      match goal with
      | |- context [for_each keys ?m _ ?w1] =>
          assert (H1 : same_inputs (w_fs w0) (w_fs w1));
          [|destruct (IH Hrest Hnd' m w0 w1 H1 Hio)
              as [w' [out [E [Hs [Ho [Hw [Hout Hframe]]]]]]]]
      end.
      { unfold written. cbn [w_fs].
        eapply same_inputs_trans; [exact H|].
        apply same_inputs_write, readme_path_output, Hk. }
      unfold written in Ho. cbn [w_stdout] in Ho.
      eexists w', _. split; [|split; [exact Hs|split; [|split; [|split]]]].
      * rewrite E. f_equal. f_equal. cbn [List.length]. lia.
      * rewrite Ho, <- app_assoc. reflexivity.
      * intros key' [<-|Hin'] Hmiss; [congruence|].
        apply in_or_app. right. apply (Hw key' Hin' Hmiss).
      * intros key' info' [<-|Hin'] Hinfo' Hp'.
        -- exists (w_clock w 0).
           destruct (Hframe (readme_path key)) as [_ ->].
           ++ intros k Hk' _ Heq.
              apply (readme_path_inj k key (Hrest k Hk') Hk) in Heq. subst k.
              contradiction.
           ++ unfold written, fs_write. cbn [w_fs fs_open].
              rewrite String.eqb_refl.
              rewrite Hinfo in Hinfo'. inversion Hinfo'; subst info'.
              rewrite (folder_rows_inputs _ _ _ _ H). reflexivity.
        -- apply (Hout key' info' Hin' Hinfo' Hp').
      * intros p Hnot.
        destruct (Hframe p) as [-> ->].
        { intros k Hk'. apply Hnot. right. exact Hk'. }
        unfold written, fs_write. cbn [w_fs fs_open fs_exists].
        destruct (String.eqb_spec p (readme_path key)) as [->|]; [|split; reflexivity].
        exfalso. apply (Hnot key); [left; reflexivity | exact Hp | reflexivity].
    + rewrite (bind_returns _ _ _ _ _ (main_folder_missing n key w (eq_sym Hex))).
      match goal with
      | |- context [for_each keys ?m _ ?w1] =>
          destruct (IH Hrest Hnd' m w0 w1 H Hio)
            as [w' [out [E [Hs [Ho [Hw [Hout Hframe]]]]]]]
      end.
      unfold emit in Ho. cbn [w_stdout] in Ho.
      eexists w', _. split; [|split; [exact Hs|split; [|split; [|split]]]].
      * rewrite E. reflexivity.
      * rewrite Ho, <- app_assoc. reflexivity.
      * intros key' [<-|Hin'] Hmiss; [left; reflexivity|].
        right. apply (Hw key' Hin' Hmiss).
      * intros key' info' [<-|Hin'] Hinfo' Hp'; [congruence|].
        apply (Hout key' info' Hin' Hinfo' Hp').
      * intros p Hnot. apply Hframe. intros k Hk'. apply Hnot. right. exact Hk'.
Qed.

(** [main] with the base directory, when the unguarded calls succeed: what
    it prints, what the generated files hold, and what it leaves alone. *)
Lemma main_run w :
  fs_exists (w_fs w) "notebooks" = true ->
  io_ok (w_fs w) ->
  exists w' out,
    main str_title nbformat_read strftime_date strftime_minute w = (Returns tt, w') /\
    same_inputs (w_fs w) (w_fs w') /\
    w_stdout w'
    = (w_stdout w ++ out
       ++ "✓ Generated main notebooks README"
          :: summary_lines (present_folders (w_fs w)))%list /\
    (forall key,
       In key (dict_keys folder_info) ->
       fs_exists (w_fs w) (PyStr.path_join "notebooks" key) = false ->
       In ("⚠️  Folder not found: " ++ PyStr.path_join "notebooks" key) out /\
       fs_exists (w_fs w') (readme_path key) = fs_exists (w_fs w) (readme_path key) /\
       fs_open (w_fs w') (readme_path key) = fs_open (w_fs w) (readme_path key)) /\
    (exists now,
       fs_open (w_fs w') "NOTEBOOKS_README.md"
       = inr (PyStr.join PyStr.nl
                (main_readme_lines str_title nbformat_read strftime_minute
                   (w_fs w) now))) /\
    (forall key info,
       dict_get folder_info key = Some info ->
       fs_exists (w_fs w) (PyStr.path_join "notebooks" key) = true ->
       exists now,
         fs_open (w_fs w') (readme_path key)
         = inr (PyStr.join PyStr.nl
                  (folder_readme_lines strftime_minute info
                     (map (table_row str_title nbformat_read strftime_date (w_fs w)
                             (PyStr.path_join "notebooks" key) key)
                        (folder_files (w_fs w) (PyStr.path_join "notebooks" key)))
                     now))).
Proof.
  intros Hbase Hio. rewrite (main_present _ _ _ _ w Hbase).
  destruct (folders_loop_run (dict_keys folder_info) (incl_refl _)
              folder_keys_distinct 0%Z w
              (emit "🚀 Generating README files for notebook directories..." w)
              (same_inputs_refl _) (proj1 Hio))
    as [w1 [out1 [E1 [Hs1 [Ho1 [Hw [Hout Hframe]]]]]]].
  rewrite (bind_returns _ _ _ _ _ E1).
  assert (Hio1 : io_ok (w_fs w1)) by (apply (io_ok_inputs _ _ Hs1 Hio)).
  unfold bind at 1. rewrite (generate_main_readme_eq w1 (io_ok_main _ Hio1)).
  unfold bind, print, modify. cbn [fst snd].
  rewrite main_report_loop_eq.
  set (text := PyStr.join PyStr.nl
                 (main_readme_lines str_title nbformat_read strftime_minute
                    (w_fs w1) (w_clock w1 0))).
  set (warn := flat_map (section_warnings str_title nbformat_read (w_fs w1))
                 folder_info).
  assert (Hs2 : same_inputs (w_fs w)
                  (fs_write (w_clock w1 1) "NOTEBOOKS_README.md" text (w_fs w1))).
  { eapply same_inputs_trans; [exact Hs1|].
    apply same_inputs_write. reflexivity. }
  assert (Hp : filter (fun key => fs_exists
                         (fs_write (w_clock w1 1) "NOTEBOOKS_README.md" text (w_fs w1))
                         (PyStr.path_join "notebooks" key))
                 (dict_keys folder_info)
               = present_folders (w_fs w)).
  { unfold present_folders. apply filter_ext_in. intros key Hk.
    symmetry. apply (si_exists _ _ Hs2). apply folder_path_input, Hk. }
  eexists _.
  exists (("🚀 Generating README files for notebook directories..." :: out1)
          ++ warn)%list.
  split; [reflexivity|].
  unfold emits, emit, written, append. cbn [w_fs w_stdout w_clock].
  split; [exact Hs2|]. split; [|split; [|split]].
  - rewrite Hp, Ho1. unfold emit. cbn [w_stdout].
    unfold summary_lines, extend. fold (present_folders (w_fs w)).
    rewrite Z.add_0_l.
    rewrite <- !app_assoc. reflexivity.
  - intros key Hk Hmiss. split.
    + right. apply in_or_app. left. apply (Hw key Hk Hmiss).
    + unfold fs_write. cbn [fs_exists fs_open].
      rewrite (readme_not_main key Hk). cbn [orb].
      apply Hframe. intros k Hk' Hthere Heq.
      apply (readme_path_inj k key Hk' Hk) in Heq. subst k. congruence.
  - exists (w_clock w1 0). unfold fs_write. cbn [fs_open String.eqb Ascii.eqb].
    unfold text. rewrite (main_readme_lines_inputs _ _ _ Hs1). reflexivity.
  - intros key info Hinfo Hthere.
    pose proof (dict_get_In _ _ _ Hinfo) as Hk.
    unfold fs_write. cbn [fs_open]. rewrite (readme_not_main key Hk).
    apply (Hout key info Hk Hinfo Hthere).
Qed.

(** ** The builders and the run *)

Lemma table_body_In row rows : In row rows -> In row (table_body rows).
Proof. destruct rows; [intros [] | intros H; exact H]. Qed.

Lemma sorted_files_In listing f :
  In f listing -> is_notebook_file f = true ->
  In f (PyStr.sort (filter is_notebook_file listing)).
Proof.
  intros Hin Hnb. eapply Permutation_in; [apply sort_perm|].
  apply filter_In. split; assumption.
Qed.

Lemma startswith_app p x : PyStr.startswith (p ++ x) p = true.
Proof.
  unfold PyStr.startswith. induction p as [|c p IH]; [destruct x; reflexivity|].
  cbn [String.append prefix]. destruct (ascii_dec c c); [exact IH | congruence].
Qed.

(** Every warning of the extractor starts with the same words. *)
Lemma folder_warnings_start fs folder_path files :
  Forall (fun line => PyStr.startswith line "Warning: Could not read notebook " = true)
    (folder_warnings str_title nbformat_read fs folder_path files).
Proof.
  unfold folder_warnings. apply Forall_flat_map, Forall_forall. intros f _.
  unfold warnings_at.
  destruct (fst (try_block nbformat_read fs (PyStr.path_join folder_path f)
                   (default_metadata str_title (PyStr.path_join folder_path f))))
    as [[]|[e|n]]; constructor; [|constructor].
  apply startswith_app.
Qed.

Lemma folder_ok_of fs folder_path listing :
  fs_listdir fs folder_path = inr listing ->
  (forall f, In f (PyStr.sort (filter is_notebook_file listing)) ->
     exists t, fs_getmtime fs (PyStr.path_join folder_path f) = inr t) ->
  fs_create fs (PyStr.path_join folder_path "README.md") = None ->
  folder_ok fs folder_path.
Proof.
  intros Hl Hm Hc. split; [exists listing; exact Hl|]. split; [|exact Hc].
  rewrite (folder_files_listing _ _ _ Hl). exact Hm.
Qed.

(** ** A run in which an unguarded call fails *)

(** The loop of the folder builder stops at the first file whose time
    cannot be read. *)
Lemma folder_rows_cases folder_path folder_key files : forall lines n w,
  (forall f, In f files ->
     exists t, fs_getmtime (w_fs w) (PyStr.path_join folder_path f) = inr t) \/
  exists msg w',
    for_each files (lines, n)
      (folder_row str_title nbformat_read strftime_date folder_path folder_key) w
    = (Raises (Exception msg), w') /\
    w_fs w' = w_fs w.
Proof.
  induction files as [|f files IH]; intros lines n w.
  - left. intros f [].
  - destruct (fs_getmtime (w_fs w) (PyStr.path_join folder_path f))
      as [msg|t] eqn:Ht.
    + right. exists msg. eexists. cbn [for_each].
      rewrite (bind_raises _ _ _ _ _
                 (folder_row_fails folder_path folder_key lines n f w msg Ht)).
      split; reflexivity.
    + cbn [for_each].
      rewrite (bind_returns _ _ _ _ _
                 (folder_row_eq folder_path folder_key lines n f w t Ht)).
      match goal with
      | |- context [for_each files (?l, ?m) _ ?w1] =>
          destruct (IH l m w1) as [Hall|[msg [w' [E Hfs]]]]
      end.
      * left. intros f' [<-|Hin]; [exists t; exact Ht|].
        apply (Hall f' Hin).
      * right. exists msg, w'. split; [exact E|]. rewrite Hfs. reflexivity.
Qed.

(** The folder builder on a known folder: its unguarded calls succeed, or
    it raises and leaves the files as they were. *)
Lemma generate_folder_readme_cases folder_path folder_key info w :
  dict_get folder_info folder_key = Some info ->
  folder_ok (w_fs w) folder_path \/
  exists msg w',
    generate_folder_readme str_title nbformat_read strftime_date strftime_minute
      folder_path folder_key w
    = (Raises (Exception msg), w') /\
    w_fs w' = w_fs w.
Proof.
  intros Hinfo.
  destruct (fs_listdir (w_fs w) folder_path) as [msg|listing] eqn:Hl.
  { right. exists msg, w. split; [|reflexivity].
    apply (generate_folder_readme_unlistable _ _ info w msg Hinfo Hl). }
  destruct (fs_create (w_fs w) (PyStr.path_join folder_path "README.md"))
    as [msg|] eqn:Hc.
  - right. unfold generate_folder_readme. rewrite Hinfo.
    rewrite bind_list_notebooks, Hl. cbv zeta.
    match goal with
    | |- context [for_each ?fl (?l, ?m) _] =>
        destruct (folder_rows_cases folder_path folder_key fl l m w)
          as [Hall|[msg' [w' [E Hfs]]]]
    end.
    + rewrite (bind_returns _ _ _ _ _
                 (folder_rows_eq folder_path folder_key _ _ _ w Hall)).
      rewrite fold_objectives.
      unfold bind at 1, datetime_now. unfold bind at 1. rewrite write_file_eq.
      cbn [tick emits w_fs]. rewrite Hc.
      exists msg. eexists. split; reflexivity.
    + exists msg', w'. split; [|exact Hfs].
      apply bind_raises. exact E.
  - unfold generate_folder_readme. rewrite Hinfo.
    rewrite bind_list_notebooks, Hl. cbv zeta.
    match goal with
    | |- context [for_each ?fl (?l, ?m) _] =>
        destruct (folder_rows_cases folder_path folder_key fl l m w)
          as [Hall|[msg' [w' [E Hfs]]]]
    end.
    + left. apply (folder_ok_of _ _ listing Hl Hall Hc).
    + right. exists msg', w'. split; [|exact Hfs].
      apply bind_raises. exact E.
Qed.

(** The main builder raises when the main README cannot be opened for
    writing. *)
Lemma generate_main_readme_unwritable w msg :
  (forall key, In key (dict_keys folder_info) ->
     fs_exists (w_fs w) (PyStr.path_join "notebooks" key) = true ->
     exists listing,
       fs_listdir (w_fs w) (PyStr.path_join "notebooks" key) = inr listing) ->
  fs_create (w_fs w) "NOTEBOOKS_README.md" = Some msg ->
  exists w',
    generate_main_readme str_title nbformat_read strftime_minute w
    = (Raises (Exception msg), w') /\
    w_fs w' = w_fs w.
Proof.
  intros Hlist Hc. unfold generate_main_readme.
  rewrite (bind_returns _ _ _ _ _
             (quick_access_loop_eq folder_info (incl_refl _) _ w
                (fun entry Hin => Hlist (fst entry) (in_map fst _ _ Hin)))).
  rewrite (bind_returns _ _ _ _ _
             (technical_loop_eq folder_info (incl_refl _) _ _)).
  unfold bind at 1, datetime_now. unfold bind at 1. rewrite write_file_eq.
  cbn [tick emits w_fs]. rewrite Hc.
  eexists. split; reflexivity.
Qed.

(** The first loop of [main]: the unguarded calls of the folder builder
    succeed on every known folder that is there, or the loop raises. *)
Lemma folders_loop_cases keys :
  incl keys (dict_keys folder_info) ->
  forall n w0 w,
    same_inputs (w_fs w0) (w_fs w) ->
    (forall key, In key keys ->
       fs_exists (w_fs w0) (PyStr.path_join "notebooks" key) = true ->
       folder_ok (w_fs w0) (PyStr.path_join "notebooks" key)) \/
    exists msg w',
      for_each keys n
        (main_folder str_title nbformat_read strftime_date strftime_minute
           "notebooks") w
      = (Raises (Exception msg), w').
Proof.
  induction keys as [|key keys IH]; intros Hin n w0 w H.
  - left. intros key [].
  - assert (Hk : In key (dict_keys folder_info)) by (apply Hin; left; reflexivity).
    assert (Hrest : incl keys (dict_keys folder_info))
      by (intros k Hk'; apply Hin; right; exact Hk').
    pose proof (si_exists _ _ H _ (folder_path_input key Hk)) as Hex.
    cbn [for_each].
    destruct (fs_exists (w_fs w0) (PyStr.path_join "notebooks" key)) eqn:Hp.
    + destruct (known_key_descriptor key Hk) as [info Hinfo].
      destruct (generate_folder_readme_cases (PyStr.path_join "notebooks" key)
                  key info w Hinfo) as [Hok|[msg [w' [E _]]]].
      * rewrite (bind_returns _ _ _ _ _
                   (main_folder_present n key info w Hinfo (eq_sym Hex) Hok)).
        match goal with
        | |- context [for_each keys ?m _ ?w1] =>
            assert (H1 : same_inputs (w_fs w0) (w_fs w1));
            [|destruct (IH Hrest m w0 w1 H1) as [Hall|[msg [w' E]]]]
        end.
        { unfold written. cbn [w_fs].
          eapply same_inputs_trans; [exact H|].
          apply same_inputs_write, readme_path_output, Hk. }
        -- left. intros key' [<-|Hin'] Hp'; [|apply (Hall key' Hin' Hp')].
           apply (folder_ok_inputs _ _ _ (same_inputs_sym _ _ H) Hok).
        -- right. exists msg, w'. exact E.
      * right. exists msg, w'. apply bind_raises.
        unfold main_folder, bind at 1, os_path_exists, gets.
        rewrite <- Hex. apply bind_raises. exact E.
    + rewrite (bind_returns _ _ _ _ _ (main_folder_missing n key w (eq_sym Hex))).
      match goal with
      | |- context [for_each keys ?m _ ?w1] =>
          destruct (IH Hrest m w0 w1 H) as [Hall|[msg [w' E]]]
      end.
      * left. intros key' [<-|Hin'] Hp'; [congruence|].
        apply (Hall key' Hin' Hp').
      * right. exists msg, w'. exact E.
Qed.

(** [main] with the base directory: every unguarded call succeeds, or
    [main] raises. *)
Lemma main_cases w :
  fs_exists (w_fs w) "notebooks" = true ->
  io_ok (w_fs w) \/
  exists msg w',
    main str_title nbformat_read strftime_date strftime_minute w
    = (Raises (Exception msg), w').
Proof.
  intros Hbase. rewrite (main_present _ _ _ _ w Hbase).
  destruct (folders_loop_cases (dict_keys folder_info) (incl_refl _) 0%Z w
              (emit "🚀 Generating README files for notebook directories..." w)
              (same_inputs_refl _))
    as [Hall|[msg [w' E]]].
  - destruct (fs_create (w_fs w) "NOTEBOOKS_README.md") as [msg|] eqn:Hc.
    + right.
      destruct (folders_loop_run (dict_keys folder_info) (incl_refl _)
                  folder_keys_distinct 0%Z w
                  (emit "🚀 Generating README files for notebook directories..." w)
                  (same_inputs_refl _) Hall)
        as [w1 [out1 [E1 [Hs1 _]]]].
      rewrite (bind_returns _ _ _ _ _ E1).
      destruct (generate_main_readme_unwritable w1 msg) as [w2 [E2 _]].
      * intros key Hk Hp.
        rewrite <- (si_exists _ _ Hs1 _ (folder_path_input key Hk)) in Hp.
        apply (folder_ok_inputs _ _ _ Hs1 (Hall key Hk Hp)).
      * rewrite <- (si_create _ _ Hs1). exact Hc.
      * exists msg, w2. apply bind_raises. exact E2.
    + left. split; [exact Hall | exact Hc].
  - right. exists msg, w'. apply bind_raises. exact E.
Qed.









(** X12.  The default title of a notebook depends on the name of the file
    only, not on the folder: for a name without a slash, as a directory
    lists it, the default title of the joined path is what [str.title]
    gives for the name with the text [.ipynb] removed and the underscores
    replaced by spaces. *)
Theorem default_title_of_file folder_path f :
  PyStr.contains "/" f = false ->
  default_title str_title (PyStr.path_join folder_path f)
  = str_title (PyStr.replace "_" " " (PyStr.replace ".ipynb" EmptyString f)).
Proof.
  intros H. unfold default_title.
  rewrite (basename_path_join folder_path f H). reflexivity.
Qed.


(** The scan for the plotting library ends normally when every cell has a
    type and every code cell a source. *)
Lemma plotly_stage_returns cells m :
  Forall typed cells -> Forall (sourced "code") cells ->
  exists m', plotly_stage cells m = (Returns tt, m').
Proof.
  intros Hty Hsrc. induction cells as [|c cs IH]; simpl.
  - exists m. reflexivity.
  - inversion Hty as [|? ? Hc Hty']; inversion Hsrc as [|? ? Hs Hsrc']; subst.
    unfold bind, typed, sourced, has_type in *.
    destruct (cell_type c) as [t|]; [|congruence]. simpl.
    destruct (t =? "code").
    + destruct (source c) as [src|]; [|exfalso; apply Hs; reflexivity]. simpl.
      destruct (PyStr.contains "plotly" (PyStr.lower src)).
      * eexists. reflexivity.
      * apply IH; assumption.
    + apply IH; assumption.
Qed.

(** X14.  A notebook that can be read, whose cells all have a type and
    whose markdown and code cells all have a source, is extracted in
    silence: no warning is printed and the state is left as it was.  So a
    warning tells that the file could not be read or that a cell lacks one
    of these fields. *)
Theorem well_formed_notebook_silent path w cells :
  read_notebook nbformat_read (w_fs w) path = inr cells ->
  Forall typed cells ->
  Forall (sourced "markdown") cells ->
  Forall (sourced "code") cells ->
  exists md,
    extract_notebook_metadata str_title nbformat_read path w = (Returns md, w).
Proof.
  intros Hread Hty Hmd Hcode.
  assert (Hb : fst (try_block nbformat_read (w_fs w) path
                      (default_metadata str_title path))
               = Returns tt).
  { rewrite (block_typed str_title nbformat_read _ _ _ Hread Hty). unfold bind.
    destruct (title_stage_returns cells (counted_metadata str_title path cells)
                Hty Hmd)
      as [m1 E1].
    rewrite E1.
    destruct (plotly_stage_returns cells m1 Hty Hcode) as [m2 E2].
    rewrite E2. reflexivity. }
  rewrite extract_eq. unfold warnings_at. rewrite Hb, emits_nil.
  eexists. reflexivity.
Qed.

End MoreGeneration.

(** ** The claims on concrete notebooks *)


Lemma sample_notebook_typed : Forall typed sample_notebook.
Proof. repeat constructor; discriminate. Qed.

Lemma sample_notebook_blank_prefix :
  Forall blank_or_other [ code_cell "import pandas as pd"; markdown_cell "   " ].
Proof.
  repeat constructor.
  - intros H. discriminate H.
  - intros _. exists "   ". split; reflexivity.
Qed.

(** C2 on the sample notebook: the heading of the third cell is the title. *)
Lemma title_of_first_text_cell_witness :
  exists md w',
    extract_notebook_metadata PyStr.title_ascii (parse_as sample_notebook)
      "notebooks/model_training/intro.ipynb" (start_world readable_fs)
      = (Returns md, w') /\
    title md = "Foo Bar" /\
    (last_char "# Foo Bar" <> Some "#"%char ->
     title md = claimed_title_of_line "# Foo Bar").
Proof.
  exact (title_of_first_text_cell PyStr.title_ascii (parse_as sample_notebook)
           "notebooks/model_training/intro.ipynb" (start_world readable_fs)
           [ code_cell "import pandas as pd"; markdown_cell "   " ]
           (markdown_cell ("# Foo Bar" ++ PyStr.nl ++ PyStr.nl ++ "Sales by store."))
           [ markdown_cell "# Another Title" ]
           ("# Foo Bar" ++ PyStr.nl ++ PyStr.nl ++ "Sales by store.")
           "# Foo Bar"
           eq_refl sample_notebook_typed sample_notebook_blank_prefix
           eq_refl eq_refl ltac:(discriminate) eq_refl).
Defined.

(** C3 on the sample notebook: the sentence after the empty line is the
    description. *)
Lemma description_of_first_text_cell_witness :
  exists md w',
    extract_notebook_metadata PyStr.title_ascii (parse_as sample_notebook)
      "notebooks/model_training/intro.ipynb" (start_world readable_fs)
      = (Returns md, w') /\
    ((100 < PyStr.len "Sales by store.")%Z ->
       description md = PyStr.take 100 "Sales by store." ++ "..." /\
       PyStr.len (PyStr.take 100 "Sales by store.") = 100%Z) /\
    ((PyStr.len "Sales by store." <= 100)%Z -> description md = "Sales by store.") /\
    (PyStr.strip ("# Foo Bar" ++ PyStr.nl ++ PyStr.nl ++ "Sales by store.")
     = "# Foo Bar" ++ PyStr.nl ++ PyStr.nl ++ "Sales by store." ->
     (forall l,
        In l (cell_lines ("# Foo Bar" ++ PyStr.nl ++ PyStr.nl ++ "Sales by store.")) ->
        truthy (PyStr.strip l) = truthy l) ->
     claimed_description_line
       ("# Foo Bar" ++ PyStr.nl ++ PyStr.nl ++ "Sales by store.")
     = Some "Sales by store.").
Proof.
  exact (description_of_first_text_cell PyStr.title_ascii (parse_as sample_notebook)
           "notebooks/model_training/intro.ipynb" (start_world readable_fs)
           [ code_cell "import pandas as pd"; markdown_cell "   " ]
           (markdown_cell ("# Foo Bar" ++ PyStr.nl ++ PyStr.nl ++ "Sales by store."))
           [ markdown_cell "# Another Title" ]
           ("# Foo Bar" ++ PyStr.nl ++ PyStr.nl ++ "Sales by store.")
           "Sales by store." []
           eq_refl sample_notebook_typed sample_notebook_blank_prefix
           eq_refl eq_refl ltac:(discriminate) eq_refl).
Defined.

(** C2, counterexample.  A heading line that ends with a heading marker
    loses it: the title of [# Intro to C#] is [Intro to C], where stripping
    the leading markers and the surrounding whitespace gives [Intro to C#].
    And a cell without a type before the markdown cell stops the
    extraction in the counting stage: the title stays the default one,
    [Intro], and not the heading [Foo Bar]. *)
Lemma title_strips_both_ends_counterexample :
  (extract_notebook_metadata PyStr.title_ascii (parse_as csharp_notebook)
     "notebooks/model_training/intro.ipynb" (start_world readable_fs)
   = (Returns {| title := "Intro to C";
                 description := EmptyString;
                 has_plotly := false;
                 cell_count := 1;
                 markdown_cells := 1;
                 code_cells := 0 |},
      start_world readable_fs)
   /\ claimed_title_of_line "# Intro to C#" = "Intro to C#"
   /\ "Intro to C" <> "Intro to C#")
  /\
  (extract_notebook_metadata PyStr.title_ascii (parse_as untyped_notebook)
     "notebooks/model_training/intro.ipynb" (start_world readable_fs)
   = (Returns {| title := "Intro";
                 description := EmptyString;
                 has_plotly := false;
                 cell_count := 2;
                 markdown_cells := 0;
                 code_cells := 0 |},
      emit "Warning: Could not read notebook notebooks/model_training/intro.ipynb: cell_type"
        (start_world readable_fs))
   /\ claimed_title_of_line "# Foo Bar" = "Foo Bar"
   /\ "Intro" <> "Foo Bar").
Proof.
  repeat split; try reflexivity; discriminate.
Qed.

(** C3, counterexample.  A line of one space is not empty and does not
    start with a heading marker, yet the description is the line after it.
    And a cell without a type before the markdown cell leaves the
    description empty. *)
Lemma description_skips_blank_line_counterexample :
  (extract_notebook_metadata PyStr.title_ascii (parse_as spaced_notebook)
     "notebooks/model_training/trends.ipynb" (start_world readable_fs)
   = (Returns {| title := "Trends";
                 description := "Weekly sales.";
                 has_plotly := false;
                 cell_count := 1;
                 markdown_cells := 1;
                 code_cells := 0 |},
      start_world readable_fs)
   /\ claimed_description_line
        ("# Trends" ++ PyStr.nl ++ " " ++ PyStr.nl ++ "Weekly sales.")
      = Some " "
   /\ "Weekly sales." <> " ")
  /\
  (extract_notebook_metadata PyStr.title_ascii (parse_as untyped_notebook)
     "notebooks/model_training/intro.ipynb" (start_world readable_fs)
   = (Returns {| title := "Intro";
                 description := EmptyString;
                 has_plotly := false;
                 cell_count := 2;
                 markdown_cells := 0;
                 code_cells := 0 |},
      emit "Warning: Could not read notebook notebooks/model_training/intro.ipynb: cell_type"
        (start_world readable_fs))
   /\ claimed_description_line ("# Foo Bar" ++ PyStr.nl ++ "Sales by store.")
      = Some "Sales by store."
   /\ EmptyString <> "Sales by store.").
Proof.
  repeat split; try reflexivity; discriminate.
Qed.

(** The two lengths the specification names: a line of 150 characters is
    stored as its first 100 characters and three dots, a line of 50
    characters as it is. *)
Example description_of_150_characters :
  extract_notebook_metadata PyStr.title_ascii (parse_as (long_line_notebook 150))
    "notebooks/model_training/trends.ipynb" (start_world readable_fs)
  = (Returns {| title := "Trends";
                description := letters 100 ++ "...";
                has_plotly := false;
                cell_count := 1;
                markdown_cells := 1;
                code_cells := 0 |},
     start_world readable_fs).
Proof. vm_compute. reflexivity. Qed.

Example description_of_50_characters :
  extract_notebook_metadata PyStr.title_ascii (parse_as (long_line_notebook 50))
    "notebooks/model_training/trends.ipynb" (start_world readable_fs)
  = (Returns {| title := "Trends";
                description := letters 50;
                has_plotly := false;
                cell_count := 1;
                markdown_cells := 1;
                code_cells := 0 |},
     start_world readable_fs).
Proof. vm_compute. reflexivity. Qed.

(** Characters, not bytes, and the whitespace of [str.isspace].  The
    heading between two no-break spaces gives the title without them, the
    line of an ideographic space and an em space is passed over, and a
    line of 40 characters of three bytes each is stored as it is. *)
Example description_of_40_wide_characters :
  extract_notebook_metadata PyStr.title_ascii (parse_as (wide_notebook 40))
    "notebooks/model_training/plan.ipynb" (start_world readable_fs)
  = (Returns {| title := "Plan";
                description := copies 40 "日";
                has_plotly := false;
                cell_count := 1;
                markdown_cells := 1;
                code_cells := 0 |},
     start_world readable_fs).
Proof. vm_compute. reflexivity. Qed.

(** A line of 150 such characters is stored as its first 100 characters
    and three dots. *)
Example description_of_150_wide_characters :
  extract_notebook_metadata PyStr.title_ascii (parse_as (wide_notebook 150))
    "notebooks/model_training/plan.ipynb" (start_world readable_fs)
  = (Returns {| title := "Plan";
                description := copies 100 "日" ++ "...";
                has_plotly := false;
                cell_count := 1;
                markdown_cells := 1;
                code_cells := 0 |},
     start_world readable_fs).
Proof. vm_compute. reflexivity. Qed.

(** The heading test is made on the stripped text of the cell: a heading
    marker after two spaces, on the only line of the cell, starts a
    heading line. *)
Example heading_after_spaces :
  extract_notebook_metadata PyStr.title_ascii (parse_as indented_heading_notebook)
    "notebooks/model_training/intro.ipynb" (start_world readable_fs)
  = (Returns {| title := "Title";
                description := EmptyString;
                has_plotly := false;
                cell_count := 1;
                markdown_cells := 1;
                code_cells := 0 |},
     start_world readable_fs).
Proof. vm_compute. reflexivity. Qed.

(** C4 on a notebook of one code cell. *)
Lemma title_without_heading_witness :
  exists md w',
    extract_notebook_metadata PyStr.title_ascii (parse_as [ code_cell "import pandas as pd" ])
      "notebooks/model_training/sales_forecast.ipynb" (start_world readable_fs)
      = (Returns md, w') /\
    title md = "Sales Forecast" /\
    (forall stem,
       PyStr.basename "notebooks/model_training/sales_forecast.ipynb"
       = stem ++ ".ipynb" ->
       PyStr.contains ".ipynb" (stem ++ ".ipyn") = false ->
       title md
       = claimed_default_title PyStr.title_ascii "notebooks/model_training/sales_forecast.ipynb").
Proof.
  apply (title_without_heading PyStr.title_ascii (parse_as [ code_cell "import pandas as pd" ])
           "notebooks/model_training/sales_forecast.ipynb"
           (start_world readable_fs)).
  intros cells c Hread Hin [Hty _].
  inversion Hread; subst cells.
  destruct Hin as [<-|[]]. discriminate Hty.
Defined.

(** C4, counterexample.  The text [.ipynb] is removed wherever it stands
    in the base name, and not only as the extension: the title of
    [forecast.ipynb_old.ipynb] is [Forecast Old], where removing the
    extension gives [Forecast.Ipynb Old]. *)
Lemma default_title_removes_every_occurrence_counterexample :
  extract_notebook_metadata PyStr.title_ascii (parse_as empty_notebook)
    "notebooks/model_training/forecast.ipynb_old.ipynb" (start_world readable_fs)
  = (Returns {| title := "Forecast Old";
                description := EmptyString;
                has_plotly := false;
                cell_count := 0;
                markdown_cells := 0;
                code_cells := 0 |},
     start_world readable_fs)
  /\ claimed_default_title PyStr.title_ascii "notebooks/model_training/forecast.ipynb_old.ipynb"
     = "Forecast.Ipynb Old"
  /\ "Forecast Old" <> "Forecast.Ipynb Old".
Proof.
  repeat split; try reflexivity; discriminate.
Qed.

(** C5 on a notebook of two code cells, the second of which imports the
    library. *)
Lemma plotly_flag_iff_witness :
  exists md w',
    extract_notebook_metadata PyStr.title_ascii
      (parse_as [ code_cell "x = 1"; code_cell "import Plotly.express as px" ])
      "notebooks/results_visualization/dashboard.ipynb" (start_world readable_fs)
      = (Returns md, w') /\
    (has_plotly md = true <->
     w_stdout w' = w_stdout (start_world readable_fs) /\
     exists c,
       In c [ code_cell "x = 1"; code_cell "import Plotly.express as px" ] /\
       mentions_plotly c) /\
    (forall pre c post,
       [ code_cell "x = 1"; code_cell "import Plotly.express as px" ]
       = (pre ++ c :: post)%list ->
       Forall typed [ code_cell "x = 1"; code_cell "import Plotly.express as px" ] ->
       Forall (sourced "markdown")
         [ code_cell "x = 1"; code_cell "import Plotly.express as px" ] ->
       Forall (sourced "code") pre -> mentions_plotly c ->
       has_plotly md = true /\ w' = start_world readable_fs).
Proof.
  exact (plotly_flag_iff PyStr.title_ascii
           (parse_as [ code_cell "x = 1"; code_cell "import Plotly.express as px" ])
           "notebooks/results_visualization/dashboard.ipynb"
           (start_world readable_fs)
           [ code_cell "x = 1"; code_cell "import Plotly.express as px" ]
           eq_refl).
Defined.

(** C5, counterexample.  A code cell without a source before the cell that
    imports plotly stops the scan: the flag stays false although a code
    cell mentions the library. *)
Lemma plotly_flag_failure_counterexample :
  extract_notebook_metadata PyStr.title_ascii (parse_as sourceless_notebook)
    "notebooks/results_visualization/dashboard.ipynb" (start_world readable_fs)
  = (Returns {| title := "Dashboard";
                description := EmptyString;
                has_plotly := false;
                cell_count := 2;
                markdown_cells := 0;
                code_cells := 2 |},
     emit "Warning: Could not read notebook notebooks/results_visualization/dashboard.ipynb: source"
       (start_world readable_fs))
  /\ exists c, In c sourceless_notebook /\ mentions_plotly c.
Proof.
  split; [reflexivity|].
  exists (code_cell "import plotly.express as px").
  split; [right; left; reflexivity|].
  split; [reflexivity|].
  exists "import plotly.express as px". split; reflexivity.
Qed.

(** The two cells the specification names: [Plotly.express] in a code cell
    sets the flag, and unrelated text leaves it false. *)
Example plotly_in_any_case :
  extract_notebook_metadata PyStr.title_ascii (parse_as [ code_cell "import Plotly.express as px" ])
    "notebooks/results_visualization/dashboard.ipynb" (start_world readable_fs)
  = (Returns {| title := "Dashboard";
                description := EmptyString;
                has_plotly := true;
                cell_count := 1;
                markdown_cells := 0;
                code_cells := 1 |},
     start_world readable_fs).
Proof. reflexivity. Qed.

Example unrelated_code :
  extract_notebook_metadata PyStr.title_ascii (parse_as [ code_cell "import pandas as pd" ])
    "notebooks/results_visualization/dashboard.ipynb" (start_world readable_fs)
  = (Returns {| title := "Dashboard";
                description := EmptyString;
                has_plotly := false;
                cell_count := 1;
                markdown_cells := 0;
                code_cells := 1 |},
     start_world readable_fs).
Proof. reflexivity. Qed.

(** The scan stops at the first match: a cell without a source after it is
    never read. *)
Example scan_stops_at_first_match :
  extract_notebook_metadata PyStr.title_ascii
    (parse_as [ code_cell "import plotly"; {| cell_type := Some "code"; source := None |} ])
    "notebooks/results_visualization/dashboard.ipynb" (start_world readable_fs)
  = (Returns {| title := "Dashboard";
                description := EmptyString;
                has_plotly := true;
                cell_count := 2;
                markdown_cells := 0;
                code_cells := 2 |},
     start_world readable_fs).
Proof. reflexivity. Qed.

(** A failure in the last stage keeps what the earlier stages computed. *)
Example late_failure_keeps_fields :
  extract_notebook_metadata PyStr.title_ascii (parse_as late_failure_notebook)
    "notebooks/model_training/intro.ipynb" (start_world readable_fs)
  = (Returns {| title := "Foo Bar";
                description := "Sales by store.";
                has_plotly := false;
                cell_count := 2;
                markdown_cells := 1;
                code_cells := 1 |},
     emit "Warning: Could not read notebook notebooks/model_training/intro.ipynb: source"
       (start_world readable_fs)).
Proof. reflexivity. Qed.

(** C6 on a folder that [folder_info] does not know. *)
Lemma folder_readme_unknown_folder_witness :
  exists w',
    generate_folder_readme PyStr.title_ascii not_json PyStr.of_int PyStr.of_int
      "notebooks/data_cleaning" "data_cleaning" (start_world demo_fs)
    = (Returns tt, w') /\
    w_fs w' = demo_fs /\
    w_clock w' = w_clock (start_world demo_fs) /\
    w_stdout w' = ["Warning: No info found for folder data_cleaning"].
Proof.
  apply (folder_readme_unknown_folder PyStr.title_ascii not_json PyStr.of_int PyStr.of_int
           "notebooks/data_cleaning" "data_cleaning" (start_world demo_fs)).
  intros [H|[H|[H|[H|[]]]]]; discriminate H.
Defined.

(** The script without the base directory: status 1, two lines printed. *)
Example run_without_base_directory :
  fst (run_script PyStr.title_ascii not_json PyStr.of_int PyStr.of_int (start_world bare_fs)) = 1%Z /\
  w_stdout (snd (run_script PyStr.title_ascii not_json PyStr.of_int PyStr.of_int (start_world bare_fs)))
  = [ "🚀 Generating README files for notebook directories...";
      "❌ Error: notebooks directory not found!" ].
Proof. split; reflexivity. Qed.

(** The script with one folder out of four: status 0, three warnings for
    the missing folders, one for the notebook that cannot be opened (once
    for each builder), and the files in ascending order in the table. *)
Example run_with_one_folder :
  let w := snd (run_script PyStr.title_ascii (parse_as demo_notebook) PyStr.of_int PyStr.of_int
                  (start_world demo_fs)) in
  fst (run_script PyStr.title_ascii (parse_as demo_notebook) PyStr.of_int PyStr.of_int
         (start_world demo_fs)) = 0%Z /\
  w_stdout w
  = [ "🚀 Generating README files for notebook directories...";
      "⚠️  Folder not found: notebooks/exploratory_analysis";
      "Warning: Could not read notebook notebooks/model_training/a_intro.ipynb: [Errno 13] Permission denied";
      "✓ Generated README for model_training (2 notebooks)";
      "⚠️  Folder not found: notebooks/model_evaluation";
      "⚠️  Folder not found: notebooks/results_visualization";
      "Warning: Could not read notebook notebooks/model_training/a_intro.ipynb: [Errno 13] Permission denied";
      "✓ Generated main notebooks README";
      PyStr.nl ++ "✅ Complete! Generated README files for 1 folders.";
      "📝 Files created:";
      "   - NOTEBOOKS_README.md (main overview)";
      "   - notebooks/model_training/README.md" ] /\
  fs_open (w_fs w) "notebooks/model_training/README.md"
  = inr (PyStr.join PyStr.nl (demo_readme_lines ++ ["*Generated on 0*"])%list) /\
  fs_exists (w_fs w) "notebooks/exploratory_analysis/README.md" = false.
Proof. vm_compute. repeat split. Qed.


(** C8 on the example: the second run starts where the first one ended. *)
Lemma rerun_same_but_stamp_witness :
  fst (run_script PyStr.title_ascii (parse_as demo_notebook) PyStr.of_int PyStr.of_int
         (snd (run_script PyStr.title_ascii (parse_as demo_notebook) PyStr.of_int PyStr.of_int
                 (start_world demo_fs))))
  = fst (run_script PyStr.title_ascii (parse_as demo_notebook) PyStr.of_int PyStr.of_int
           (start_world demo_fs)) /\
  forall p,
    fs_exists
      (w_fs (snd (run_script PyStr.title_ascii (parse_as demo_notebook) PyStr.of_int PyStr.of_int
                    (snd (run_script PyStr.title_ascii (parse_as demo_notebook) PyStr.of_int
                            PyStr.of_int (start_world demo_fs)))))) p
    = fs_exists
        (w_fs (snd (run_script PyStr.title_ascii (parse_as demo_notebook) PyStr.of_int PyStr.of_int
                      (start_world demo_fs)))) p /\
    same_but_stamp PyStr.of_int
      (fs_open
         (w_fs (snd (run_script PyStr.title_ascii (parse_as demo_notebook) PyStr.of_int PyStr.of_int
                       (start_world demo_fs)))) p)
      (fs_open
         (w_fs (snd (run_script PyStr.title_ascii (parse_as demo_notebook) PyStr.of_int PyStr.of_int
                       (snd (run_script PyStr.title_ascii (parse_as demo_notebook) PyStr.of_int
                               PyStr.of_int (start_world demo_fs)))))) p).
Proof.
  exact (rerun_same_but_stamp PyStr.title_ascii (parse_as demo_notebook) PyStr.of_int PyStr.of_int
           (start_world demo_fs)
           (snd (run_script PyStr.title_ascii (parse_as demo_notebook) PyStr.of_int PyStr.of_int
                   (start_world demo_fs)))
           (same_files_refl _)).
Defined.

(** The two runs on the example: the folder README of the second run is
    that of the first but for the clock reading in its last line, and the
    directory lists the README after the first run. *)
Example rerun_folder_readme :
  let w1 := snd (run_script PyStr.title_ascii (parse_as demo_notebook) PyStr.of_int PyStr.of_int
                   (start_world demo_fs)) in
  let w2 := snd (run_script PyStr.title_ascii (parse_as demo_notebook) PyStr.of_int PyStr.of_int w1) in
  fs_open (w_fs w1) "notebooks/model_training/README.md"
  = inr (PyStr.join PyStr.nl (demo_readme_lines ++ ["*Generated on 0*"])%list) /\
  fs_open (w_fs w2) "notebooks/model_training/README.md"
  = inr (PyStr.join PyStr.nl (demo_readme_lines ++ ["*Generated on 2*"])%list) /\
  fs_listdir (w_fs w2) "notebooks/model_training"
  = inr ["README.md"; "b_trends.ipynb"; "notes.txt"; "a_intro.ipynb"].
Proof. vm_compute. repeat split. Qed.

(** X2 on [sales_forecast.ipynb]. *)
Lemma notebook_links_of_stem_witness :
  generate_notebook_links "sales_forecast.ipynb" "model_training"
  = ("notebooks/model_training/sales_forecast.ipynb", "docs/sales_forecast.html").
Proof.
  exact (notebook_links_of_stem "sales_forecast" "model_training" eq_refl).
Defined.

(** ** The further properties on the example *)

Lemma demo_times f :
  In f (PyStr.sort
          (filter is_notebook_file ["b_trends.ipynb"; "notes.txt"; "a_intro.ipynb"])) ->
  exists t,
    fs_getmtime demo_fs (PyStr.path_join "notebooks/model_training" f) = inr t.
Proof. intros _. exists 20240105%Z. reflexivity. Qed.

Lemma demo_main_ok : main_ok demo_fs.
Proof.
  split; [|reflexivity].
  intros key [<-|[<-|[<-|[<-|[]]]]] He; try discriminate He.
  eexists. reflexivity.
Qed.

Lemma demo_io_ok : io_ok demo_fs.
Proof.
  split; [|reflexivity].
  intros key [<-|[<-|[<-|[<-|[]]]]] He; try discriminate He.
  split; [eexists; reflexivity|].
  split; [|reflexivity].
  intros f _. exists 20240105%Z. reflexivity.
Qed.

(** X5 on a path that two file systems read alike. *)
Lemma extract_reads_one_file_witness :
  exists md warn,
    extract_notebook_metadata PyStr.title_ascii (parse_as demo_notebook)
      "notebooks/model_training/b_trends.ipynb" (start_world demo_fs)
    = (Returns md, emits warn (start_world demo_fs)) /\
    extract_notebook_metadata PyStr.title_ascii (parse_as demo_notebook)
      "notebooks/model_training/b_trends.ipynb" (start_world readable_fs)
    = (Returns md, emits warn (start_world readable_fs)) /\
    (List.length warn <= 1)%nat.
Proof.
  exact (extract_reads_one_file PyStr.title_ascii (parse_as demo_notebook)
           "notebooks/model_training/b_trends.ipynb"
           (start_world demo_fs) (start_world readable_fs) eq_refl).
Defined.



(** The same file when its time cannot be read, as for a link to a file
    that is not there: the folder builder raises after the warning, and
    no README is written. *)
Example dangling_notebook_stops_folder :
  let fs :=
    {| fs_exists := fs_exists demo_fs;
       fs_listdir := fs_listdir demo_fs;
       fs_getmtime := fun p =>
         if p =? "notebooks/model_training/a_intro.ipynb"
         then inl "[Errno 2] No such file or directory: 'notebooks/model_training/a_intro.ipynb'"
         else inr 20240105%Z;
       fs_open := fs_open demo_fs;
       fs_create := fs_create demo_fs |} in
  generate_folder_readme PyStr.title_ascii (parse_as demo_notebook) PyStr.of_int PyStr.of_int
    "notebooks/model_training" "model_training" (start_world fs)
  = (Raises (Exception "[Errno 2] No such file or directory: 'notebooks/model_training/a_intro.ipynb'"),
     emit "Warning: Could not read notebook notebooks/model_training/a_intro.ipynb: [Errno 13] Permission denied"
       (start_world fs)).
Proof. vm_compute. reflexivity. Qed.




(** What a run does change besides the files it writes: the folder lists
    the new README, and the time of the folder is the time of the write. *)
Example run_changes_folder :
  let w := start_world demo_fs in
  let fs' := w_fs (snd (run_script PyStr.title_ascii (parse_as demo_notebook)
                          PyStr.of_int PyStr.of_int w)) in
  fs_listdir fs' "notebooks/model_training"
  = inr ["README.md"; "b_trends.ipynb"; "notes.txt"; "a_intro.ipynb"] /\
  fs_getmtime (w_fs w) "notebooks/model_training" = inr 20240105%Z /\
  fs_getmtime fs' "notebooks/model_training" = inr 1%Z.
Proof. vm_compute. repeat split. Qed.


(** A name with the text [.ipynb] twice: the page that is checked is not
    the page that is linked. *)
Example rendered_page_other_than_link :
  "docs/" ++ PyStr.replace ".ipynb" ".html" "a.ipynb.ipynb" = "docs/a.html.html" /\
  snd (generate_notebook_links "a.ipynb.ipynb" "model_training") = "docs/a.html".
Proof. split; reflexivity. Qed.

(** X12 on a file of the example. *)
Lemma default_title_of_file_witness :
  default_title PyStr.title_ascii (PyStr.path_join "notebooks/model_training" "a_intro.ipynb")
  = PyStr.title_ascii
      (PyStr.replace "_" " " (PyStr.replace ".ipynb" EmptyString "a_intro.ipynb")).
Proof.
  exact (default_title_of_file PyStr.title_ascii "notebooks/model_training" "a_intro.ipynb"
           eq_refl).
Defined.


(** The main README of the example. *)
Example main_readme_of_example :
  main_readme_lines PyStr.title_ascii (parse_as demo_notebook) PyStr.of_int demo_fs 7
  = [ "# 📊 Time Series Analysis - Notebook Overview";
      "";
      "Auto-generated overview of all analysis notebooks in this project.";
      "";
      "## 🎯 Quick Access - Interactive Results";
      "";
      "*Perfect for presentations and stakeholders - all plots are interactive:*";
      "";
      "### 🛠️ Model Training";
      "- [📊 Weekly Trends](docs/b_trends.html)";
      "";
      "## 👨‍💻 Technical Notebooks";
      "";
      "*For developers and data scientists:*";
      "";
      "### [🛠️ Model Training](notebooks/model_training/)";
      "Building and refining time series forecasting models using statistical and ML techniques.";
      "";
      "---";
      "*Auto-generated on 7 | Run `python generate_readme.py` to update*" ].
Proof. vm_compute. reflexivity. Qed.

(** X14 on the notebook of the example. *)
Lemma well_formed_notebook_silent_witness :
  exists md,
    extract_notebook_metadata PyStr.title_ascii (parse_as demo_notebook)
      "notebooks/model_training/b_trends.ipynb" (start_world demo_fs)
    = (Returns md, start_world demo_fs).
Proof.
  apply (well_formed_notebook_silent PyStr.title_ascii (parse_as demo_notebook)
           "notebooks/model_training/b_trends.ipynb" (start_world demo_fs)
           demo_notebook eq_refl).
  - repeat constructor; discriminate.
  - repeat constructor; discriminate.
  - repeat constructor; discriminate.
Defined.
